(** * ethereum-etl-airflow: the export DAG ([dags/export_dag.py])

    A shallow embedding of the module that builds the daily export DAG:
    the environment-sourced configuration, the partition path resolver
    [export_path], the transfer helpers [copy_to_export_path] and
    [copy_from_export_path], the six step commands and the conditional
    graph wiring done by [add_export_task].

    Conventions.
    - [os.environ] is a finite map from names to values, so
      [os.environ.get(name)] is a map lookup.
    - Python [str] values are Rocq strings; all literals of the module are
      ASCII.
    - Python exceptions are the [Err] results of a state-and-error monad
      over the [World]: the object store, the local file system and a
      ghost log of the calls made. *)

From Stdlib Require Import ZArith Ascii String List Lia Bool.
From stdpp Require Import base option gmap strings list.

Local Open Scope Z_scope.

(** ** Python string helpers *)

Module PyStr.

(** [ch.lower()] on an ASCII character: 'A'..'Z' move to 'a'..'z'. *)
Definition lower_ascii (c : ascii) : ascii :=
  let n := nat_of_ascii c in
  if (65 <=? n)%nat && (n <=? 90)%nat then ascii_of_nat (n + 32) else c.

(** [s.lower()].  No character outside ASCII lowers to one of the letters
    of "true" and "yes", so the bytewise reading agrees with Python's on
    the membership test the module makes. *)
Fixpoint lower (s : string) : string :=
  match s with
  | EmptyString => EmptyString
  | String c rest => String (lower_ascii c) (lower rest)
  end.

(** [len(s)] *)
Definition len (s : string) : Z := Z.of_nat (String.length s).

Definition digit_char (n : Z) : ascii := ascii_of_nat (48 + Z.to_nat n).

(** Decimal digits of a non-negative integer, most significant first. *)
Fixpoint digits_of (fuel : nat) (n : Z) (acc : string) : string :=
  match fuel with
  | O => acc
  | S fuel' =>
      let acc' := String (digit_char (n mod 10)) acc in
      if n <? 10 then acc' else digits_of fuel' (n / 10) acc'
  end.

(** [str(n)] for [0 <= n]: a number below [2^k] has at most [k] digits. *)
Definition str_of_int (n : Z) : string :=
  digits_of (S (Z.to_nat (Z.log2 n))) n EmptyString.

Fixpoint zeros (k : nat) : string :=
  match k with
  | O => EmptyString
  | S k' => String "0" (zeros k')
  end.

(** [s.zfill(width)] for an unsigned numeral. *)
Definition zfill (width : nat) (s : string) : string :=
  zeros (width - String.length s) +:+ s.

(** The part of [s] after its last [sep], or [s] when there is none;
    [acc] is the part read since the last separator. *)
Fixpoint after_last (sep : ascii) (s : string) (acc : string) : string :=
  match s with
  | EmptyString => acc
  | String c rest =>
      if Ascii.eqb c sep then after_last sep rest EmptyString
      else after_last sep rest (acc +:+ String c EmptyString)
  end.

(** Whether [c] occurs in [s]. *)
Fixpoint mem_char (c : ascii) (s : string) : bool :=
  match s with
  | EmptyString => false
  | String c' rest => Ascii.eqb c' c || mem_char c rest
  end.

(** [s.split(sep)] for a one-character separator; [cur] is the field being
    read. *)
Fixpoint split_go (sep : ascii) (s : string) (cur : string) : list string :=
  match s with
  | EmptyString => [cur]
  | String c rest =>
      if Ascii.eqb c sep then cur :: split_go sep rest EmptyString
      else split_go sep rest (cur +:+ String c EmptyString)
  end.

Definition split (sep : ascii) (s : string) : list string :=
  split_go sep s EmptyString.

(** ASCII white space, as [str.strip()] removes it: the blank, tab to
    carriage return, and the four separators 28 to 31. *)
Definition is_space (c : ascii) : bool :=
  let n := nat_of_ascii c in
  (n =? 32)%nat || ((9 <=? n)%nat && (n <=? 13)%nat) ||
  ((28 <=? n)%nat && (n <=? 31)%nat).

Fixpoint lstrip (s : string) : string :=
  match s with
  | EmptyString => EmptyString
  | String c rest => if is_space c then lstrip rest else s
  end.

Fixpoint rstrip (s : string) : string :=
  match s with
  | EmptyString => EmptyString
  | String c rest =>
      match rstrip rest with
      | EmptyString => if is_space c then EmptyString else String c EmptyString
      | rest' => String c rest'
      end
  end.

(** [s.strip()] *)
Definition strip (s : string) : string := rstrip (lstrip s).

End PyStr.

(** ** [os.path] on POSIX paths *)

Module OsPath.

(** [os.path.join(a, b)] for a directory [a] that does not end in a slash
    and a relative [b], the only way the module calls it. *)
Definition join (a b : string) : string := a +:+ "/" +:+ b.

(** [os.path.basename(p)]: what follows the last slash. *)
Definition basename (p : string) : string := PyStr.after_last "/" p EmptyString.

End OsPath.

(** ** Logical dates *)

(** The calendar part of the [execution_date] a step command receives; the
    module reads nothing else of it. *)
Record date : Type := Date { year : Z; month : Z; day : Z }.

Definition is_leap (y : Z) : bool :=
  (y mod 4 =? 0) && (negb (y mod 100 =? 0) || (y mod 400 =? 0)).

Definition days_in_month (y m : Z) : Z :=
  if m =? 2 then (if is_leap y then 29 else 28)
  else if (m =? 4) || (m =? 6) || (m =? 9) || (m =? 11) then 30
  else 31.

(** The dates [datetime] can hold: [MINYEAR = 1], [MAXYEAR = 9999]. *)
Definition valid_date (d : date) : bool :=
  (1 <=? year d) && (year d <=? 9999) &&
  (1 <=? month d) && (month d <=? 12) &&
  (1 <=? day d) && (day d <=? days_in_month (year d) (month d)).

(** One [strftime] directive: [%Y] is the year on four digits, [%m] and
    [%d] the month and the day on two. *)
Definition directive (c : ascii) (d : date) : string :=
  if Ascii.eqb c "Y" then PyStr.zfill 4 (PyStr.str_of_int (year d))
  else if Ascii.eqb c "m" then PyStr.zfill 2 (PyStr.str_of_int (month d))
  else if Ascii.eqb c "d" then PyStr.zfill 2 (PyStr.str_of_int (day d))
  else String c EmptyString.

(** [date.strftime(fmt)]; [pending] says that the last character was the
    percent sign opening a directive. *)
Fixpoint strftime_go (d : date) (pending : bool) (fmt : string) : string :=
  match fmt with
  | EmptyString => EmptyString
  | String c rest =>
      if pending then directive c d +:+ strftime_go d false rest
      else if Ascii.eqb c "%" then strftime_go d true rest
      else String c (strftime_go d false rest)
  end.

Definition strftime (d : date) (fmt : string) : string := strftime_go d false fmt.

(** ** Environment configuration *)

Abbreviation environ := (gmap string string).

(** [get_boolean_env_variable(env_variable_name, default=True)] *)
Definition get_boolean_env_variable (env : environ) (env_variable_name : string)
    (default : bool) : bool :=
  match env !! env_variable_name with
  | None => default
  | Some raw_env =>
      if (PyStr.len raw_env =? 0) then default
      else bool_decide (PyStr.lower raw_env ∈ ["true"; "yes"])
  end.

(** ** The partition path resolver *)

(** [export_path(directory, date)] *)
Definition export_path (directory : string) (d : date) : string :=
  "export/" +:+ directory +:+ "/block_date=" +:+ strftime d "%Y-%m-%d" +:+ "/".

(** The artifact kinds: the directories the step commands pass to
    [export_path]. *)
Inductive ArtifactKind : Type :=
  | BlocksMeta | Blocks | Transactions | Receipts | Logs
  | Contracts | Tokens | TokenTransfers | Traces.

Definition kind_directory (k : ArtifactKind) : string :=
  match k with
  | BlocksMeta => "blocks_meta"
  | Blocks => "blocks"
  | Transactions => "transactions"
  | Receipts => "receipts"
  | Logs => "logs"
  | Contracts => "contracts"
  | Tokens => "tokens"
  | TokenTransfers => "token_transfers"
  | Traces => "traces"
  end.

(** The file each kind is exchanged as: the basename of the local file the
    commands upload and download. *)
Definition kind_filename (k : ArtifactKind) : string :=
  match k with
  | BlocksMeta => "blocks_meta.txt"
  | Blocks => "blocks.csv"
  | Transactions => "transactions.csv"
  | Receipts => "receipts.csv"
  | Logs => "logs.json"
  | Contracts => "contracts.json"
  | Tokens => "tokens.csv"
  | TokenTransfers => "token_transfers.csv"
  | Traces => "traces.csv"
  end.

#[global] Instance ArtifactKind_eq_dec : EqDecision ArtifactKind.
Proof. solve_decision. Defined.

(** ** Exceptions and the state-and-error monad *)

Inductive transfer_op : Type := Download | Upload.

Inductive transfer_failure : Type :=
  | Unreachable | ObjectNotFound | LocalFileMissing.

Inductive exn : Type :=
  | ValueError (msg : string)
  | FileNotFoundError (path : string)
  | DuplicateTaskIdFound (task_id : string)
  | ExtractionError (unit_of_work : string)
  | TransferError (op : transfer_op) (why : transfer_failure).

Inductive result (A : Type) : Type :=
  | Ok (a : A)
  | Err (e : exn).
Arguments Ok {A} a.
Arguments Err {A} e.

(** A computation over a state [S] that returns or raises; the state it
    leaves behind is kept in both cases, as the effects of a Python
    function that raises are. *)
Definition M (S A : Type) : Type := S -> result A * S.

Definition ret {S A} (a : A) : M S A := fun s => (Ok a, s).

Definition raise {S A} (e : exn) : M S A := fun s => (Err e, s).

Definition bind {S A B} (c : M S A) (k : A -> M S B) : M S B :=
  fun s =>
    match c s with
    | (Ok a, s') => k a s'
    | (Err e, s') => (Err e, s')
    end.

Definition modify {S} (f : S -> S) : M S unit := fun s => (Ok tt, f s).

(** [try: c finally: h]: [h] runs on both exits, and the outcome of [c] is
    the outcome of the whole. *)
Definition finally {S A} (c : M S A) (h : S -> S) : M S A :=
  fun s => let '(r, s') := c s in (r, h s').

Notation "'let*' x ':=' c1 'in' c2" := (bind c1 (fun x => c2))
  (at level 10, x pattern, c1 at level 100, c2 at level 200).

(** [for x in xs: body(x)] *)
Fixpoint for_each {S A} (xs : list A) (body : A -> M S unit) : M S unit :=
  match xs with
  | [] => ret tt
  | x :: rest => let* _ := body x in for_each rest body
  end.

(** ** The world a step command runs in *)

(** Ghost record of the calls a command makes, in order: each unit of
    work of [ethereumetl.cli], and each transfer with its bucket, object
    name and local file. *)
Inductive event : Type :=
  | EvCall (unit_of_work : string)
  | EvDownload (bucket object filename : string)
  | EvUpload (bucket object filename : string).

(** The object store keyed by bucket and object name, the local files by
    path, the local directories, whether the store answers each of the
    coming transfer calls (an exhausted list means it does), and the
    ghost log. *)
Record World : Type := mkWorld {
  store : gmap (string * string) string;
  files : gmap string string;
  dirs : gset string;
  reachable : list bool;
  log : list event
}.

Definition set_store (f : gmap (string * string) string -> gmap (string * string) string)
    (w : World) : World :=
  mkWorld (f (store w)) (files w) (dirs w) (reachable w) (log w).

Definition set_files (f : gmap string string -> gmap string string) (w : World) : World :=
  mkWorld (store w) (f (files w)) (dirs w) (reachable w) (log w).

Definition set_dirs (f : gset string -> gset string) (w : World) : World :=
  mkWorld (store w) (files w) (f (dirs w)) (reachable w) (log w).

Definition set_reachable (l : list bool) (w : World) : World :=
  mkWorld (store w) (files w) (dirs w) l (log w).

Definition emit (ev : event) : M World unit :=
  modify (fun w => mkWorld (store w) (files w) (dirs w) (reachable w) (log w ++ [ev])).

(** [open(path).read()] *)
Definition read_file (path : string) : M World string :=
  fun w =>
    match files w !! path with
    | Some content => (Ok content, w)
    | None => (Err (FileNotFoundError path), w)
    end.

(** Writing [content] to [path], replacing what was there. *)
Definition write_file (path content : string) : M World unit :=
  modify (set_files (insert path content)).

(** Whether the store answers the next transfer call. *)
Definition next_reachable : M World bool :=
  fun w =>
    match reachable w with
    | [] => (Ok true, w)
    | b :: rest => (Ok b, set_reachable rest w)
    end.

(** *** The scoped temporary directory *)

(** Whether [path] lies under the directory [dir]. *)
Definition is_under (dir path : string) : bool := String.prefix (dir +:+ "/") path.

(** [shutil.rmtree(dir)]: the directory goes, with every file under it. *)
Definition rmtree (dir : string) (w : World) : World :=
  set_dirs (fun ds => ds ∖ {[dir]})
    (set_files (filter (fun kv => is_under dir kv.1 = false)) w).

(** [with TemporaryDirectory() as tempdir: body].  [tempdir] is the name
    the call picks; the directory is created on entry and removed by
    [__exit__] on every way out of [body]. *)
Definition with_TemporaryDirectory {A} (tempdir : string)
    (body : string -> M World A) : M World A :=
  let* _ := modify (set_dirs (fun ds => ds ∪ {[tempdir]})) in
  finally (body tempdir) (rmtree tempdir).

(** *** The storage hook *)

(** Modelled from the spec: the object store interface of the external
    storage collaborator ([GoogleCloudStorageHook], section 6):
    [upload(localPath, bucket, remotePath)] and
    [download(bucket, remotePath, localPath)] fail with a retryable error
    when the store is unreachable, [download] fails with not-found on a
    missing object, [upload] fails on a missing local file (section 4.3)
    and overwrites an existing object. *)
Module cloud_storage_hook.

Definition upload (bucket object filename : string) : M World unit :=
  let* _ := emit (EvUpload bucket object filename) in
  fun w =>
    match files w !! filename with
    | None => (Err (TransferError Upload LocalFileMissing), w)
    | Some content =>
        (let* up := next_reachable in
         if up : bool then modify (set_store (insert (bucket, object) content))
         else raise (TransferError Upload Unreachable)) w
    end.

Definition download (bucket object filename : string) : M World unit :=
  let* _ := emit (EvDownload bucket object filename) in
  let* up := next_reachable in
  if up : bool then
    fun w =>
      match store w !! (bucket, object) with
      | None => (Err (TransferError Download ObjectNotFound), w)
      | Some content => write_file filename content w
      end
  else raise (TransferError Download Unreachable).

End cloud_storage_hook.

(** ** The units of work of [ethereumetl.cli] *)

(** Each callback as a function from its parameters and the contents of
    its input files to the contents of its output files, or [None] when
    it fails. *)
Module cli.

Record t : Type := {
  get_block_range_for_date : forall (provider_uri : string) (d : date), option string;
  extract_csv_column : forall (input column : string), option string;
  filter_items : forall (input predicate : string), option string;
  extract_field : forall (input field : string), option string;
  export_blocks_and_transactions :
    forall (start_block end_block batch_size : Z) (provider_uri : string)
           (max_workers : Z), option (string * string);
  export_receipts_and_logs :
    forall (batch_size : Z) (transaction_hashes provider_uri : string)
           (max_workers : Z), option (string * string);
  export_contracts :
    forall (batch_size : Z) (contract_addresses : string) (max_workers : Z)
           (provider_uri : string), option string;
  export_tokens :
    forall (token_addresses : string) (max_workers : Z) (provider_uri : string),
      option string;
  extract_token_transfers :
    forall (logs : string) (batch_size max_workers : Z), option string;
  export_traces :
    forall (start_block end_block batch_size max_workers : Z)
           (provider_uri : string) (genesis_traces daofork_traces : bool),
      option string
}.

End cli.

(** [unit.callback(...)] with one output file: the call is logged, a
    failure raises, a success leaves the output at its path. *)
Definition callback (unit_of_work : string) (outcome : option string)
    (output : string) : M World unit :=
  let* _ := emit (EvCall unit_of_work) in
  match outcome with
  | None => raise (ExtractionError unit_of_work)
  | Some content => write_file output content
  end.

(** The same with two output files. *)
Definition callback2 (unit_of_work : string) (outcome : option (string * string))
    (output1 output2 : string) : M World unit :=
  let* _ := emit (EvCall unit_of_work) in
  match outcome with
  | None => raise (ExtractionError unit_of_work)
  | Some (content1, content2) =>
      let* _ := write_file output1 content1 in
      write_file output2 content2
  end.

(** The input file of a callback: one that cannot be read fails the unit
    of work. *)
Definition callback_input (unit_of_work : string) (input : string) : M World string :=
  fun w =>
    match files w !! input with
    | Some content => (Ok content, w)
    | None =>
        (let* _ := emit (EvCall unit_of_work) in
         raise (ExtractionError unit_of_work)) w
    end.

(** ** The module's globals *)

(** What lines 56 to 76 bind. *)
Record Config : Type := mkConfig {
  output_bucket : string;
  web3_provider_uri : string;
  web3_provider_uri_archival : string;
  export_max_workers : Z;
  export_batch_size : Z;
  export_daofork_traces_option : bool;
  export_genesis_traces_option : bool;
  export_blocks_and_transactions_toggle : bool;
  export_receipts_and_logs_toggle : bool;
  export_contracts_toggle : bool;
  export_tokens_toggle : bool;
  extract_token_transfers_toggle : bool;
  export_traces_toggle : bool
}.

(** [default_dag_args] *)
Record DagArgs : Type := mkDagArgs {
  depends_on_past : bool;
  start_date : date;
  email_on_failure : bool;
  email_on_retry : bool;
  retries : Z;
  retry_delay_minutes : Z;
  email : option (list string)
}.

(** The six step commands, as the values [python_callable] takes. *)
Inductive Command : Type :=
  | export_blocks_and_transactions_command
  | export_receipts_and_logs_command
  | export_contracts_command
  | export_tokens_command
  | extract_token_transfers_command
  | export_traces_command.

Record PythonOperator : Type := mkPythonOperator {
  task_id : string;
  python_callable : Command;
  provide_context : bool;
  execution_timeout_hours : Z
}.

(** The DAG object: its tasks in the order they were added and the
    dependency edges, each from the upstream task id to the downstream
    one. *)
Record DAG : Type := mkDAG {
  dag_id : string;
  schedule_interval : string;
  default_args : DagArgs;
  tasks : list PythonOperator;
  edges : list (string * string)
}.

Definition task_ids (dag : DAG) : list string := map task_id (tasks dag).

(** [PythonOperator(..., dag=dag)] registers the task with the DAG, which
    refuses a task id it already holds. *)
Definition add_task (op : PythonOperator) : M DAG unit :=
  fun dag =>
    if bool_decide (task_id op ∈ task_ids dag)
    then (Err (DuplicateTaskIdFound (task_id op)), dag)
    else (Ok tt, mkDAG (dag_id dag) (schedule_interval dag) (default_args dag)
                       (tasks dag ++ [op]) (edges dag)).

(** [upstream >> downstream] *)
Definition set_downstream (upstream downstream : PythonOperator) : M DAG unit :=
  modify (fun dag =>
    mkDAG (dag_id dag) (schedule_interval dag) (default_args dag) (tasks dag)
          (edges dag ++ [(task_id upstream, task_id downstream)])).

(** [add_export_task(toggle, task_id, python_callable, dependencies=None)] *)
Definition add_export_task (toggle : bool) (task_id : string)
    (python_callable : Command)
    (dependencies : option (list (option PythonOperator)))
    : M DAG (option PythonOperator) :=
  if toggle then
    let operator := mkPythonOperator task_id python_callable true 15 in
    let* _ := add_task operator in
    let* _ :=
      match dependencies with
      | Some deps =>
          if 0 <? Z.of_nat (length deps) then
            for_each deps (fun dependency =>
              match dependency with
              | Some dep => set_downstream dep operator
              | None => ret tt
              end)
          else ret tt
      | None => ret tt
      end in
    ret (Some operator)
  else ret None.

(** The operators of lines 282 to 318, in their order. *)
Definition add_operators (cfg : Config) : M DAG unit :=
  let* export_blocks_and_transactions_operator :=
    add_export_task (export_blocks_and_transactions_toggle cfg)
      "export_blocks_and_transactions" export_blocks_and_transactions_command None in
  let* export_receipts_and_logs_operator :=
    add_export_task (export_receipts_and_logs_toggle cfg)
      "export_receipts_and_logs" export_receipts_and_logs_command
      (Some [export_blocks_and_transactions_operator]) in
  let* export_contracts_operator :=
    add_export_task (export_contracts_toggle cfg)
      "export_contracts" export_contracts_command
      (Some [export_receipts_and_logs_operator]) in
  let* export_tokens_operator :=
    add_export_task (export_tokens_toggle cfg)
      "export_tokens" export_tokens_command
      (Some [export_contracts_operator]) in
  let* extract_token_transfers_operator :=
    add_export_task (extract_token_transfers_toggle cfg)
      "extract_token_transfers" extract_token_transfers_command
      (Some [export_receipts_and_logs_operator]) in
  let* export_traces_operator :=
    add_export_task (export_traces_toggle cfg)
      "export_traces" export_traces_command None in
  ret tt.

(** [default_dag_args], with the recipients of [NOTIFICATION_EMAILS] when
    the variable is set and not empty. *)
Definition default_dag_args (env : environ) : DagArgs :=
  mkDagArgs false (Date 2015 7 30) true true 5 5
    match env !! "NOTIFICATION_EMAILS" with
    | Some notification_emails =>
        if 0 <? PyStr.len notification_emails
        then Some (map PyStr.strip (PyStr.split "," notification_emails))
        else None
    | None => None
    end.

(** [models.DAG("ethereumetl_export_dag", ...)]: daily at 1am, no task
    yet. *)
Definition new_dag (env : environ) : DAG :=
  mkDAG "ethereumetl_export_dag" "0 1 * * *" (default_dag_args env) [] [].

Section Loading.

(** [int(s)] on a string: the integer it denotes, or [None] where Python
    raises [ValueError]. *)
Variable py_int : string -> option Z.

(** [int(os.environ.get(name, default))] *)
Definition int_env_variable {S} (env : environ) (name : string) (default : Z) : M S Z :=
  match env !! name with
  | None => ret default
  | Some raw =>
      match py_int raw with
      | Some n => ret n
      | None => raise (ValueError "invalid literal for int()")
      end
  end.

(** Lines 56 to 76: the settings read from the environment. *)
Definition load_config {S} (env : environ) : M S Config :=
  let* output_bucket :=
    match env !! "OUTPUT_BUCKET" with
    | None => raise (ValueError "You must set OUTPUT_BUCKET environment variable")
    | Some bucket => ret bucket
    end in
  let web3_provider_uri :=
    default "https://mainnet.infura.io/" (env !! "WEB3_PROVIDER_URI") in
  let web3_provider_uri_archival :=
    default web3_provider_uri (env !! "WEB3_PROVIDER_URI_ARCHIVAL") in
  let* export_max_workers := int_env_variable env "EXPORT_MAX_WORKERS" 5 in
  let* export_batch_size := int_env_variable env "EXPORT_BATCH_SIZE" 10 in
  ret (mkConfig output_bucket web3_provider_uri web3_provider_uri_archival
         export_max_workers export_batch_size
         (get_boolean_env_variable env "EXPORT_DAOFORK_TRACES_OPTION" true)
         (get_boolean_env_variable env "EXPORT_GENESIS_TRACES_OPTION" true)
         (get_boolean_env_variable env "EXPORT_BLOCKS_AND_TRANSACTIONS" true)
         (get_boolean_env_variable env "EXPORT_RECEIPTS_AND_LOGS" true)
         (get_boolean_env_variable env "EXPORT_CONTRACTS" true)
         (get_boolean_env_variable env "EXPORT_TOKENS" true)
         (get_boolean_env_variable env "EXTRACT_TOKEN_TRANSFERS" true)
         (get_boolean_env_variable env "EXPORT_TRACES" true)).

(** Importing the module: the DAG object is created, the settings are
    read, the operators are added.  The result is the configuration or the
    exception that stopped the import, with the DAG as it then stands. *)
Definition load_module (env : environ) : result Config * DAG :=
  (let* cfg := load_config env in
   let* _ := add_operators cfg in
   ret cfg) (new_dag env).

End Loading.

(** ** The step commands *)

Section Commands.

Variable py_int : string -> option Z.
Variable etl : cli.t.
Variable cfg : Config.

(** [copy_to_export_path(file_path, export_path)] *)
Definition copy_to_export_path (file_path export_path : string) : M World unit :=
  let filename := OsPath.basename file_path in
  cloud_storage_hook.upload (output_bucket cfg) (export_path +:+ filename) file_path.

(** [copy_from_export_path(export_path, file_path)] *)
Definition copy_from_export_path (export_path file_path : string) : M World unit :=
  let filename := OsPath.basename file_path in
  cloud_storage_hook.download (output_bucket cfg) (export_path +:+ filename) file_path.

(** [int(s)] inside a command *)
Definition int_of (s : string) : M World Z :=
  match py_int s with
  | Some n => ret n
  | None => raise (ValueError "invalid literal for int()")
  end.

(** [get_block_range(tempdir, date)] *)
Definition get_block_range (tempdir : string) (d : date) : M World (Z * Z) :=
  let* _ :=
    callback "get_block_range_for_date"
      (cli.get_block_range_for_date etl (web3_provider_uri cfg) d)
      (OsPath.join tempdir "blocks_meta.txt") in
  let* block_range := read_file (OsPath.join tempdir "blocks_meta.txt") in
  match PyStr.split "," block_range with
  | [start_block; end_block] =>
      let* start_block := int_of start_block in
      let* end_block := int_of end_block in
      ret (start_block, end_block)
  | _ => raise (ValueError "wrong number of values to unpack")
  end.

Definition export_blocks_and_transactions_body (execution_date : date)
    (tempdir : string) : M World unit :=
  let* (start_block, end_block) := get_block_range tempdir execution_date in
  let* _ :=
    callback2 "export_blocks_and_transactions"
      (cli.export_blocks_and_transactions etl start_block end_block
         (export_batch_size cfg) (web3_provider_uri cfg) (export_max_workers cfg))
      (OsPath.join tempdir "blocks.csv")
      (OsPath.join tempdir "transactions.csv") in
  let* _ :=
    copy_to_export_path (OsPath.join tempdir "blocks_meta.txt")
      (export_path "blocks_meta" execution_date) in
  let* _ :=
    copy_to_export_path (OsPath.join tempdir "blocks.csv")
      (export_path "blocks" execution_date) in
  copy_to_export_path (OsPath.join tempdir "transactions.csv")
    (export_path "transactions" execution_date).

Definition export_receipts_and_logs_body (execution_date : date)
    (tempdir : string) : M World unit :=
  let* _ :=
    copy_from_export_path (export_path "transactions" execution_date)
      (OsPath.join tempdir "transactions.csv") in
  let* input :=
    callback_input "extract_csv_column" (OsPath.join tempdir "transactions.csv") in
  let* _ :=
    callback "extract_csv_column" (cli.extract_csv_column etl input "hash")
      (OsPath.join tempdir "transaction_hashes.txt") in
  let* transaction_hashes :=
    callback_input "export_receipts_and_logs"
      (OsPath.join tempdir "transaction_hashes.txt") in
  let* _ :=
    callback2 "export_receipts_and_logs"
      (cli.export_receipts_and_logs etl (export_batch_size cfg) transaction_hashes
         (web3_provider_uri cfg) (export_max_workers cfg))
      (OsPath.join tempdir "receipts.csv")
      (OsPath.join tempdir "logs.json") in
  let* _ :=
    copy_to_export_path (OsPath.join tempdir "receipts.csv")
      (export_path "receipts" execution_date) in
  copy_to_export_path (OsPath.join tempdir "logs.json")
    (export_path "logs" execution_date).

Definition export_contracts_body (execution_date : date)
    (tempdir : string) : M World unit :=
  let* _ :=
    copy_from_export_path (export_path "receipts" execution_date)
      (OsPath.join tempdir "receipts.csv") in
  let* input :=
    callback_input "extract_csv_column" (OsPath.join tempdir "receipts.csv") in
  let* _ :=
    callback "extract_csv_column"
      (cli.extract_csv_column etl input "contract_address")
      (OsPath.join tempdir "contract_addresses.txt") in
  let* contract_addresses :=
    callback_input "export_contracts"
      (OsPath.join tempdir "contract_addresses.txt") in
  let* _ :=
    callback "export_contracts"
      (cli.export_contracts etl (export_batch_size cfg) contract_addresses
         (export_max_workers cfg) (web3_provider_uri cfg))
      (OsPath.join tempdir "contracts.json") in
  copy_to_export_path (OsPath.join tempdir "contracts.json")
    (export_path "contracts" execution_date).

Definition export_tokens_body (execution_date : date)
    (tempdir : string) : M World unit :=
  let* _ :=
    copy_from_export_path (export_path "contracts" execution_date)
      (OsPath.join tempdir "contracts.json") in
  let* input :=
    callback_input "filter_items" (OsPath.join tempdir "contracts.json") in
  let* _ :=
    callback "filter_items"
      (cli.filter_items etl input "item['is_erc20'] or item['is_erc721']")
      (OsPath.join tempdir "token_contracts.json") in
  let* token_contracts :=
    callback_input "extract_field" (OsPath.join tempdir "token_contracts.json") in
  let* _ :=
    callback "extract_field" (cli.extract_field etl token_contracts "address")
      (OsPath.join tempdir "token_addresses.txt") in
  let* token_addresses :=
    callback_input "export_tokens" (OsPath.join tempdir "token_addresses.txt") in
  let* _ :=
    callback "export_tokens"
      (cli.export_tokens etl token_addresses (export_max_workers cfg)
         (web3_provider_uri cfg))
      (OsPath.join tempdir "tokens.csv") in
  copy_to_export_path (OsPath.join tempdir "tokens.csv")
    (export_path "tokens" execution_date).

Definition extract_token_transfers_body (execution_date : date)
    (tempdir : string) : M World unit :=
  let* _ :=
    copy_from_export_path (export_path "logs" execution_date)
      (OsPath.join tempdir "logs.json") in
  let* logs := callback_input "extract_token_transfers" (OsPath.join tempdir "logs.json") in
  let* _ :=
    callback "extract_token_transfers"
      (cli.extract_token_transfers etl logs (export_batch_size cfg)
         (export_max_workers cfg))
      (OsPath.join tempdir "token_transfers.csv") in
  copy_to_export_path (OsPath.join tempdir "token_transfers.csv")
    (export_path "token_transfers" execution_date).

Definition export_traces_body (execution_date : date)
    (tempdir : string) : M World unit :=
  let* (start_block, end_block) := get_block_range tempdir execution_date in
  let* _ :=
    callback "export_traces"
      (cli.export_traces etl start_block end_block (export_batch_size cfg)
         (export_max_workers cfg) (web3_provider_uri_archival cfg)
         (export_genesis_traces_option cfg) (export_daofork_traces_option cfg))
      (OsPath.join tempdir "traces.csv") in
  copy_to_export_path (OsPath.join tempdir "traces.csv")
    (export_path "traces" execution_date).

(** What stands under [with TemporaryDirectory() as tempdir:] in each
    command. *)
Definition command_body (c : Command) : date -> string -> M World unit :=
  match c with
  | export_blocks_and_transactions_command => export_blocks_and_transactions_body
  | export_receipts_and_logs_command => export_receipts_and_logs_body
  | export_contracts_command => export_contracts_body
  | export_tokens_command => export_tokens_body
  | extract_token_transfers_command => extract_token_transfers_body
  | export_traces_command => export_traces_body
  end.

(** Calling the command [c] for [execution_date]; [tempdir] is the name
    its temporary directory gets. *)
Definition run_command (c : Command) (execution_date : date) (tempdir : string)
    : M World unit :=
  with_TemporaryDirectory tempdir (command_body c execution_date).

End Commands.

(** * Specification-side definitions *)

(** ** The date format of the partition path *)

Definition four_digits (n : Z) : string :=
  String (PyStr.digit_char (n / 1000))
    (String (PyStr.digit_char (n / 100 mod 10))
       (String (PyStr.digit_char (n / 10 mod 10))
          (String (PyStr.digit_char (n mod 10)) EmptyString))).

Definition two_digits (n : Z) : string :=
  String (PyStr.digit_char (n / 10))
    (String (PyStr.digit_char (n mod 10)) EmptyString).

(** [YYYY-MM-DD], digit by digit. *)
Definition iso_date (d : date) : string :=
  four_digits (year d) +:+ "-" +:+ two_digits (month d) +:+ "-" +:+
  two_digits (day d).

(** ** The canonical step list *)

Definition all_steps : list Command :=
  [export_blocks_and_transactions_command; export_receipts_and_logs_command;
   export_contracts_command; export_tokens_command;
   extract_token_transfers_command; export_traces_command].

Definition step_task_id (c : Command) : string :=
  match c with
  | export_blocks_and_transactions_command => "export_blocks_and_transactions"
  | export_receipts_and_logs_command => "export_receipts_and_logs"
  | export_contracts_command => "export_contracts"
  | export_tokens_command => "export_tokens"
  | extract_token_transfers_command => "extract_token_transfers"
  | export_traces_command => "export_traces"
  end.

Definition step_toggle (cfg : Config) (c : Command) : bool :=
  match c with
  | export_blocks_and_transactions_command => export_blocks_and_transactions_toggle cfg
  | export_receipts_and_logs_command => export_receipts_and_logs_toggle cfg
  | export_contracts_command => export_contracts_toggle cfg
  | export_tokens_command => export_tokens_toggle cfg
  | extract_token_transfers_command => extract_token_transfers_toggle cfg
  | export_traces_command => export_traces_toggle cfg
  end.

Definition toggles (cfg : Config) : list bool := map (step_toggle cfg) all_steps.

(** Producer, then consumer. *)
Definition canonical_edges : list (Command * Command) :=
  [(export_blocks_and_transactions_command, export_receipts_and_logs_command);
   (export_receipts_and_logs_command, export_contracts_command);
   (export_contracts_command, export_tokens_command);
   (export_receipts_and_logs_command, extract_token_transfers_command)].

Definition step_operator (c : Command) : PythonOperator :=
  mkPythonOperator (step_task_id c) c true 15.

Definition edge_ids (e : Command * Command) : string * string :=
  (step_task_id e.1, step_task_id e.2).

Definition both_enabled (cfg : Config) (e : Command * Command) : bool :=
  step_toggle cfg e.1 && step_toggle cfg e.2.

(** The graph of section 4.5: a node for every enabled step, a canonical
    edge when both of its ends are enabled. *)
Definition expected_graph (cfg : Config) (env : environ) : DAG :=
  mkDAG "ethereumetl_export_dag" "0 1 * * *" (default_dag_args env)
    (map step_operator (List.filter (step_toggle cfg) all_steps))
    (map edge_ids (List.filter (both_enabled cfg) canonical_edges)).

(** ** The settings *)

(** The flags read through [get_boolean_env_variable], each with the
    global it is bound to. *)
Definition boolean_flags : list (string * (Config -> bool)) :=
  [("EXPORT_DAOFORK_TRACES_OPTION", export_daofork_traces_option);
   ("EXPORT_GENESIS_TRACES_OPTION", export_genesis_traces_option);
   ("EXPORT_BLOCKS_AND_TRANSACTIONS", export_blocks_and_transactions_toggle);
   ("EXPORT_RECEIPTS_AND_LOGS", export_receipts_and_logs_toggle);
   ("EXPORT_CONTRACTS", export_contracts_toggle);
   ("EXPORT_TOKENS", export_tokens_toggle);
   ("EXTRACT_TOKEN_TRANSFERS", extract_token_transfers_toggle);
   ("EXPORT_TRACES", export_traces_toggle)].

(** An integer setting that does not stop the import: it is absent, or
    [int] accepts its text. *)
Definition int_setting_ok (py_int : string -> option Z) (env : environ)
    (name : string) : Prop :=
  match env !! name with
  | None => True
  | Some raw => is_Some (py_int raw)
  end.

(** ** Steps and their artifacts *)

(** The upstream artifact a step fetches, when it has one. *)
Definition fetched_kind (c : Command) : option ArtifactKind :=
  match c with
  | export_receipts_and_logs_command => Some Transactions
  | export_contracts_command => Some Receipts
  | export_tokens_command => Some Contracts
  | extract_token_transfers_command => Some Logs
  | export_blocks_and_transactions_command | export_traces_command => None
  end.

(** The artifacts a step publishes, in the order it uploads them. *)
Definition published_kinds (c : Command) : list ArtifactKind :=
  match c with
  | export_blocks_and_transactions_command => [BlocksMeta; Blocks; Transactions]
  | export_receipts_and_logs_command => [Receipts; Logs]
  | export_contracts_command => [Contracts]
  | export_tokens_command => [Tokens]
  | extract_token_transfers_command => [TokenTransfers]
  | export_traces_command => [Traces]
  end.


(** The one step that produces each kind. *)
Definition producer_of (k : ArtifactKind) : Command :=
  match k with
  | BlocksMeta | Blocks | Transactions => export_blocks_and_transactions_command
  | Receipts | Logs => export_receipts_and_logs_command
  | Contracts => export_contracts_command
  | Tokens => export_tokens_command
  | TokenTransfers => extract_token_transfers_command
  | Traces => export_traces_command
  end.

(** The name an artifact of kind [k] has in the bucket for the date [d],
    and the local file it is exchanged through. *)
Definition object_name (k : ArtifactKind) (d : date) : string :=
  export_path (kind_directory k) d +:+ kind_filename k.

Definition local_file (tempdir : string) (k : ArtifactKind) : string :=
  OsPath.join tempdir (kind_filename k).

Definition is_upload (ev : event) : bool :=
  match ev with
  | EvUpload _ _ _ => true
  | EvCall _ | EvDownload _ _ _ => false
  end.

Definition is_download (ev : event) : bool :=
  match ev with
  | EvDownload _ _ _ => true
  | EvCall _ | EvUpload _ _ _ => false
  end.


(** The exceptions a fetch raises. *)
Definition is_download_error (e : exn) : bool :=
  match e with
  | TransferError Download _ => true
  | _ => false
  end.



(** ** The step executor of section 4.4 *)

(** A pure computation that records the units of work it calls. *)
Definition Traced (A : Type) : Type := list string * result A.

Definition tret {A} (a : A) : Traced A := ([], Ok a).

Definition tfail {A} (e : exn) : Traced A := ([], Err e).

Definition tbind {A B} (c : Traced A) (k : A -> Traced B) : Traced B :=
  match c with
  | (units, Ok a) => let '(units', r) := k a in (units ++ units', r)
  | (units, Err e) => (units, Err e)
  end.

Definition unit_of_work {A} (name : string) (outcome : option A) : Traced A :=
  ([name],
   match outcome with
   | Some a => Ok a
   | None => Err (ExtractionError name)
   end).

Notation "'do*' x ':=' c1 'in' c2" := (tbind c1 (fun x => c2))
  (at level 10, x pattern, c1 at level 100, c2 at level 200).

(** What a step leaves behind: its result, the object store, the answers
    the store has left to give, and the calls made. *)
Record StepOutcome : Type := mkOutcome {
  out_result : result unit;
  out_store : gmap (string * string) string;
  out_reachable : list bool;
  out_events : list event
}.

(** What is observed of a run of a command. *)
Definition observed (run : result unit * World) : StepOutcome :=
  let '(r, w') := run in mkOutcome r (store w') (reachable w') (log w').

(** An outcome whose calls follow those already logged. *)
Definition logged_after (log0 : list event) (o : StepOutcome) : StepOutcome :=
  let '(mkOutcome r s net evs) := o in mkOutcome r s net (log0 ++ evs).

Definition pop (net : list bool) : bool * list bool :=
  match net with
  | [] => (true, [])
  | up :: rest => (up, rest)
  end.

Section StepExecutor.

Variable py_int : string -> option Z.
Variable etl : cli.t.
Variable cfg : Config.

Definition object_key (k : ArtifactKind) (d : date) : string * string :=
  (output_bucket cfg, object_name k d).

(** Block-range resolution: the range file and the two block numbers read
    from it. *)
Definition block_range (d : date) : Traced (string * (Z * Z)) :=
  do* block_range := unit_of_work "get_block_range_for_date"
      (cli.get_block_range_for_date etl (web3_provider_uri cfg) d) in
  match PyStr.split "," block_range with
  | [start_block; end_block] =>
      match py_int start_block with
      | Some start_block =>
          match py_int end_block with
          | Some end_block => tret (block_range, (start_block, end_block))
          | None => tfail (ValueError "invalid literal for int()")
          end
      | None => tfail (ValueError "invalid literal for int()")
      end
  | _ => tfail (ValueError "wrong number of values to unpack")
  end.

(** Step 3, the sub-operations of a step as one transform: from the date
    and the fetched input to the contents of the files the step
    publishes, in the order of [published_kinds]. *)
Definition transform (c : Command) (d : date) (input : string) : Traced (list string) :=
  match c with
  | export_blocks_and_transactions_command =>
      do* (meta, (start_block, end_block)) := block_range d in
      do* (blocks, transactions) := unit_of_work "export_blocks_and_transactions"
          (cli.export_blocks_and_transactions etl start_block end_block
             (export_batch_size cfg) (web3_provider_uri cfg) (export_max_workers cfg)) in
      tret [meta; blocks; transactions]
  | export_receipts_and_logs_command =>
      do* hashes := unit_of_work "extract_csv_column"
          (cli.extract_csv_column etl input "hash") in
      do* (receipts, logs) := unit_of_work "export_receipts_and_logs"
          (cli.export_receipts_and_logs etl (export_batch_size cfg) hashes
             (web3_provider_uri cfg) (export_max_workers cfg)) in
      tret [receipts; logs]
  | export_contracts_command =>
      do* addresses := unit_of_work "extract_csv_column"
          (cli.extract_csv_column etl input "contract_address") in
      do* contracts := unit_of_work "export_contracts"
          (cli.export_contracts etl (export_batch_size cfg) addresses
             (export_max_workers cfg) (web3_provider_uri cfg)) in
      tret [contracts]
  | export_tokens_command =>
      do* token_contracts := unit_of_work "filter_items"
          (cli.filter_items etl input "item['is_erc20'] or item['is_erc721']") in
      do* addresses := unit_of_work "extract_field"
          (cli.extract_field etl token_contracts "address") in
      do* tokens := unit_of_work "export_tokens"
          (cli.export_tokens etl addresses (export_max_workers cfg)
             (web3_provider_uri cfg)) in
      tret [tokens]
  | extract_token_transfers_command =>
      do* transfers := unit_of_work "extract_token_transfers"
          (cli.extract_token_transfers etl input (export_batch_size cfg)
             (export_max_workers cfg)) in
      tret [transfers]
  | export_traces_command =>
      do* (meta, (start_block, end_block)) := block_range d in
      do* traces := unit_of_work "export_traces"
          (cli.export_traces etl start_block end_block (export_batch_size cfg)
             (export_max_workers cfg) (web3_provider_uri_archival cfg)
             (export_genesis_traces_option cfg) (export_daofork_traces_option cfg)) in
      tret [traces]
  end.

(** Step 2: the download a consumer step starts with. *)
Definition fetch_events (c : Command) (d : date) (tempdir : string) : list event :=
  match fetched_kind c with
  | Some k => [EvDownload (output_bucket cfg) (object_name k d) (local_file tempdir k)]
  | None => []
  end.

(** Its result: the content fetched (empty for a step without input),
    with the answers the store has left. *)
Definition fetch_input (c : Command) (d : date)
    (s : gmap (string * string) string) (net : list bool)
    : result string * list bool :=
  match fetched_kind c with
  | None => (Ok EmptyString, net)
  | Some k =>
      match pop net with
      | (true, net') =>
          match s !! object_key k d with
          | Some content => (Ok content, net')
          | None => (Err (TransferError Download ObjectNotFound), net')
          end
      | (false, net') => (Err (TransferError Download Unreachable), net')
      end
  end.

(** Step 4: publish each output in turn; an upload the store does not
    answer stops the step. *)
Fixpoint publish_all (d : date) (tempdir : string)
    (outputs : list (ArtifactKind * string))
    (s : gmap (string * string) string) (net : list bool) : StepOutcome :=
  match outputs with
  | [] => mkOutcome (Ok tt) s net []
  | (k, content) :: rest =>
      let ev := EvUpload (output_bucket cfg) (object_name k d) (local_file tempdir k) in
      match pop net with
      | (true, net') =>
          let o := publish_all d tempdir rest (<[object_key k d := content]> s) net' in
          mkOutcome (out_result o) (out_store o) (out_reachable o) (ev :: out_events o)
      | (false, net') => mkOutcome (Err (TransferError Upload Unreachable)) s net' [ev]
      end
  end.

(** Fetch, transform, publish. *)
Definition step_executor (c : Command) (d : date) (tempdir : string)
    (s : gmap (string * string) string) (net : list bool) : StepOutcome :=
  match fetch_input c d s net with
  | (Err e, net') => mkOutcome (Err e) s net' (fetch_events c d tempdir)
  | (Ok input, net') =>
      match transform c d input with
      | (units, Err e) =>
          mkOutcome (Err e) s net' (fetch_events c d tempdir ++ map EvCall units)
      | (units, Ok contents) =>
          let o := publish_all d tempdir (combine (published_kinds c) contents) s net' in
          mkOutcome (out_result o) (out_store o) (out_reachable o)
            (fetch_events c d tempdir ++ map EvCall units ++ out_events o)
      end
  end.

End StepExecutor.

(** ** Runs *)

Section Runs.

Variable py_int : string -> option Z.
Variable etl : cli.t.
Variable cfg : Config.

(** The calls a run of the command [c] adds to the log. *)
Definition calls_made (c : Command) (d : date) (tempdir : string) (w : World)
    : list event :=
  drop (length (log w)) (log (run_command py_int etl cfg c d tempdir w).2).

(** Dependency integrity as section 8 words it: a step of the built graph
    that fetches an artifact of kind [k] runs beside an enabled producer
    of [k], or its run fails. *)
Definition dependency_integrity (env : environ) : Prop :=
  forall dag op k d tempdir w,
    add_operators cfg (new_dag env) = (Ok tt, dag) ->
    op ∈ tasks dag ->
    EvDownload (output_bucket cfg) (object_name k d) (local_file tempdir k)
      ∈ calls_made (python_callable op) d tempdir w ->
    (exists p, p ∈ tasks dag /\ k ∈ published_kinds (python_callable p)) \/
    (exists e, (run_command py_int etl cfg (python_callable op) d tempdir w).1 = Err e).

End Runs.

(** ** A concrete instance *)

Module Demo.

(** Unsigned decimal literals, the ones a range file holds. *)
Fixpoint decimal (s : string) (acc : Z) : option Z :=
  match s with
  | EmptyString => Some acc
  | String c rest =>
      let n := Z.of_nat (nat_of_ascii c) in
      if (48 <=? n) && (n <=? 57) then decimal rest (10 * acc + (n - 48)) else None
  end.

Definition int (s : string) : option Z :=
  match s with
  | EmptyString => None
  | _ => decimal s 0
  end.

(** Units of work that succeed on every input. *)
Definition etl : cli.t := {|
  cli.get_block_range_for_date := fun _ _ => Some "100,200";
  cli.extract_csv_column := fun input column => Some (column +:+ " of " +:+ input);
  cli.filter_items := fun input _ => Some input;
  cli.extract_field := fun input field => Some (field +:+ " of " +:+ input);
  cli.export_blocks_and_transactions :=
    fun _ _ _ _ _ => Some ("number,hash", "hash,block_number");
  cli.export_receipts_and_logs := fun _ hashes _ _ => Some ("receipts of " +:+ hashes, "{}");
  cli.export_contracts := fun _ addresses _ _ => Some ("contracts of " +:+ addresses);
  cli.export_tokens := fun addresses _ _ => Some ("tokens of " +:+ addresses);
  cli.extract_token_transfers := fun logs _ _ => Some ("transfers of " +:+ logs);
  cli.export_traces := fun _ _ _ _ _ _ _ => Some "traces"
|}.

(** Units of work of which the extraction of a column fails. *)
Definition failing_etl : cli.t := {|
  cli.get_block_range_for_date := fun _ _ => Some "100,200";
  cli.extract_csv_column := fun _ _ => None;
  cli.filter_items := fun input _ => Some input;
  cli.extract_field := fun input _ => Some input;
  cli.export_blocks_and_transactions := fun _ _ _ _ _ => None;
  cli.export_receipts_and_logs := fun _ _ _ _ => None;
  cli.export_contracts := fun _ _ _ _ => None;
  cli.export_tokens := fun _ _ _ => None;
  cli.extract_token_transfers := fun _ _ _ => None;
  cli.export_traces := fun _ _ _ _ _ _ _ => None
|}.

(** The settings with [OUTPUT_BUCKET] alone in the environment, and the
    six toggles as given. *)
Definition config (t1 t2 t3 t4 t5 t6 : bool) : Config :=
  mkConfig "bucket" "https://mainnet.infura.io/" "https://mainnet.infura.io/"
    5 10 true true t1 t2 t3 t4 t5 t6.

Definition all_enabled : Config := config true true true true true true.

Definition all_disabled : Config := config false false false false false false.

(** [EXPORT_BLOCKS_AND_TRANSACTIONS] alone is off. *)
Definition without_blocks : Config := config false true true true true true.

Definition day : date := Date 2021 3 1.

Definition empty_world : World := mkWorld ∅ ∅ ∅ [] [].

(** A store that does not answer the first transfer. *)
Definition unreachable_world : World := mkWorld ∅ ∅ ∅ [false] [].

(** A bucket that holds the transactions of [day] already. *)
Definition with_transactions : World :=
  mkWorld {[ ("bucket", "export/transactions/block_date=2021-03-01/transactions.csv")
             := "hash,block_number" ]} ∅ ∅ [] [].

End Demo.

(** * Further specification-side definitions *)

(** How many times [c] occurs in [s]. *)
Fixpoint count_char (c : ascii) (s : string) : nat :=
  match s with
  | EmptyString => O
  | String c' rest => ((if Ascii.eqb c' c then 1 else 0) + count_char c rest)%nat
  end.

(** Whether the store answers the next [n] transfer calls. *)
Definition answers (n : nat) (net : list bool) : bool := forallb id (take n net).


(** The transfer calls of a step, as they are logged. *)
Definition download_of (cfg : Config) (k : ArtifactKind) (d : date) (tempdir : string)
    : event :=
  EvDownload (output_bucket cfg) (object_name k d) (local_file tempdir k).

Definition upload_of (cfg : Config) (k : ArtifactKind) (d : date) (tempdir : string)
    : event :=
  EvUpload (output_bucket cfg) (object_name k d) (local_file tempdir k).

(** The settings a command reads: the bucket, then the endpoints, the
    integers and the options it passes to its units of work. *)
Definition settings_read (c : Command) (cfg : Config)
    : string * list string * list Z * list bool :=
  match c with
  | export_blocks_and_transactions_command
  | export_receipts_and_logs_command
  | export_contracts_command =>
      (output_bucket cfg, [web3_provider_uri cfg],
       [export_batch_size cfg; export_max_workers cfg], [])
  | export_tokens_command =>
      (output_bucket cfg, [web3_provider_uri cfg], [export_max_workers cfg], [])
  | extract_token_transfers_command =>
      (output_bucket cfg, [], [export_batch_size cfg; export_max_workers cfg], [])
  | export_traces_command =>
      (output_bucket cfg, [web3_provider_uri cfg; web3_provider_uri_archival cfg],
       [export_batch_size cfg; export_max_workers cfg],
       [export_genesis_traces_option cfg; export_daofork_traces_option cfg])
  end.

(** The objects a run of [c] for [d] may read, and those it may write. *)
Definition reads (cfg : Config) (c : Command) (d : date) : list (string * string) :=
  match fetched_kind c with
  | Some k => [object_key cfg k d]
  | None => []
  end.

Definition writes (cfg : Config) (c : Command) (d : date) : list (string * string) :=
  map (fun k => object_key cfg k d) (published_kinds c).

(** The transfer calls a step makes when nothing fails: its fetch, if it
    has one, and an upload for each kind it publishes. *)
Definition transfers (c : Command) : nat :=
  ((match fetched_kind c with Some _ => 1 | None => 0 end) +
   length (published_kinds c))%nat.

(** A computation that changes no directory and no file outside the
    directory [tempdir]. *)
Definition confined {A} (tempdir : string) (m : M World A) : Prop :=
  forall w,
    dirs (m w).2 = dirs w /\
    forall path, is_under tempdir path = false -> files (m w).2 !! path = files w !! path.

Section Pipeline.

Variable py_int : string -> option Z.
Variable etl : cli.t.
Variable cfg : Config.

(** The units of work succeed on every input, and the block range they
    give reads as two integers. *)
Definition never_fails : Prop :=
  (forall uri d, exists text sa sb start_block end_block,
     cli.get_block_range_for_date etl uri d = Some text /\
     PyStr.split "," text = [sa; sb] /\
     py_int sa = Some start_block /\ py_int sb = Some end_block) /\
  (forall input column, is_Some (cli.extract_csv_column etl input column)) /\
  (forall input predicate, is_Some (cli.filter_items etl input predicate)) /\
  (forall input field, is_Some (cli.extract_field etl input field)) /\
  (forall s e b uri mw, is_Some (cli.export_blocks_and_transactions etl s e b uri mw)) /\
  (forall b hashes uri mw, is_Some (cli.export_receipts_and_logs etl b hashes uri mw)) /\
  (forall b addresses mw uri, is_Some (cli.export_contracts etl b addresses mw uri)) /\
  (forall addresses mw uri, is_Some (cli.export_tokens etl addresses mw uri)) /\
  (forall logs b mw, is_Some (cli.extract_token_transfers etl logs b mw)) /\
  (forall s e b mw uri g f, is_Some (cli.export_traces etl s e b mw uri g f)).

(** The six commands for one date, in the order the module adds their
    tasks; a command that raises stops the run. *)
Definition daily_run (d : date) (tempdir : string) : M World unit :=
  for_each all_steps (fun c => run_command py_int etl cfg c d tempdir).

End Pipeline.

(** ** More of the concrete instance *)

Module Sample.

(** Units of work whose block range is not two fields. *)
Definition dashed_range_etl : cli.t := {|
  cli.get_block_range_for_date := fun _ _ => Some "100-200";
  cli.extract_csv_column := cli.extract_csv_column Demo.etl;
  cli.filter_items := cli.filter_items Demo.etl;
  cli.extract_field := cli.extract_field Demo.etl;
  cli.export_blocks_and_transactions := cli.export_blocks_and_transactions Demo.etl;
  cli.export_receipts_and_logs := cli.export_receipts_and_logs Demo.etl;
  cli.export_contracts := cli.export_contracts Demo.etl;
  cli.export_tokens := cli.export_tokens Demo.etl;
  cli.extract_token_transfers := cli.extract_token_transfers Demo.etl;
  cli.export_traces := cli.export_traces Demo.etl
|}.

(** A store that answers one transfer and not the next. *)
Definition flaky_world : World := mkWorld ∅ ∅ ∅ [true; false] [].

(** A local file outside any temporary directory. *)
Definition with_local_file : World :=
  mkWorld ∅ {[ "/data/in/blocks.csv" := "number,hash" ]} ∅ [] [].

(** A DAG that holds one task. *)
Definition upstream : PythonOperator :=
  mkPythonOperator "a" export_traces_command true 15.


End Sample.

(** * Proofs *)

(** ** Tactics for running a command on a symbolic world *)

(** The scrutinee that blocks the evaluation of [x]. *)
Ltac innermost x :=
  lazymatch x with
  | context [match ?y with _ => _ end] => innermost y
  | _ => lazymatch type of x with
         | World => fail
         | _ => destruct x eqn:?
         end
  end.

(** One step of a run: use what is known of the blocking scrutinee, or
    split on it. *)
Ltac run_step simplify :=
  match goal with
  | H : ?x = _ |- context [match ?x with _ => _ end] => rewrite H
  | |- context [match ?x with _ => _ end] => innermost x
  end; simplify.

(** ** Strings *)

Lemma app_cons (c : ascii) (s t : string) : String c s +:+ t = String c (s +:+ t).
Proof. reflexivity. Qed.

Lemma app_empty_l (t : string) : EmptyString +:+ t = t.
Proof. reflexivity. Qed.

Lemma app_empty_r (s : string) : s +:+ EmptyString = s.
Proof. induction s as [|c s IH]; [reflexivity|]. now rewrite app_cons, IH. Qed.

Lemma app_assoc_str (a b c : string) : (a +:+ b) +:+ c = a +:+ (b +:+ c).
Proof. induction a as [|x a IH]; [reflexivity|]. now rewrite !app_cons, IH. Qed.

(** Two strings without [sep], each followed by [sep] and a rest, are
    equal only componentwise. *)
Lemma split_at_sep (sep : ascii) (a b r1 r2 : string) :
  PyStr.mem_char sep a = false -> PyStr.mem_char sep b = false ->
  a +:+ String sep r1 = b +:+ String sep r2 -> a = b /\ r1 = r2.
Proof.
  revert b. induction a as [|x a IH]; intros [|y b] Ha Hb H;
    rewrite ?app_cons, ?app_empty_l in H.
  - injection H as ->. auto.
  - injection H as Hc _. subst y. cbn in Hb. rewrite Ascii.eqb_refl in Hb. discriminate.
  - injection H as Hc _. subst x. cbn in Ha. rewrite Ascii.eqb_refl in Ha. discriminate.
  - injection H as -> H. cbn in Ha, Hb.
    apply orb_false_elim in Ha as [_ Ha]. apply orb_false_elim in Hb as [_ Hb].
    destruct (IH b Ha Hb H) as [-> ->]. auto.
Qed.

Lemma after_last_no_sep sep s acc :
  PyStr.mem_char sep s = false -> PyStr.after_last sep s acc = acc +:+ s.
Proof.
  revert acc. induction s as [|c s IH]; intros acc H; cbn [PyStr.after_last].
  - now rewrite app_empty_r.
  - cbn in H. apply orb_false_elim in H as [Hc H]. rewrite Hc, IH by exact H.
    now rewrite app_assoc_str.
Qed.

Lemma after_last_app sep a b acc :
  PyStr.after_last sep (a +:+ String sep b) acc = PyStr.after_last sep b EmptyString.
Proof.
  revert acc. induction a as [|c a IH]; intros acc;
    rewrite ?app_cons, ?app_empty_l; cbn [PyStr.after_last].
  - now rewrite Ascii.eqb_refl.
  - destruct (Ascii.eqb c sep); apply IH.
Qed.

(** The basename of a file of the temporary directory is the file's
    name. *)
Lemma basename_join tempdir name :
  PyStr.mem_char "/" name = false ->
  OsPath.basename (OsPath.join tempdir name) = name.
Proof.
  intros H. unfold OsPath.basename, OsPath.join.
  change ("/" +:+ name) with (String "/" name).
  now rewrite after_last_app, after_last_no_sep.
Qed.

Lemma join_inj t a b : OsPath.join t a = OsPath.join t b -> a = b.
Proof.
  unfold OsPath.join. intros H.
  apply (inj (String.append t)) in H. apply (inj (String.append "/")) in H. exact H.
Qed.

Lemma join_ne t a b : a <> b -> OsPath.join t a <> OsPath.join t b.
Proof. intros Hne H. apply Hne. eapply join_inj, H. Qed.

(** ** Decimal numerals *)

Lemma digits_of_small fuel n acc :
  0 <= n < 10 -> PyStr.digits_of (S fuel) n acc = String (PyStr.digit_char n) acc.
Proof.
  intros Hn. cbn [PyStr.digits_of]. rewrite Z.mod_small by lia.
  destruct (Z.ltb_spec n 10); [reflexivity | lia].
Qed.

Lemma digits_of_step fuel n acc :
  10 <= n ->
  PyStr.digits_of (S fuel) n acc =
  PyStr.digits_of fuel (n / 10) (String (PyStr.digit_char (n mod 10)) acc).
Proof.
  intros Hn. cbn [PyStr.digits_of]. destruct (Z.ltb_spec n 10); [lia | reflexivity].
Qed.

(** The fuel [str_of_int] starts with covers every digit. *)
Lemma fuel_enough n k :
  2 ^ Z.of_nat k <= n -> exists fuel, S (Z.to_nat (Z.log2 n)) = (S k + fuel)%nat.
Proof.
  intros Hn. assert (Z.of_nat k <= Z.log2 n) by (apply Z.log2_le_pow2; lia).
  exists (Z.to_nat (Z.log2 n) - k)%nat. lia.
Qed.

Lemma digit_quotient n b : 0 <= n < 10 * b -> 0 <= n / 10 < b.
Proof.
  intros Hn. split; [apply Z.div_pos; lia | apply Z.div_lt_upper_bound; lia].
Qed.

Lemma zfill2_small n :
  0 <= n < 100 -> PyStr.zfill 2 (PyStr.str_of_int n) = two_digits n.
Proof.
  intros Hn. unfold PyStr.str_of_int, two_digits.
  destruct (Z.lt_ge_cases n 10) as [Hlt|Hge].
  - rewrite digits_of_small by lia.
    rewrite (Z.div_small n 10), (Z.mod_small n 10) by lia. reflexivity.
  - destruct (fuel_enough n 1) as [fuel ->]; [cbn; lia|]. cbn [Nat.add].
    rewrite digits_of_step, digits_of_small by (try apply digit_quotient; lia).
    reflexivity.
Qed.

Lemma zfill4_year n :
  0 <= n < 10000 -> PyStr.zfill 4 (PyStr.str_of_int n) = four_digits n.
Proof.
  intros Hn. unfold PyStr.str_of_int, four_digits.
  destruct (Z.lt_ge_cases n 10) as [H1|H1];
    [|destruct (Z.lt_ge_cases n 100) as [H2|H2];
      [|destruct (Z.lt_ge_cases n 1000) as [H3|H3]]].
  - rewrite digits_of_small by lia.
    rewrite (Z.div_small n 1000), (Z.div_small n 100), (Z.div_small n 10),
      (Z.mod_small n 10) by lia.
    reflexivity.
  - destruct (fuel_enough n 1) as [fuel ->]; [cbn; lia|]. cbn [Nat.add].
    rewrite digits_of_step, digits_of_small by (try apply digit_quotient; lia).
    rewrite (Z.div_small n 1000), (Z.div_small n 100), (Z.mod_small (n / 10))
      by (try apply digit_quotient; lia).
    reflexivity.
  - destruct (fuel_enough n 2) as [fuel ->]; [cbn; lia|]. cbn [Nat.add].
    rewrite !digits_of_step, digits_of_small
      by (repeat (try apply digit_quotient; try apply Z.div_le_lower_bound; try lia)).
    rewrite (Z.div_small n 1000) by lia.
    rewrite !Z.div_div by lia. cbn [Z.mul Pos.mul].
    rewrite (Z.mod_small (n / 100))
      by (split; [apply Z.div_pos; lia | apply Z.div_lt_upper_bound; lia]).
    reflexivity.
  - destruct (fuel_enough n 3) as [fuel ->]; [cbn; lia|]. cbn [Nat.add].
    rewrite !digits_of_step, digits_of_small
      by (repeat (try apply digit_quotient; try apply Z.div_le_lower_bound; try lia)).
    rewrite !Z.div_div by lia. cbn [Z.mul Pos.mul].
    reflexivity.
Qed.

Lemma digit_char_inj a b :
  0 <= a < 10 -> 0 <= b < 10 -> PyStr.digit_char a = PyStr.digit_char b -> a = b.
Proof.
  intros Ha Hb H. unfold PyStr.digit_char in H.
  apply (f_equal nat_of_ascii) in H.
  rewrite !nat_ascii_embedding in H by lia. lia.
Qed.

Lemma four_digits_inj a b :
  0 <= a < 10000 -> 0 <= b < 10000 -> four_digits a = four_digits b -> a = b.
Proof.
  intros Ha Hb H. unfold four_digits in H.
  injection H as H3 H2 H1 H0.
  apply digit_char_inj in H3, H2, H1, H0; try (Z.div_mod_to_equations; lia).
Qed.

Lemma two_digits_inj a b :
  0 <= a < 100 -> 0 <= b < 100 -> two_digits a = two_digits b -> a = b.
Proof.
  intros Ha Hb H. unfold two_digits in H.
  injection H as H1 H0.
  apply digit_char_inj in H1, H0; try (Z.div_mod_to_equations; lia).
Qed.

(** ** The partition path resolver *)

Lemma valid_date_bounds d :
  valid_date d = true ->
  1 <= year d <= 9999 /\ 1 <= month d <= 12 /\ 1 <= day d <= 31.
Proof.
  unfold valid_date, days_in_month. intros H.
  repeat (apply andb_prop in H; destruct H as [H ?]).
  repeat match goal with H : (_ <=? _) = true |- _ => apply Z.leb_le in H end.
  repeat split; try lia.
  repeat match goal with
         | H : context [if ?b then _ else _] |- _ => destruct b
         end; lia.
Qed.

Lemma strftime_ymd d :
  strftime d "%Y-%m-%d" =
  PyStr.zfill 4 (PyStr.str_of_int (year d)) +:+ "-" +:+
  PyStr.zfill 2 (PyStr.str_of_int (month d)) +:+ "-" +:+
  PyStr.zfill 2 (PyStr.str_of_int (day d)).
Proof.
  unfold strftime. cbn [strftime_go Ascii.eqb Bool.eqb directive].
  now rewrite app_empty_r.
Qed.

Lemma strftime_iso d : valid_date d = true -> strftime d "%Y-%m-%d" = iso_date d.
Proof.
  intros Hv. apply valid_date_bounds in Hv.
  rewrite strftime_ymd, zfill4_year, !zfill2_small by lia. reflexivity.
Qed.

Lemma iso_date_inj d1 d2 :
  valid_date d1 = true -> valid_date d2 = true ->
  iso_date d1 +:+ "/" = iso_date d2 +:+ "/" -> d1 = d2.
Proof.
  intros H1 H2 H. apply valid_date_bounds in H1, H2.
  destruct d1 as [y1 m1 a1], d2 as [y2 m2 a2]. cbn [year month day] in *.
  unfold iso_date, four_digits, two_digits in H. cbn [year month day] in H.
  rewrite !app_cons, !app_empty_l in H.
  injection H as Y3 Y2 Y1 Y0 M1 M0 D1 D0.
  assert (four_digits y1 = four_digits y2) as HY by (unfold four_digits; congruence).
  assert (two_digits m1 = two_digits m2) as HM by (unfold two_digits; congruence).
  assert (two_digits a1 = two_digits a2) as HD by (unfold two_digits; congruence).
  apply four_digits_inj in HY; [|lia..].
  apply two_digits_inj in HM, HD; [|lia..].
  congruence.
Qed.


Lemma kind_directory_no_slash k : PyStr.mem_char "/" (kind_directory k) = false.
Proof. destruct k; reflexivity. Qed.

Lemma kind_filename_no_slash k : PyStr.mem_char "/" (kind_filename k) = false.
Proof. destruct k; reflexivity. Qed.

Lemma kind_directory_inj k1 k2 : kind_directory k1 = kind_directory k2 -> k1 = k2.
Proof. destruct k1, k2; intros H; try reflexivity; discriminate H. Qed.

(** Objects of two kinds never share a name, whatever the dates. *)
Lemma object_name_kind k1 k2 d1 d2 : object_name k1 d1 = object_name k2 d2 -> k1 = k2.
Proof.
  unfold object_name, export_path. intros H.
  rewrite !app_assoc_str in H.
  apply (inj (String.append "export/")) in H.
  change ("/block_date=" +:+ ?x) with (String "/" ("block_date=" +:+ x)) in H.
  apply split_at_sep in H as [Hdir _];
    auto using kind_directory_no_slash, kind_directory_inj.
Qed.



(** ** Boolean flags *)

Lemma get_boolean_env_variable_unset (env : environ) name default :
  env !! name = None \/ env !! name = Some EmptyString ->
  get_boolean_env_variable env name default = default.
Proof.
  unfold get_boolean_env_variable. intros [H|H]; rewrite H; reflexivity.
Qed.

Lemma get_boolean_env_variable_set (env : environ) name default raw :
  env !! name = Some raw -> raw <> EmptyString ->
  get_boolean_env_variable env name default =
  bool_decide (PyStr.lower raw ∈ ["true"; "yes"]).
Proof.
  unfold get_boolean_env_variable. intros H Hne. rewrite H.
  destruct raw as [|c raw]; [congruence|]. reflexivity.
Qed.

Section LoadingFacts.

Variable py_int : string -> option Z.

Lemma load_config_flags {S} (env : environ) (s s' : S) cfg :
  load_config py_int env s = (Ok cfg, s') ->
  Forall (fun flag => flag.2 cfg = get_boolean_env_variable env flag.1 true)
    boolean_flags.
Proof.
  unfold load_config, bind, ret, raise. intros H.
  repeat match type of H with
         | context [match ?x with _ => _ end] => destruct x eqn:?; try discriminate H
         end.
  injection H as <- _. repeat constructor.
Qed.

(** C10.  A flag that is unset or empty takes the default; a flag with a
    text is true exactly when the lowercased text is "true" or "yes".  The
    six step toggles and the two traces options are read with the default
    true.  So "1", "enabled" and "True " with its trailing blank turn a
    flag off. *)
Theorem boolean_flag_parsing (env : environ) :
  (forall name default,
     env !! name = None \/ env !! name = Some EmptyString ->
     get_boolean_env_variable env name default = default) /\
  (forall name default raw,
     env !! name = Some raw -> raw <> EmptyString ->
     (get_boolean_env_variable env name default = true <->
      PyStr.lower raw = "true" \/ PyStr.lower raw = "yes")) /\
  (forall S (s s' : S) cfg,
     load_config py_int env s = (Ok cfg, s') ->
     Forall (fun flag => flag.2 cfg = get_boolean_env_variable env flag.1 true)
       boolean_flags) /\
  (forall name default raw,
     env !! name = Some raw -> raw ∈ ["1"; "enabled"; "True "] ->
     get_boolean_env_variable env name default = false).
Proof.
  split; [|split; [|split]].
  - intros name default. apply get_boolean_env_variable_unset.
  - intros name default raw Hraw Hne.
    rewrite (get_boolean_env_variable_set env name default raw Hraw Hne).
    rewrite bool_decide_eq_true, !elem_of_cons, elem_of_nil. tauto.
  - intros S s s' cfg. apply load_config_flags.
  - intros name default raw Hraw Hin.
    rewrite !elem_of_cons, elem_of_nil in Hin.
    destruct Hin as [-> | [-> | [-> | []]]];
      rewrite (get_boolean_env_variable_set env name default _ Hraw) by discriminate;
      reflexivity.
Qed.

Lemma int_env_variable_ok {S} (env : environ) name default (s : S) :
  int_setting_ok py_int env name ->
  exists n, int_env_variable py_int env name default s = (Ok n, s) /\
            (env !! name = None -> n = default).
Proof.
  unfold int_setting_ok, int_env_variable. destruct (env !! name) as [raw|].
  - intros [n Hn]. rewrite Hn. exists n. split; [reflexivity | discriminate].
  - intros _. exists default. split; reflexivity.
Qed.

Lemma load_config_missing_bucket {S} (env : environ) (s : S) :
  env !! "OUTPUT_BUCKET" = None ->
  load_config py_int env s =
  (Err (ValueError "You must set OUTPUT_BUCKET environment variable"), s).
Proof. intros H. unfold load_config, bind. rewrite H. reflexivity. Qed.

Lemma load_config_ok {S} (env : environ) (s : S) bucket :
  env !! "OUTPUT_BUCKET" = Some bucket ->
  int_setting_ok py_int env "EXPORT_MAX_WORKERS" ->
  int_setting_ok py_int env "EXPORT_BATCH_SIZE" ->
  exists cfg, load_config py_int env s = (Ok cfg, s) /\
    output_bucket cfg = bucket /\
    web3_provider_uri cfg =
      default "https://mainnet.infura.io/" (env !! "WEB3_PROVIDER_URI") /\
    web3_provider_uri_archival cfg =
      default (web3_provider_uri cfg) (env !! "WEB3_PROVIDER_URI_ARCHIVAL") /\
    (env !! "EXPORT_MAX_WORKERS" = None -> export_max_workers cfg = 5) /\
    (env !! "EXPORT_BATCH_SIZE" = None -> export_batch_size cfg = 10).
Proof.
  intros Hbucket Hworkers Hbatch.
  destruct (int_env_variable_ok env "EXPORT_MAX_WORKERS" 5 s Hworkers)
    as (workers & Hw & Hwd).
  destruct (int_env_variable_ok env "EXPORT_BATCH_SIZE" 10 s Hbatch)
    as (batch & Hb & Hbd).
  unfold load_config, bind. rewrite Hbucket. cbn [ret]. rewrite Hw, Hb.
  eexists. split; [reflexivity|]. cbn. auto.
Qed.

End LoadingFacts.

(** ** The task graph *)

Lemma add_operators_graph cfg env :
  add_operators cfg (new_dag env) = (Ok tt, expected_graph cfg env).
Proof.
  destruct cfg as [b u a mw bs o1 o2 t1 t2 t3 t4 t5 t6].
  destruct t1, t2, t3, t4, t5, t6; reflexivity.
Qed.

(** With the trailing blank the toggle is off; in capitals "YES" is on. *)
Lemma boolean_flag_parsing_witness :
  get_boolean_env_variable {["EXPORT_TRACES" := "True "]} "EXPORT_TRACES" true = false /\
  get_boolean_env_variable {["EXPORT_TOKENS" := "YES"]} "EXPORT_TOKENS" false = true.
Proof.
  split.
  - apply (boolean_flag_parsing Demo.int {["EXPORT_TRACES" := "True "]})
      with (raw := "True ").
    + reflexivity.
    + rewrite !elem_of_cons. auto.
  - apply (boolean_flag_parsing Demo.int {["EXPORT_TOKENS" := "YES"]})
      with (raw := "YES").
    + reflexivity.
    + discriminate.
    + right. reflexivity.
Defined.

(** C9.  Without [OUTPUT_BUCKET] the import stops with [ValueError] and
    the DAG holds no task, so no step ever runs.  With it, no other
    setting is needed: the import succeeds whenever the two integer
    settings are absent or readable, and every setting that is absent has
    its default (the endpoints, 5 workers, batches of 10, every flag true,
    no recipient). *)
Theorem required_configuration (py_int : string -> option Z) (env : environ) :
  (env !! "OUTPUT_BUCKET" = None ->
   load_module py_int env =
     (Err (ValueError "You must set OUTPUT_BUCKET environment variable"),
      new_dag env) /\
   tasks (new_dag env) = []) /\
  (forall bucket,
     env !! "OUTPUT_BUCKET" = Some bucket ->
     int_setting_ok py_int env "EXPORT_MAX_WORKERS" ->
     int_setting_ok py_int env "EXPORT_BATCH_SIZE" ->
     exists cfg dag,
       load_module py_int env = (Ok cfg, dag) /\
       output_bucket cfg = bucket /\
       (env !! "WEB3_PROVIDER_URI" = None ->
        web3_provider_uri cfg = "https://mainnet.infura.io/") /\
       (env !! "WEB3_PROVIDER_URI_ARCHIVAL" = None ->
        web3_provider_uri_archival cfg = web3_provider_uri cfg) /\
       (env !! "EXPORT_MAX_WORKERS" = None -> export_max_workers cfg = 5) /\
       (env !! "EXPORT_BATCH_SIZE" = None -> export_batch_size cfg = 10) /\
       Forall (fun flag => env !! flag.1 = None -> flag.2 cfg = true) boolean_flags /\
       (env !! "NOTIFICATION_EMAILS" = None -> email (default_args dag) = None)).
Proof.
  split.
  - intros Hmissing. split; [|reflexivity].
    unfold load_module, bind.
    now rewrite (load_config_missing_bucket py_int env (new_dag env) Hmissing).
  - intros bucket Hbucket Hworkers Hbatch.
    destruct (load_config_ok py_int env (new_dag env) bucket Hbucket Hworkers Hbatch)
      as (cfg & Hload & Hb & Huri & Harch & Hw & Hbs).
    exists cfg, (expected_graph cfg env). split.
    { unfold load_module, bind. rewrite Hload, add_operators_graph. reflexivity. }
    split; [exact Hb|]. split; [|split; [|split; [|split; [|split]]]]; try assumption.
    + intros Hnone. rewrite Huri, Hnone. reflexivity.
    + intros Hnone. rewrite Harch, Hnone. reflexivity.
    + pose proof (load_config_flags py_int env _ _ cfg Hload) as Hflags.
      eapply Forall_impl; [exact Hflags|].
      intros flag Hflag Hnone. cbv beta in Hflag. rewrite Hflag.
      apply get_boolean_env_variable_unset. now left.
    + intros Hnone. cbn. now rewrite Hnone.
Qed.

(** The empty environment stops the import; the bucket alone is enough. *)
Lemma required_configuration_witness :
  (load_module Demo.int ∅).1 =
    Err (ValueError "You must set OUTPUT_BUCKET environment variable") /\
  exists cfg dag,
    load_module Demo.int {["OUTPUT_BUCKET" := "bucket"]} = (Ok cfg, dag) /\
    output_bucket cfg = "bucket".
Proof.
  split.
  - destruct (required_configuration Demo.int ∅) as [Hmissing _].
    destruct Hmissing as [Hload _]; [reflexivity|].
    now rewrite Hload.
  - destruct (required_configuration Demo.int {["OUTPUT_BUCKET" := "bucket"]})
      as [_ Hpresent].
    destruct (Hpresent "bucket") as (cfg & dag & Hload & Hbucket & _);
      [reflexivity | exact I | exact I |].
    exists cfg, dag. auto.
Defined.

Lemma step_task_id_inj c1 c2 : step_task_id c1 = step_task_id c2 -> c1 = c2.
Proof. destruct c1, c2; intros H; try reflexivity; discriminate H. Qed.

Lemma task_in_graph cfg env c :
  step_task_id c ∈ task_ids (expected_graph cfg env) <-> step_toggle cfg c = true.
Proof.
  unfold task_ids, expected_graph. cbn [tasks].
  rewrite list_elem_of_In, map_map, in_map_iff. split.
  - intros (c' & Hid & Hin). apply step_task_id_inj in Hid. subst c'.
    apply filter_In in Hin. tauto.
  - intros Ht. exists c. split; [reflexivity|]. apply filter_In. split; [|exact Ht].
    destruct c; cbn; tauto.
Qed.

Lemma operator_in_graph cfg env c :
  step_toggle cfg c = true -> step_operator c ∈ tasks (expected_graph cfg env).
Proof.
  intros Ht. unfold expected_graph. cbn [tasks].
  rewrite list_elem_of_In. apply in_map, filter_In. split; [|exact Ht].
  destruct c; cbn; tauto.
Qed.

Lemma edge_in_graph cfg env (s t : string) :
  (s, t) ∈ edges (expected_graph cfg env) <->
  exists u v, (u, v) ∈ canonical_edges /\ s = step_task_id u /\ t = step_task_id v /\
              step_toggle cfg u = true /\ step_toggle cfg v = true.
Proof.
  unfold expected_graph. cbn [edges].
  rewrite list_elem_of_In, in_map_iff. split.
  - intros ([u v] & Hid & Hin). apply filter_In in Hin as [Hin Hb].
    unfold both_enabled in Hb. apply andb_prop in Hb as [Hu Hv].
    injection Hid as <- <-. exists u, v. rewrite list_elem_of_In. auto.
  - intros (u & v & Hin & -> & -> & Hu & Hv). exists (u, v). split; [reflexivity|].
    apply filter_In. split; [now apply list_elem_of_In|].
    unfold both_enabled. cbn. now rewrite Hu, Hv.
Qed.

(** A consumer has one canonical producer. *)
Lemma canonical_producer_unique u u' v :
  (u, v) ∈ canonical_edges -> (u', v) ∈ canonical_edges -> u' = u.
Proof.
  intros Hin Hin'. apply list_elem_of_In in Hin, Hin'. cbn in Hin, Hin'.
  intuition congruence.
Qed.

(** C2.  With the six toggles off the graph that is built has no node
    and no edge.  With the six on it has exactly the six steps, exactly
    the four canonical edges, and no edge into or out of
    [export_traces]. *)
Theorem toggle_completeness cfg env :
  (toggles cfg = [false; false; false; false; false; false] ->
   exists dag, add_operators cfg (new_dag env) = (Ok tt, dag) /\
     tasks dag = [] /\ edges dag = []) /\
  (toggles cfg = [true; true; true; true; true; true] ->
   exists dag, add_operators cfg (new_dag env) = (Ok tt, dag) /\
     task_ids dag =
       ["export_blocks_and_transactions"; "export_receipts_and_logs";
        "export_contracts"; "export_tokens"; "extract_token_transfers";
        "export_traces"] /\
     map python_callable (tasks dag) = all_steps /\
     edges dag =
       [("export_blocks_and_transactions", "export_receipts_and_logs");
        ("export_receipts_and_logs", "export_contracts");
        ("export_contracts", "export_tokens");
        ("export_receipts_and_logs", "extract_token_transfers")] /\
     (forall s, ((s, "export_traces") ∉ edges dag) /\
                (("export_traces", s) ∉ edges dag))).
Proof.
  split; intros Ht; exists (expected_graph cfg env);
    (split; [apply add_operators_graph|]);
    unfold toggles in Ht; cbn [map all_steps step_toggle] in Ht;
    injection Ht as H1 H2 H3 H4 H5 H6;
    unfold expected_graph, task_ids, both_enabled;
    cbn [tasks edges List.filter all_steps canonical_edges step_toggle fst snd];
    rewrite H1, H2, H3, H4, H5, H6; cbn.
  - auto.
  - repeat split; try reflexivity.
    + intros Hin. apply list_elem_of_In in Hin.
      cbv [In edge_ids step_task_id fst snd] in Hin. intuition congruence.
    + intros Hin. apply list_elem_of_In in Hin.
      cbv [In edge_ids step_task_id fst snd] in Hin. intuition congruence.
Qed.

(** Both ends of the claim, on the settings of the concrete instance. *)
Lemma toggle_completeness_witness :
  (exists dag, add_operators Demo.all_disabled (new_dag ∅) = (Ok tt, dag) /\
     tasks dag = [] /\ edges dag = []) /\
  (exists dag, add_operators Demo.all_enabled (new_dag ∅) = (Ok tt, dag) /\
     length (tasks dag) = 6%nat /\ length (edges dag) = 4%nat).
Proof.
  split.
  - destruct (toggle_completeness Demo.all_disabled ∅) as [Hoff _].
    apply Hoff. reflexivity.
  - destruct (toggle_completeness Demo.all_enabled ∅) as [_ Hon].
    destruct Hon as (dag & Hbuild & Hids & Hcalls & Hedges & _); [reflexivity|].
    exists dag. split; [exact Hbuild|].
    rewrite <- (length_map python_callable), Hcalls, Hedges. split; reflexivity.
Defined.

(** C3.  For every setting of the six toggles the graph is built without
    an error; a step is a node exactly when its toggle is on; a canonical
    edge is present exactly when both of its ends are on, and the graph
    has no other edge; a consumer whose producer is off has no
    predecessor edge. *)
Theorem edge_elision cfg env :
  exists dag, add_operators cfg (new_dag env) = (Ok tt, dag) /\
    (forall c, step_task_id c ∈ task_ids dag <-> step_toggle cfg c = true) /\
    (forall u v, (u, v) ∈ canonical_edges ->
       ((step_task_id u, step_task_id v) ∈ edges dag <->
        step_toggle cfg u = true /\ step_toggle cfg v = true)) /\
    (forall s t, (s, t) ∈ edges dag ->
       exists u v, (u, v) ∈ canonical_edges /\
                   s = step_task_id u /\ t = step_task_id v) /\
    (forall u v, (u, v) ∈ canonical_edges -> step_toggle cfg u = false ->
       forall s, (s, step_task_id v) ∉ edges dag).
Proof.
  exists (expected_graph cfg env). split; [apply add_operators_graph|].
  split; [intros c; apply task_in_graph|]. split; [|split].
  - intros u v Hin. rewrite edge_in_graph. split.
    + intros (u' & v' & _ & Hu & Hv & Htu & Htv).
      apply step_task_id_inj in Hu, Hv. subst. auto.
    + intros [Hu Hv]. exists u, v. auto.
  - intros s t Hin. apply edge_in_graph in Hin as (u & v & ? & ? & ? & _). eauto.
  - intros u v Hin Hoff s Hs.
    apply edge_in_graph in Hs as (u' & v' & Hin' & -> & Hv & Hu' & _).
    apply step_task_id_inj in Hv. subst v'.
    rewrite (canonical_producer_unique u u' v Hin Hin') in Hu'. congruence.
Qed.

(** With the blocks step off, the receipts step is a node without a
    predecessor. *)
Lemma edge_elision_witness :
  exists dag, add_operators Demo.without_blocks (new_dag ∅) = (Ok tt, dag) /\
    "export_receipts_and_logs" ∈ task_ids dag /\
    ("export_blocks_and_transactions", "export_receipts_and_logs") ∉ edges dag.
Proof.
  destruct (edge_elision Demo.without_blocks ∅)
    as (dag & Hbuild & Hnodes & _ & _ & Hnone).
  exists dag. split; [exact Hbuild|]. split.
  - apply (Hnodes export_receipts_and_logs_command). reflexivity.
  - apply (Hnone export_blocks_and_transactions_command export_receipts_and_logs_command).
    + rewrite list_elem_of_In. cbn. auto.
    + reflexivity.
Defined.

(** ** Runs of the step commands *)

Ltac world_simpl :=
  cbn [store files dirs reachable log fst snd
       out_result out_store out_reachable out_events];
  repeat (progress (
    repeat first
      [ rewrite lookup_insert_eq
      | rewrite lookup_insert_ne by (apply join_ne; discriminate) ];
    cbn [store files dirs reachable log fst snd
         out_result out_store out_reachable out_events])).

Ltac unfold_commands :=
  unfold get_block_range, copy_to_export_path, copy_from_export_path,
    callback, callback2, callback_input,
    cloud_storage_hook.upload, cloud_storage_hook.download, int_of,
    read_file, write_file, emit, next_reachable, bind, modify, raise, ret,
    set_files, set_store, set_reachable;
  rewrite ?basename_join by reflexivity.

Ltac unfold_executor :=
  unfold observed, logged_after, step_executor, fetch_input, fetch_events,
    transform, block_range, tbind, tret, tfail, unit_of_work;
  cbn [fetched_kind published_kinds combine publish_all map app];
  unfold pop, object_key, object_name, local_file;
  cbn [kind_directory kind_filename].

Ltac same_outcome :=
  cbn [map app combine publish_all out_result out_store out_reachable out_events];
  rewrite <- ?app_assoc; reflexivity.

Ltac run_both := repeat (run_step world_simpl; try solve [same_outcome]).

Section RunFacts.

Variable py_int : string -> option Z.
Variable etl : cli.t.
Variable cfg : Config.

(** What stands under [with] in a command does what the step executor
    says: same result, same store, same answers consumed, same calls. *)
Lemma body_refines c d tempdir w :
  observed (command_body py_int etl cfg c d tempdir w) =
  logged_after (log w)
    (step_executor py_int etl cfg c d tempdir (store w) (reachable w)).
Proof.
  destruct c; cbn [command_body].
  - unfold export_blocks_and_transactions_body.
    unfold_commands. unfold_executor. world_simpl. run_both.
  - unfold export_receipts_and_logs_body.
    unfold_commands. unfold_executor. world_simpl. run_both.
  - unfold export_contracts_body.
    unfold_commands. unfold_executor. world_simpl. run_both.
  - unfold export_tokens_body.
    unfold_commands. unfold_executor. world_simpl. run_both.
  - unfold extract_token_transfers_body.
    unfold_commands. unfold_executor. world_simpl. run_both.
  - unfold export_traces_body.
    unfold_commands. unfold_executor. world_simpl. run_both.
Qed.

(** The temporary directory changes nothing of what is observed. *)
Lemma run_command_observed c d tempdir w :
  observed (run_command py_int etl cfg c d tempdir w) =
  observed (command_body py_int etl cfg c d tempdir
              (set_dirs (fun ds => ds ∪ {[tempdir]}) w)).
Proof.
  unfold run_command, with_TemporaryDirectory, bind, modify, finally.
  destruct (command_body py_int etl cfg c d tempdir _) as [r w'].
  reflexivity.
Qed.

Lemma run_refines c d tempdir w :
  observed (run_command py_int etl cfg c d tempdir w) =
  logged_after (log w)
    (step_executor py_int etl cfg c d tempdir (store w) (reachable w)).
Proof. rewrite run_command_observed, body_refines. reflexivity. Qed.

Lemma run_result c d tempdir w :
  (run_command py_int etl cfg c d tempdir w).1 =
  out_result (step_executor py_int etl cfg c d tempdir (store w) (reachable w)).
Proof.
  pose proof (run_refines c d tempdir w) as H.
  apply (f_equal out_result) in H.
  destruct (run_command py_int etl cfg c d tempdir w) as [r w'].
  destruct (step_executor py_int etl cfg c d tempdir (store w) (reachable w)).
  exact H.
Qed.

Lemma run_store c d tempdir w :
  store (run_command py_int etl cfg c d tempdir w).2 =
  out_store (step_executor py_int etl cfg c d tempdir (store w) (reachable w)).
Proof.
  pose proof (run_refines c d tempdir w) as H.
  apply (f_equal out_store) in H.
  destruct (run_command py_int etl cfg c d tempdir w) as [r w'].
  destruct (step_executor py_int etl cfg c d tempdir (store w) (reachable w)).
  exact H.
Qed.

Lemma run_log c d tempdir w :
  log (run_command py_int etl cfg c d tempdir w).2 =
  log w ++ out_events (step_executor py_int etl cfg c d tempdir (store w) (reachable w)).
Proof.
  pose proof (run_refines c d tempdir w) as H.
  apply (f_equal out_events) in H.
  destruct (run_command py_int etl cfg c d tempdir w) as [r w'].
  destruct (step_executor py_int etl cfg c d tempdir (store w) (reachable w)).
  exact H.
Qed.

Lemma run_calls_made c d tempdir w :
  calls_made py_int etl cfg c d tempdir w =
  out_events (step_executor py_int etl cfg c d tempdir (store w) (reachable w)).
Proof. unfold calls_made. rewrite run_log. apply drop_app_length. Qed.

End RunFacts.

(** ** The scoped temporary directory *)

Lemma rmtree_clean dir w :
(dir ∉ dirs (rmtree dir w)) /\
  forall path, is_under dir path = true -> files (rmtree dir w) !! path = None.
Proof.
  unfold rmtree. cbn [dirs files set_dirs set_files]. split.
  - apply not_elem_of_difference. right. now apply elem_of_singleton.
  - intros path Hunder. apply map_lookup_filter_None. right.
    intros content _ Hkeep. cbn [fst] in Hkeep. congruence.
Qed.

Lemma rmtree_frame dir w path :
  is_under dir path = false -> files (rmtree dir w) !! path = files w !! path.
Proof.
  intros Hout. unfold rmtree. cbn [files set_dirs set_files].
  destruct (files w !! path) as [content|] eqn:Hpath.
  - apply map_lookup_filter_Some. split; [exact Hpath | exact Hout].
  - apply map_lookup_filter_None. now left.
Qed.

Lemma with_TemporaryDirectory_clean {A} tempdir (body : string -> M World A) w :
  let w' := (with_TemporaryDirectory tempdir body w).2 in
  (tempdir ∉ dirs w') /\
  forall path, is_under tempdir path = true -> files w' !! path = None.
Proof.
  unfold with_TemporaryDirectory, bind, modify, finally.
  destruct (body tempdir _) as [r w1]. cbn [snd]. apply rmtree_clean.
Qed.

Lemma is_under_join tempdir name : is_under tempdir (OsPath.join tempdir name) = true.
Proof.
  unfold is_under, OsPath.join. rewrite <- app_assoc_str.
  generalize (tempdir +:+ "/"). intros p.
  induction p as [|c p IH].
  - now destruct name.
  - rewrite app_cons. cbn [String.prefix].
    destruct (ascii_dec c c); [exact IH | congruence].
Qed.

(** ** The step executor *)


Lemma no_upload_among_calls units :
  forallb (fun ev => negb (is_upload ev)) (map EvCall units) = true.
Proof. induction units as [|u units IH]; [reflexivity | exact IH]. Qed.

Lemma no_download_among_calls units :
  forallb (fun ev => negb (is_download ev)) (map EvCall units) = true.
Proof. induction units as [|u units IH]; [reflexivity | exact IH]. Qed.


Lemma published_kinds_NoDup c : NoDup (published_kinds c).
Proof. destruct c; apply (bool_decide_unpack _); reflexivity. Qed.

Lemma fetched_not_published c k : fetched_kind c = Some k -> k ∉ published_kinds c.
Proof.
  destruct c; intros Hk; try discriminate Hk; injection Hk as <-;
    apply (bool_decide_unpack _); reflexivity.
Qed.

Lemma fst_combine_subset {A B} (l : list A) (l' : list B) x :
  x ∈ map fst (combine l l') -> x ∈ l.
Proof.
  revert l'. induction l as [|a l IH]; intros [|b l'] Hin; cbn in Hin;
    try (now apply elem_of_nil in Hin).
  apply elem_of_cons in Hin as [->|Hin]; [left | right; eauto].
Qed.

Lemma fst_combine_NoDup {A B} (l : list A) (l' : list B) :
  NoDup l -> NoDup (map fst (combine l l')).
Proof.
  revert l'. induction l as [|a l IH]; intros [|b l'] Hnd; cbn; try apply NoDup_nil_2.
  apply NoDup_cons in Hnd as [Ha Hnd]. apply NoDup_cons. split; [|now apply IH].
  intros Hin. apply Ha. eapply fst_combine_subset, Hin.
Qed.

Section StepFacts.

Variable py_int : string -> option Z.
Variable etl : cli.t.
Variable cfg : Config.

Lemma object_key_inj k1 k2 d : object_key cfg k1 d = object_key cfg k2 d -> k1 = k2.
Proof.
  unfold object_key. intros H. apply (f_equal snd) in H.
  eapply object_name_kind, H.
Qed.

(** *** Publishing *)

(** An upload touches the object of its kind only. *)
Lemma publish_all_frame_key d tmp outputs s net key :
  (forall k, k ∈ map fst outputs -> object_key cfg k d <> key) ->
  out_store (publish_all cfg d tmp outputs s net) !! key = s !! key.
Proof.
  revert s net. induction outputs as [|[k' v] rest IH]; intros s net Hk; [reflexivity|].
  cbn [publish_all]. destruct (pop net) as [[|] net']; cbn [out_store]; [|reflexivity].
  rewrite IH by (intros k Hin; apply Hk; now right).
  apply lookup_insert_ne, Hk. now left.
Qed.

Lemma publish_all_frame d tmp outputs s net k :
  k ∉ map fst outputs ->
  out_store (publish_all cfg d tmp outputs s net) !! object_key cfg k d =
  s !! object_key cfg k d.
Proof.
  intros Hk. apply publish_all_frame_key. intros k' Hin Heq.
  apply object_key_inj in Heq. congruence.
Qed.

Lemma publish_all_noop d tmp outputs s net :
  (forall k v, (k, v) ∈ outputs -> s !! object_key cfg k d = Some v) ->
  out_store (publish_all cfg d tmp outputs s net) = s.
Proof.
  revert net. induction outputs as [|[k v] rest IH]; intros net Hall; [reflexivity|].
  cbn [publish_all]. destruct (pop net) as [[|] net']; cbn [out_store]; [|reflexivity].
  rewrite insert_id by (apply Hall; left). apply IH.
  intros k' v' Hin. apply Hall. now right.
Qed.

Lemma publish_all_store_irrelevant d tmp1 tmp2 outputs s1 s2 net :
  out_result (publish_all cfg d tmp1 outputs s1 net) =
  out_result (publish_all cfg d tmp2 outputs s2 net).
Proof.
  revert s1 s2 net. induction outputs as [|[k v] rest IH]; intros s1 s2 net;
    [reflexivity|].
  cbn [publish_all]. destruct (pop net) as [[|] net']; cbn [out_result];
    [apply IH | reflexivity].
Qed.

Lemma publish_all_uploaded d tmp outputs s net :
  NoDup (map fst outputs) ->
  out_result (publish_all cfg d tmp outputs s net) = Ok tt ->
  forall k v, (k, v) ∈ outputs ->
    out_store (publish_all cfg d tmp outputs s net) !! object_key cfg k d = Some v.
Proof.
  revert s net. induction outputs as [|[k v] rest IH]; intros s net Hnd Hok k' v' Hin.
  - now apply elem_of_nil in Hin.
  - cbn [map fst] in Hnd. apply NoDup_cons in Hnd as [Hk Hnd].
    cbn [publish_all] in *.
    destruct (pop net) as [[|] net']; cbn [out_result out_store] in *; [|discriminate].
    apply elem_of_cons in Hin as [Heq|Hin].
    + injection Heq as -> ->.
      rewrite publish_all_frame by exact Hk. apply lookup_insert_eq.
    + now apply IH.
Qed.

Lemma publish_all_idempotent d tmp1 tmp2 outputs s net :
  NoDup (map fst outputs) ->
  out_store (publish_all cfg d tmp2 outputs
               (out_store (publish_all cfg d tmp1 outputs s net)) net) =
  out_store (publish_all cfg d tmp1 outputs s net).
Proof.
  revert s net. induction outputs as [|[k v] rest IH]; intros s net Hnd; [reflexivity|].
  cbn [map fst] in Hnd. apply NoDup_cons in Hnd as [Hk Hnd].
  cbn [publish_all]. destruct (pop net) as [[|] net']; cbn [out_store].
  - rewrite insert_id; [now apply IH|].
    rewrite publish_all_frame by exact Hk. apply lookup_insert_eq.
  - reflexivity.
Qed.

Lemma publish_all_events d tmp outputs s net :
  forallb is_upload (out_events (publish_all cfg d tmp outputs s net)) = true.
Proof.
  revert s net. induction outputs as [|[k v] rest IH]; intros s net; [reflexivity|].
  cbn [publish_all]. destruct (pop net) as [[|] net']; cbn; auto.
Qed.

Lemma publish_all_result d tmp outputs s net :
  out_result (publish_all cfg d tmp outputs s net) = Ok tt \/
  out_result (publish_all cfg d tmp outputs s net) =
    Err (TransferError Upload Unreachable).
Proof.
  revert s net. induction outputs as [|[k v] rest IH]; intros s net; [now left|].
  cbn [publish_all]. destruct (pop net) as [[|] net']; cbn; auto.
Qed.

(** Every upload is of a published kind, to the name its kind and the
    date determine. *)
Lemma publish_all_targets d tmp outputs s net ev :
  ev ∈ out_events (publish_all cfg d tmp outputs s net) ->
  exists k, k ∈ map fst outputs /\
    ev = EvUpload (output_bucket cfg) (object_name k d) (local_file tmp k).
Proof.
  revert s net. induction outputs as [|[k v] rest IH]; intros s net Hin.
  - now apply elem_of_nil in Hin.
  - cbn [publish_all] in Hin.
    destruct (pop net) as [[|] net']; cbn [out_events] in Hin.
    + apply elem_of_cons in Hin as [->|Hin].
      * exists k. split; [left | reflexivity].
      * destruct (IH _ _ Hin) as (k' & Hk' & ->). exists k'. split; [now right | reflexivity].
    + apply list_elem_of_singleton in Hin as ->. exists k. split; [left | reflexivity].
Qed.

(** *** Transform *)

Lemma transform_length c d input units contents :
  transform py_int etl cfg c d input = (units, Ok contents) ->
  length contents = length (published_kinds c).
Proof.
  destruct c; unfold transform, block_range, tbind, tret, tfail, unit_of_work;
    repeat (run_step idtac);
    intros H; try discriminate H; injection H as _ <-; reflexivity.
Qed.

(** *** Fetch *)

Lemma fetch_input_frame c d s1 s2 net :
  (forall k, fetched_kind c = Some k ->
     s2 !! object_key cfg k d = s1 !! object_key cfg k d) ->
  fetch_input cfg c d s2 net = fetch_input cfg c d s1 net.
Proof.
  unfold fetch_input. destruct (fetched_kind c) as [k|]; [|reflexivity].
  intros H. now rewrite (H k eq_refl).
Qed.

Lemma fetch_input_content c d s net input net' :
  fetch_input cfg c d s net = (Ok input, net') ->
  match fetched_kind c with
  | Some k => s !! object_key cfg k d = Some input
  | None => input = EmptyString
  end.
Proof.
  unfold fetch_input. destruct (fetched_kind c) as [k|].
  - destruct (pop net) as [[|] net1]; [|discriminate].
    destruct (s !! object_key cfg k d) as [content|]; [|discriminate].
    now intros [= <- _].
  - now intros [= <- _].
Qed.

(** The outputs of a step do not touch its input. *)
Lemma publish_all_keeps_input c d tmp contents s net k :
  fetched_kind c = Some k ->
  out_store (publish_all cfg d tmp (combine (published_kinds c) contents) s net)
    !! object_key cfg k d = s !! object_key cfg k d.
Proof.
  intros Hk. apply publish_all_frame. intros Hin.
  apply fst_combine_subset in Hin. now apply (fetched_not_published c k).
Qed.

(** *** The whole step *)

(** Run again on the store it left, with the store answering as before,
    a step leaves the same store and ends the same way. *)
Lemma executor_rerun c d tmp1 tmp2 s net :
  let o1 := step_executor py_int etl cfg c d tmp1 s net in
  let o2 := step_executor py_int etl cfg c d tmp2 (out_store o1) net in
  out_store o2 = out_store o1 /\ out_result o2 = out_result o1.
Proof.
  cbv zeta. unfold step_executor at 2 3 5 6.
  destruct (fetch_input cfg c d s net) as [[input|e] net'] eqn:Hf.
  - destruct (transform py_int etl cfg c d input) as [units [contents|e]] eqn:Ht;
      cbn [out_store out_result].
    + unfold step_executor.
      rewrite (fetch_input_frame c d s) by (intros k; apply publish_all_keeps_input).
      rewrite Hf, Ht. cbn [out_store out_result]. split.
      * apply publish_all_idempotent, fst_combine_NoDup, published_kinds_NoDup.
      * apply publish_all_store_irrelevant.
    + unfold step_executor. rewrite Hf, Ht. split; reflexivity.
  - cbn [out_store out_result]. unfold step_executor. rewrite Hf. split; reflexivity.
Qed.

(** Run again after it succeeded, a step changes nothing of the store,
    however the store answers the second time. *)
Lemma executor_rerun_after_success c d tmp1 tmp2 s net net2 :
  let o1 := step_executor py_int etl cfg c d tmp1 s net in
  out_result o1 = Ok tt ->
  out_store (step_executor py_int etl cfg c d tmp2 (out_store o1) net2) = out_store o1.
Proof.
  cbv zeta. unfold step_executor at 1 3 4.
  destruct (fetch_input cfg c d s net) as [[input|e] net'] eqn:Hf;
    [|discriminate].
  destruct (transform py_int etl cfg c d input) as [units [contents|e]] eqn:Ht;
    [|discriminate].
  cbn [out_store out_result]. intros Hok.
  set (outputs := combine (published_kinds c) contents) in *.
  set (s1 := out_store (publish_all cfg d tmp1 outputs s net')).
  unfold step_executor.
  destruct (fetch_input cfg c d s1 net2) as [[input2|e] net2'] eqn:Hf2;
    [|reflexivity].
  assert (input2 = input) as ->.
  { apply fetch_input_content in Hf, Hf2.
    destruct (fetched_kind c) as [k|] eqn:Hk; [|congruence].
    unfold s1, outputs in Hf2. rewrite publish_all_keeps_input in Hf2 by exact Hk.
    congruence. }
  rewrite Ht. cbn [out_store]. fold outputs.
  apply publish_all_noop. intros k v Hin.
  apply publish_all_uploaded; [|exact Hok|exact Hin].
  apply fst_combine_NoDup, published_kinds_NoDup.
Qed.



Lemma combine_lookup {A B} (l : list A) (l' : list B) x :
  length l' = length l -> x ∈ l -> exists y, (x, y) ∈ combine l l'.
Proof.
  revert l'. induction l as [|a l IH]; intros [|b l'] Hlen Hin;
    try discriminate Hlen; [now apply elem_of_nil in Hin|].
  apply elem_of_cons in Hin as [->|Hin].
  - exists b. left.
  - injection Hlen as Hlen. destruct (IH l' Hlen Hin) as [y Hy]. exists y. now right.
Qed.

(** What a step published is where its kind and the date say, whatever
    the bucket held there before. *)
Lemma publish_all_overwrites d tmp outputs s net k v :
  NoDup (map fst outputs) ->
  out_result (publish_all cfg d tmp outputs s net) = Ok tt ->
  k ∈ map fst outputs ->
  out_store (publish_all cfg d tmp outputs (<[object_key cfg k d := v]> s) net) =
  out_store (publish_all cfg d tmp outputs s net).
Proof.
  intros Hnd Hok Hin. apply map_eq. intros key.
  assert (out_result (publish_all cfg d tmp outputs (<[object_key cfg k d := v]> s) net)
          = Ok tt) as Hok'
    by (rewrite <- Hok; apply publish_all_store_irrelevant).
  destruct (decide (key ∈ map (fun p => object_key cfg p.1 d) outputs)) as [Hkey|Hnone].
  - apply list_elem_of_In, in_map_iff in Hkey as ([k' v'] & <- & Hpair).
    apply list_elem_of_In in Hpair. cbn [fst].
    rewrite (publish_all_uploaded d tmp outputs _ net Hnd Hok' k' v' Hpair).
    now rewrite (publish_all_uploaded d tmp outputs _ net Hnd Hok k' v' Hpair).
  - assert (forall k', k' ∈ map fst outputs -> object_key cfg k' d <> key) as Hother.
    { intros k' Hk' Heq. apply Hnone. subst key.
      apply list_elem_of_In, in_map_iff in Hk' as (p & <- & Hp).
      apply list_elem_of_In, in_map_iff. eauto. }
    rewrite !publish_all_frame_key by exact Hother.
    apply lookup_insert_ne, Hother, Hin.
Qed.

Lemma no_upload_fetch c d tmp :
  forallb (fun ev => negb (is_upload ev)) (fetch_events cfg c d tmp) = true.
Proof. unfold fetch_events. now destruct (fetched_kind c). Qed.


Lemma executor_overwrites c d tmp s net k v :
  out_result (step_executor py_int etl cfg c d tmp s net) = Ok tt ->
  k ∈ published_kinds c ->
  out_store (step_executor py_int etl cfg c d tmp (<[object_key cfg k d := v]> s) net) =
  out_store (step_executor py_int etl cfg c d tmp s net).
Proof.
  intros Hok Hk. unfold step_executor in *.
  rewrite (fetch_input_frame c d s).
  2:{ intros k' Hk'. apply lookup_insert_ne. intros Heq.
      apply object_key_inj in Heq. subst k'.
      now apply (fetched_not_published c k). }
  destruct (fetch_input cfg c d s net) as [[input|e] net'] eqn:Hf; [|discriminate].
  destruct (transform py_int etl cfg c d input) as [units [contents|e]] eqn:Ht;
    [|discriminate].
  cbn [out_store out_result] in *.
  apply publish_all_overwrites; [|exact Hok|].
  - apply fst_combine_NoDup, published_kinds_NoDup.
  - apply transform_length in Ht.
    destruct (combine_lookup (published_kinds c) contents k Ht Hk) as [y Hy].
    apply list_elem_of_In, in_map_iff. exists (k, y).
    split; [reflexivity | now apply list_elem_of_In].
Qed.

Lemma executor_published c d tmp s net k :
  out_result (step_executor py_int etl cfg c d tmp s net) = Ok tt ->
  k ∈ published_kinds c ->
  is_Some (out_store (step_executor py_int etl cfg c d tmp s net) !! object_key cfg k d).
Proof.
  intros Hok Hk. unfold step_executor in *.
  destruct (fetch_input cfg c d s net) as [[input|e] net'] eqn:Hf; [|discriminate].
  destruct (transform py_int etl cfg c d input) as [units [contents|e]] eqn:Ht;
    [|discriminate].
  cbn [out_store out_result] in *.
  apply transform_length in Ht.
  destruct (combine_lookup (published_kinds c) contents k Ht Hk) as [y Hy].
  exists y. apply publish_all_uploaded; [|exact Hok|exact Hy].
  apply fst_combine_NoDup, published_kinds_NoDup.
Qed.

(** Every upload of a step is of one of its kinds, to the name the kind
    and the date determine. *)
Lemma executor_upload_targets c d tmp s net ev :
  ev ∈ out_events (step_executor py_int etl cfg c d tmp s net) ->
  is_upload ev = true ->
  exists k, k ∈ published_kinds c /\
    ev = EvUpload (output_bucket cfg) (object_name k d) (local_file tmp k).
Proof.
  unfold step_executor.
  assert (forall evs, forallb (fun ev => negb (is_upload ev)) evs = true ->
            ev ∈ evs -> is_upload ev = true -> False) as Hprep.
  { intros evs Hall Hin Hup. rewrite forallb_forall in Hall.
    apply list_elem_of_In in Hin. apply Hall in Hin. rewrite Hup in Hin. discriminate. }
  destruct (fetch_input cfg c d s net) as [[input|e] net'] eqn:Hf.
  - destruct (transform py_int etl cfg c d input) as [units [contents|e]] eqn:Ht;
      cbn [out_events]; intros Hin Hup.
    + rewrite !elem_of_app in Hin. destruct Hin as [Hin|[Hin|Hin]].
      * destruct (Hprep _ (no_upload_fetch c d tmp) Hin Hup).
      * destruct (Hprep _ (no_upload_among_calls units) Hin Hup).
      * apply publish_all_targets in Hin as (k & Hk & ->).
        exists k. split; [|reflexivity]. eapply fst_combine_subset, Hk.
    + rewrite elem_of_app in Hin. destruct Hin as [Hin|Hin].
      * destruct (Hprep _ (no_upload_fetch c d tmp) Hin Hup).
      * destruct (Hprep _ (no_upload_among_calls units) Hin Hup).
  - cbn [out_events]. intros Hin Hup.
    destruct (Hprep _ (no_upload_fetch c d tmp) Hin Hup).
Qed.

(** A missing upstream object stops a consumer at its fetch. *)
Lemma executor_fetch_absent c k d tmp s net :
  fetched_kind c = Some k -> s !! object_key cfg k d = None ->
  step_executor py_int etl cfg c d tmp s net =
  mkOutcome
    (Err (TransferError Download (if (pop net).1 then ObjectNotFound else Unreachable)))
    s (pop net).2
    [EvDownload (output_bucket cfg) (object_name k d) (local_file tmp k)].
Proof.
  intros Hk Hnone. unfold step_executor, fetch_input, fetch_events.
  rewrite Hk, Hnone. now destruct (pop net) as [[|] net'].
Qed.

(** A consumer makes one download, first of all its calls. *)
Lemma executor_fetches c k d tmp s net :
  fetched_kind c = Some k ->
  exists rest,
    out_events (step_executor py_int etl cfg c d tmp s net) =
      EvDownload (output_bucket cfg) (object_name k d) (local_file tmp k) :: rest /\
    forallb (fun ev => negb (is_download ev)) rest = true.
Proof.
  intros Hk. unfold step_executor, fetch_events. rewrite Hk.
  assert (forall evs, forallb is_upload evs = true ->
            forallb (fun ev => negb (is_download ev)) evs = true) as Huploads.
  { intros evs Hall. rewrite forallb_forall in *. intros ev Hin.
    apply Hall in Hin. now destruct ev. }
  destruct (fetch_input cfg c d s net) as [[input|e] net'].
  - destruct (transform py_int etl cfg c d input) as [units [contents|e]];
      cbn [out_events app]; eexists; (split; [reflexivity|]).
    + rewrite forallb_app, no_download_among_calls. apply Huploads, publish_all_events.
    + apply no_download_among_calls.
  - cbn [out_events]. eexists. split; reflexivity.
Qed.

End StepFacts.

(** ** The claims on runs *)

Lemma producer_of_published c k : k ∈ published_kinds c <-> producer_of k = c.
Proof.
  split.
  - destruct c; cbn; rewrite ?elem_of_cons, elem_of_nil; intros H;
      repeat destruct H as [H|H]; subst; try reflexivity; destruct H.
  - intros <-. destruct k; apply (bool_decide_unpack _); reflexivity.
Qed.

Lemma producer_is_canonical c k :
  fetched_kind c = Some k -> (producer_of k, c) ∈ canonical_edges.
Proof.
  destruct c; intros Hk; try discriminate Hk; injection Hk as <-;
    apply list_elem_of_In; cbn; auto.
Qed.

Section Claims.

Variable py_int : string -> option Z.
Variable etl : cli.t.
Variable cfg : Config.








(** C6.  When a command returns, normally or with any exception, its
    temporary directory is gone and no file is left under it; in
    particular none of the files the step exchanges. *)
Theorem workspace_cleanup c d tempdir w :
  let run := run_command py_int etl cfg c d tempdir w in
  (tempdir ∉ dirs run.2) /\
  (forall path, is_under tempdir path = true -> files run.2 !! path = None) /\
  (forall k, files run.2 !! local_file tempdir k = None).
Proof.
  cbv zeta. unfold run_command.
  destruct (with_TemporaryDirectory_clean tempdir (command_body py_int etl cfg c d) w)
    as [Hdir Hfiles].
  split; [exact Hdir|]. split; [exact Hfiles|].
  intros k. apply Hfiles, is_under_join.
Qed.

(** C7.  When the upstream object of a consumer step is absent from the
    bucket at [export_path] of its kind and date plus the basename of the
    local file, the run ends with the error of the download (not found,
    when the store answers), its only call is that download, so no unit of
    work runs, and the store is left as it was. *)
Theorem fetch_not_found_is_fatal c k d tempdir w :
  fetched_kind c = Some k ->
  store w !! (output_bucket cfg,
              export_path (kind_directory k) d +:+
                OsPath.basename (local_file tempdir k)) = None ->
  let run := run_command py_int etl cfg c d tempdir w in
  (exists why, run.1 = Err (TransferError Download why)) /\
  (head (reachable w) <> Some false ->
   run.1 = Err (TransferError Download ObjectNotFound)) /\
  store run.2 = store w /\
  calls_made py_int etl cfg c d tempdir w =
    [EvDownload (output_bucket cfg)
       (export_path (kind_directory k) d +:+ OsPath.basename (local_file tempdir k))
       (local_file tempdir k)].
Proof.
  intros Hk Hnone. cbv zeta.
  unfold local_file in Hnone |- * at 1.
  rewrite basename_join in * by apply kind_filename_no_slash.
  rewrite run_calls_made, run_result, run_store.
  rewrite (executor_fetch_absent py_int etl cfg c k d tempdir _ _ Hk Hnone).
  cbn [out_result out_store out_events]. split; [eauto|].
  split; [|split; reflexivity].
  intros Hup. destruct (reachable w) as [|[|] net]; cbn in *; congruence.
Qed.

(** C8.  A command run a second time for the same date, on the store the
    first run left and with the units of work answering as before, leaves
    the store as the first run left it: this holds when the store answers
    the second run as it answered the first (always so for a store that
    never fails), and also, whatever it answers, when the first run
    succeeded.  Every upload goes to [export_path] of a published kind
    and the date plus the basename of the local file; after a successful
    run each such object is in the store, and what the bucket held there
    before makes no difference. *)
Theorem rerun_idempotent c d tempdir1 tempdir2 w w2 :
  let first := run_command py_int etl cfg c d tempdir1 w in
  let second := run_command py_int etl cfg c d tempdir2 w2 in
  store w2 = store first.2 ->
  reachable w2 = reachable w \/ first.1 = Ok tt ->
  store second.2 = store first.2 /\
  (reachable w2 = reachable w -> second.1 = first.1) /\
  (forall ev, ev ∈ calls_made py_int etl cfg c d tempdir1 w -> is_upload ev = true ->
     exists k, k ∈ published_kinds c /\
       ev = EvUpload (output_bucket cfg)
              (export_path (kind_directory k) d +:+
                 OsPath.basename (local_file tempdir1 k))
              (local_file tempdir1 k)) /\
  (first.1 = Ok tt -> forall k, k ∈ published_kinds c ->
     is_Some (store first.2 !! object_key cfg k d) /\
     forall v w0, store w0 = <[object_key cfg k d := v]> (store w) ->
       reachable w0 = reachable w ->
       store (run_command py_int etl cfg c d tempdir1 w0).2 = store first.2).
Proof.
  cbv zeta. rewrite !run_store, !run_result, run_calls_made.
  intros Hstore Hsame. rewrite Hstore.
  split; [|split; [|split]].
  - destruct Hsame as [Hnet|Hok].
    + rewrite Hnet. apply executor_rerun.
    + now apply executor_rerun_after_success.
  - intros Hnet. rewrite Hnet. apply executor_rerun.
  - intros ev Hin Hup.
    destruct (executor_upload_targets py_int etl cfg c d tempdir1 _ _ ev Hin Hup)
      as (k & Hk & ->).
    exists k. split; [exact Hk|].
    unfold local_file, object_name.
    rewrite basename_join by apply kind_filename_no_slash. reflexivity.
  - intros Hok k Hk. split.
    + now apply executor_published.
    + intros v w0 Hw0 Hnet0. rewrite run_store, Hw0, Hnet0.
      now apply executor_overwrites.
Qed.

Lemma transform_no_download_error c d input units e :
  transform py_int etl cfg c d input = (units, Err e) -> is_download_error e = false.
Proof.
  destruct c; unfold transform, block_range, tbind, tret, tfail, unit_of_work;
    repeat (run_step idtac);
    intros H; try discriminate H; injection H as _ <-; reflexivity.
Qed.

(** With the object in the bucket and the store answering, the fetch of
    a consumer succeeds: no error of the run is a download error. *)
Lemma executor_fetch_present c k d tmp s net e :
  fetched_kind c = Some k ->
  is_Some (s !! object_key cfg k d) -> head net <> Some false ->
  out_result (step_executor py_int etl cfg c d tmp s net) = Err e ->
  is_download_error e = false.
Proof.
  intros Hk [content Hcontent] Hup. unfold step_executor, fetch_input.
  rewrite Hk, Hcontent.
  assert ((pop net).1 = true) as Hpop by (destruct net as [|[|] net]; cbn in *; congruence).
  destruct (pop net) as [up net']. cbn [fst] in Hpop. subst up.
  destruct (transform py_int etl cfg c d content) as [units [contents|e']] eqn:Ht;
    cbn [out_result].
  - destruct (publish_all_result cfg d tmp (combine (published_kinds c) contents) s net')
      as [Hr|Hr]; rewrite Hr; [discriminate|]. now intros [= <-].
  - intros [= <-]. eapply transform_no_download_error, Ht.
Qed.

(** C4, as amended.  For every setting of the toggles, an enabled
    consumer step is a node of the graph; the edge from the producer of
    its upstream kind is present exactly when the producer is enabled,
    and with the producer off the consumer has no predecessor edge.
    Either way a run of the consumer makes one download, of that kind,
    before any other call, and with the object in the bucket and the
    store answering no error of the run is a download error. *)
Theorem consumer_fetches_whatever_the_toggles env :
  exists dag, add_operators cfg (new_dag env) = (Ok tt, dag) /\
    forall c k, fetched_kind c = Some k -> step_toggle cfg c = true ->
      step_operator c ∈ tasks dag /\
      ((step_task_id (producer_of k), step_task_id c) ∈ edges dag <->
       step_toggle cfg (producer_of k) = true) /\
      (step_toggle cfg (producer_of k) = false ->
       forall s, (s, step_task_id c) ∉ edges dag) /\
      (forall d tempdir w,
         (exists rest,
            calls_made py_int etl cfg c d tempdir w =
              EvDownload (output_bucket cfg) (object_name k d) (local_file tempdir k)
                :: rest /\
            forallb (fun ev => negb (is_download ev)) rest = true) /\
         (is_Some (store w !! object_key cfg k d) -> head (reachable w) <> Some false ->
          forall e, (run_command py_int etl cfg c d tempdir w).1 = Err e ->
                    is_download_error e = false)).
Proof.
  exists (expected_graph cfg env). split; [apply add_operators_graph|].
  intros c k Hk Hon. pose proof (producer_is_canonical c k Hk) as Hedge.
  split; [now apply operator_in_graph|]. split; [|split].
  - rewrite edge_in_graph. split.
    + intros (u & v & _ & Hu & _ & Htu & _). apply step_task_id_inj in Hu. congruence.
    + intros Hp. exists (producer_of k), c. auto.
  - intros Hoff s Hs.
    apply edge_in_graph in Hs as (u & v & Hin & -> & Hv & Hu & _).
    apply step_task_id_inj in Hv. subst v.
    rewrite (canonical_producer_unique _ _ _ Hedge Hin) in Hu. congruence.
  - intros d tempdir w. split.
    + rewrite run_calls_made. now apply executor_fetches.
    + intros Hpresent Hup e. rewrite run_result. now apply executor_fetch_present with (k := k).
Qed.

End Claims.

(** C4 fails as stated: with the blocks step off and the transactions
    of the day already in the bucket, the receipts step is in the graph,
    fetches the transactions and succeeds, while no step of the graph
    produces them. *)
Lemma dependency_integrity_counterexample :
  ~ dependency_integrity Demo.int Demo.etl Demo.without_blocks ∅.
Proof.
  intros Hintegrity.
  destruct (Hintegrity (expected_graph Demo.without_blocks ∅)
              (step_operator export_receipts_and_logs_command)
              Transactions Demo.day "/tmp/tmp0" Demo.with_transactions)
    as [(p & Hp & Hkind)|(e & Hfail)].
  - apply add_operators_graph.
  - apply list_elem_of_In. cbn. auto.
  - apply list_elem_of_In. vm_compute. left. reflexivity.
  - apply list_elem_of_In in Hp. cbn in Hp.
    repeat destruct Hp as [<-|Hp];
      apply list_elem_of_In in Hkind; cbn in Hkind; intuition discriminate.
  - vm_compute in Hfail. discriminate Hfail.
Qed.

(** ** The claims on the concrete instance *)


(** Four ways out of a command, each without the directory at the end:
    success, a failing unit of work, a failing fetch, a failing
    publish. *)
Lemma workspace_cleanup_witness :
  (let run := run_command Demo.int Demo.etl Demo.all_enabled
                export_blocks_and_transactions_command Demo.day "/tmp/tmp0"
                Demo.empty_world in
   run.1 = Ok tt /\ ("/tmp/tmp0" ∉ dirs run.2) /\
   files run.2 !! "/tmp/tmp0/blocks.csv" = None) /\
  (let run := run_command Demo.int Demo.failing_etl Demo.all_enabled
                export_receipts_and_logs_command Demo.day "/tmp/tmp0"
                Demo.with_transactions in
   run.1 = Err (ExtractionError "extract_csv_column") /\
   files run.2 !! "/tmp/tmp0/transactions.csv" = None) /\
  (let run := run_command Demo.int Demo.etl Demo.all_enabled
                export_contracts_command Demo.day "/tmp/tmp0" Demo.empty_world in
   run.1 = Err (TransferError Download ObjectNotFound) /\
   ("/tmp/tmp0" ∉ dirs run.2)) /\
  (let run := run_command Demo.int Demo.etl Demo.all_enabled
                export_traces_command Demo.day "/tmp/tmp0" Demo.unreachable_world in
   run.1 = Err (TransferError Upload Unreachable) /\
   files run.2 !! "/tmp/tmp0/traces.csv" = None).
Proof.
  cbv zeta. split; [|split; [|split]].
  - destruct (workspace_cleanup Demo.int Demo.etl Demo.all_enabled
                export_blocks_and_transactions_command Demo.day "/tmp/tmp0"
                Demo.empty_world) as (Hdir & Hfiles & _).
    split; [vm_compute; reflexivity|]. split; [exact Hdir|].
    apply Hfiles. reflexivity.
  - destruct (workspace_cleanup Demo.int Demo.failing_etl Demo.all_enabled
                export_receipts_and_logs_command Demo.day "/tmp/tmp0"
                Demo.with_transactions) as (_ & Hfiles & _).
    split; [vm_compute; reflexivity|]. apply Hfiles. reflexivity.
  - destruct (workspace_cleanup Demo.int Demo.etl Demo.all_enabled
                export_contracts_command Demo.day "/tmp/tmp0" Demo.empty_world)
      as (Hdir & _).
    split; [vm_compute; reflexivity | exact Hdir].
  - destruct (workspace_cleanup Demo.int Demo.etl Demo.all_enabled
                export_traces_command Demo.day "/tmp/tmp0" Demo.unreachable_world)
      as (_ & Hfiles & _).
    split; [vm_compute; reflexivity|]. apply Hfiles. reflexivity.
Defined.

(** The receipts step on an empty bucket. *)
Lemma fetch_not_found_is_fatal_witness :
  fetched_kind export_receipts_and_logs_command = Some Transactions /\
  store Demo.empty_world
    !! (output_bucket Demo.all_enabled,
        export_path (kind_directory Transactions) Demo.day +:+
          OsPath.basename (local_file "/tmp/tmp0" Transactions)) = None /\
  (run_command Demo.int Demo.etl Demo.all_enabled export_receipts_and_logs_command
     Demo.day "/tmp/tmp0" Demo.empty_world).1 =
    Err (TransferError Download ObjectNotFound) /\
  calls_made Demo.int Demo.etl Demo.all_enabled export_receipts_and_logs_command
    Demo.day "/tmp/tmp0" Demo.empty_world =
    [EvDownload "bucket" "export/transactions/block_date=2021-03-01/transactions.csv"
       "/tmp/tmp0/transactions.csv"].
Proof.
  assert (store Demo.empty_world
            !! (output_bucket Demo.all_enabled,
                export_path (kind_directory Transactions) Demo.day +:+
                  OsPath.basename (local_file "/tmp/tmp0" Transactions)) = None)
    as Habsent by (vm_compute; reflexivity).
  split; [reflexivity|]. split; [exact Habsent|].
  destruct (fetch_not_found_is_fatal Demo.int Demo.etl Demo.all_enabled
              export_receipts_and_logs_command Transactions Demo.day "/tmp/tmp0"
              Demo.empty_world eq_refl Habsent) as (_ & Hfound & _ & Hcalls).
  split; [apply Hfound; discriminate|].
  rewrite Hcalls. vm_compute. reflexivity.
Defined.

(** The blocks step run twice on an empty bucket. *)
Lemma rerun_idempotent_witness :
  let first := run_command Demo.int Demo.etl Demo.all_enabled
                 export_blocks_and_transactions_command Demo.day "/tmp/tmp0"
                 Demo.empty_world in
  let second := run_command Demo.int Demo.etl Demo.all_enabled
                  export_blocks_and_transactions_command Demo.day "/tmp/tmp1"
                  first.2 in
  first.1 = Ok tt /\
  reachable first.2 = reachable Demo.empty_world /\
  store second.2 = store first.2.
Proof.
  cbv zeta.
  assert (reachable
            (run_command Demo.int Demo.etl Demo.all_enabled
               export_blocks_and_transactions_command Demo.day "/tmp/tmp0"
               Demo.empty_world).2 = reachable Demo.empty_world)
    as Hnet by (vm_compute; reflexivity).
  split; [vm_compute; reflexivity|]. split; [exact Hnet|].
  pose proof (rerun_idempotent Demo.int Demo.etl Demo.all_enabled
                export_blocks_and_transactions_command Demo.day "/tmp/tmp0" "/tmp/tmp1"
                Demo.empty_world) as Hrerun.
  cbv zeta in Hrerun. specialize (Hrerun _ eq_refl (or_introl Hnet)).
  destruct Hrerun as [Hsame _]. exact Hsame.
Defined.

(** The receipts step with the blocks step off: a node, no predecessor,
    and the download all the same. *)
Lemma consumer_fetches_whatever_the_toggles_witness :
  exists dag, add_operators Demo.without_blocks (new_dag ∅) = (Ok tt, dag) /\
    step_operator export_receipts_and_logs_command ∈ tasks dag /\
    (forall s, (s, "export_receipts_and_logs") ∉ edges dag) /\
    head (calls_made Demo.int Demo.etl Demo.without_blocks
            export_receipts_and_logs_command Demo.day "/tmp/tmp0" Demo.empty_world) =
      Some (EvDownload (output_bucket Demo.without_blocks)
              (object_name Transactions Demo.day)
              (local_file "/tmp/tmp0" Transactions)).
Proof.
  destruct (consumer_fetches_whatever_the_toggles Demo.int Demo.etl Demo.without_blocks ∅)
    as (dag & Hbuild & Hconsumer).
  destruct (Hconsumer export_receipts_and_logs_command Transactions eq_refl eq_refl)
    as (Hnode & _ & Hnone & Hrun).
  exists dag. split; [exact Hbuild|]. split; [exact Hnode|]. split.
  - apply Hnone. reflexivity.
  - destruct (Hrun Demo.day "/tmp/tmp0" Demo.empty_world) as [(rest & Hcalls & _) _].
    rewrite Hcalls. reflexivity.
Defined.

(** * Further properties of the module *)

(** ** Splitting and stripping *)

Lemma split_go_length sep s cur :
  length (PyStr.split_go sep s cur) = S (count_char sep s).
Proof.
  revert cur. induction s as [|c s IH]; intros cur; [reflexivity|].
  cbn [PyStr.split_go count_char]. destruct (Ascii.eqb c sep); cbn; now rewrite IH.
Qed.




Lemma split_go_one sep s cur x :
  PyStr.split_go sep s cur = [x] <-> x = cur +:+ s /\ PyStr.mem_char sep s = false.
Proof.
  revert cur. induction s as [|c s IH]; intros cur; cbn [PyStr.split_go PyStr.mem_char].
  - rewrite app_empty_r. split; [intros [= <-]; auto | intros [-> _]; reflexivity].
  - destruct (Ascii.eqb c sep) eqn:Hc; cbn [orb].
    + split; [|intros [_ H]; discriminate H].
      intros H. injection H as _ H. apply (f_equal length) in H.
      rewrite split_go_length in H. discriminate H.
    + rewrite IH, app_assoc_str. reflexivity.
Qed.

Lemma split_go_two sep s cur x y :
  PyStr.split_go sep s cur = [x; y] <->
  exists x', x = cur +:+ x' /\ s = x' +:+ String sep y /\
             PyStr.mem_char sep x' = false /\ PyStr.mem_char sep y = false.
Proof.
  revert cur. induction s as [|c s IH]; intros cur; cbn [PyStr.split_go].
  - split; [intros H; discriminate H|].
    intros (x' & _ & H & _). destruct x'; discriminate H.
  - destruct (Ascii.eqb c sep) eqn:Hc.
    + apply Ascii.eqb_eq in Hc. subst c. split.
      * intros H. injection H as <- H. apply split_go_one in H as [-> Hs].
        exists EmptyString. rewrite app_empty_r, !app_empty_l. auto.
      * intros (x' & -> & Hs & Hx' & Hy). destruct x' as [|c x'].
        -- rewrite app_empty_l in Hs. injection Hs as ->.
           rewrite app_empty_r. f_equal. apply split_go_one. auto.
        -- rewrite app_cons in Hs. injection Hs as <- _.
           cbn in Hx'. rewrite Ascii.eqb_refl in Hx'. discriminate Hx'.
    + rewrite IH. split.
      * intros (x' & -> & -> & Hx' & Hy). exists (String c x').
        rewrite app_assoc_str. cbn [PyStr.mem_char]. rewrite Hc. auto.
      * intros (x' & -> & Hs & Hx' & Hy). destruct x' as [|c' x'].
        -- rewrite app_empty_l in Hs. injection Hs as -> _.
           rewrite Ascii.eqb_refl in Hc. discriminate Hc.
        -- rewrite app_cons in Hs. injection Hs as <- ->.
           cbn [PyStr.mem_char] in Hx'. rewrite Hc in Hx'. exists x'.
           rewrite app_assoc_str. auto.
Qed.

(** A text splits in two exactly when it holds the separator once. *)
Lemma split_two sep s x y :
  PyStr.split sep s = [x; y] <->
  s = x +:+ String sep y /\ PyStr.mem_char sep x = false /\ PyStr.mem_char sep y = false.
Proof.
  unfold PyStr.split. rewrite split_go_two. split.
  - intros (x' & -> & -> & H). rewrite app_empty_l. auto.
  - intros (-> & H). exists x. rewrite app_empty_l. auto.
Qed.







(** Every character of a text is, lowered, a character of the lowered
    text. *)
Lemma lower_occurs c raw :
  In c (list_ascii_of_string raw) ->
  PyStr.mem_char (PyStr.lower_ascii c) (PyStr.lower raw) = true.
Proof.
  induction raw as [|c' raw IH]; [intros []|].
  cbn [list_ascii_of_string In PyStr.lower PyStr.mem_char]. intros [->|Hin].
  - now rewrite Ascii.eqb_refl.
  - rewrite IH by exact Hin. apply orb_true_r.
Qed.

(** ** The settings and the recipients *)


(** X2.  A flag whose text holds a character that is, lowered, none of
    the letters of "true" and "yes" is false, whatever its default: a
    blank or a newline around the word, a digit, "on". *)
Theorem flag_rejects_other_characters (env : environ) name default raw c :
  env !! name = Some raw ->
  In c (list_ascii_of_string raw) ->
  PyStr.mem_char (PyStr.lower_ascii c) "trueyes" = false ->
  get_boolean_env_variable env name default = false.
Proof.
  intros Hraw Hin Hc.
  rewrite (get_boolean_env_variable_set env name default raw Hraw)
    by (intros ->; destruct Hin).
  apply bool_decide_eq_false. rewrite !elem_of_cons, elem_of_nil.
  apply lower_occurs in Hin.
  intros [Heq|[Heq|[]]]; rewrite Heq in Hin; cbn [PyStr.mem_char] in Hin, Hc;
    repeat match type of Hc with
           | (_ || _) = false => apply orb_false_elim in Hc as [? Hc]
           end;
    repeat match goal with H : Ascii.eqb _ _ = false |- _ => rewrite H in Hin end;
    discriminate Hin.
Qed.

(** "on" does not turn a step on. *)
Lemma flag_rejects_other_characters_witness :
  get_boolean_env_variable {["EXPORT_TRACES" := "on"]} "EXPORT_TRACES" true = false.
Proof.
  apply (flag_rejects_other_characters {["EXPORT_TRACES" := "on"]} "EXPORT_TRACES"
           true "on" "o").
  - reflexivity.
  - cbn. auto.
  - reflexivity.
Defined.

Section ImportFacts.

Variable py_int : string -> option Z.

Lemma int_env_variable_cases {S} (env : environ) name default (s : S) :
  (int_setting_ok py_int env name /\
   exists n, int_env_variable py_int env name default s = (Ok n, s) /\
             forall raw, env !! name = Some raw -> py_int raw = Some n) \/
  (~ int_setting_ok py_int env name /\
   exists msg, int_env_variable py_int env name default s = (Err (ValueError msg), s)).
Proof.
  unfold int_setting_ok, int_env_variable. destruct (env !! name) as [raw|].
  - destruct (py_int raw) as [n|] eqn:Hn.
    + left. split; [eauto|]. exists n. split; [reflexivity|]. now intros raw' [= <-].
    + right. split; [intros [n Hn']; discriminate Hn' | eauto].
  - left. split; [exact I|]. exists default. split; [reflexivity|].
    intros raw H. discriminate H.
Qed.

(** X3.  The import succeeds exactly when [OUTPUT_BUCKET] is set (the
    empty text included) and each of the two integer settings is unset or
    read by [int].  When it fails the exception is a [ValueError] and the
    DAG holds no task.  When it succeeds the DAG is the one the operators
    build from the settings, the bucket is the text given, and an integer
    setting that is given has the value [int] reads from it. *)
Theorem import_outcome (env : environ) :
  let run := load_module py_int env in
  ((exists cfg, run.1 = Ok cfg) <->
   is_Some (env !! "OUTPUT_BUCKET") /\
   int_setting_ok py_int env "EXPORT_MAX_WORKERS" /\
   int_setting_ok py_int env "EXPORT_BATCH_SIZE") /\
  (forall e, run.1 = Err e ->
     (exists msg, e = ValueError msg) /\ run.2 = new_dag env /\ tasks run.2 = []) /\
  (forall cfg, run.1 = Ok cfg ->
     add_operators cfg (new_dag env) = (Ok tt, run.2) /\
     Some (output_bucket cfg) = env !! "OUTPUT_BUCKET" /\
     (forall raw, env !! "EXPORT_MAX_WORKERS" = Some raw ->
        py_int raw = Some (export_max_workers cfg)) /\
     (forall raw, env !! "EXPORT_BATCH_SIZE" = Some raw ->
        py_int raw = Some (export_batch_size cfg))).
Proof.
  cbv zeta. unfold load_module, load_config, bind.
  destruct (env !! "OUTPUT_BUCKET") as [bucket|]; cbn [raise ret].
  2:{ split; [|split].
      - split; [intros [cfg H]; discriminate H | intros [[b Hb] _]; discriminate Hb].
      - intros e [= <-]. cbn. eauto.
      - intros cfg H. discriminate H. }
  destruct (int_env_variable_cases env "EXPORT_MAX_WORKERS" 5 (new_dag env))
    as [[Hw (workers & -> & Hworkers)]|[Hw (msg & ->)]].
  2:{ split; [|split].
      - split; [intros [cfg H]; discriminate H | tauto].
      - intros e [= <-]. cbn. eauto.
      - intros cfg H. discriminate H. }
  destruct (int_env_variable_cases env "EXPORT_BATCH_SIZE" 10 (new_dag env))
    as [[Hb (batch & -> & Hbatch)]|[Hb (msg & ->)]].
  2:{ split; [|split].
      - split; [intros [cfg H]; discriminate H | tauto].
      - intros e [= <-]. cbn. eauto.
      - intros cfg H. discriminate H. }
  unfold ret. cbv beta iota. rewrite add_operators_graph. cbn [fst snd].
  split; [|split].
  - split; [intros _; eauto | eauto].
  - intros e H. discriminate H.
  - intros cfg [= Hcfg]. subst cfg. rewrite add_operators_graph.
    cbn. auto.
Qed.

End ImportFacts.

(** ** Building the graph *)




(** Positions [i < j], below six, of the two ends of an edge. *)
Ltac edge_goes_forward :=
  let rec to j i :=
    first [ solve [exists i, j; split; [reflexivity | split; [reflexivity | lia]]]
          | lazymatch i with
            | S ?i' => to j i'
            end ] in
  first [ to 1%nat 0%nat | to 2%nat 1%nat | to 3%nat 2%nat | to 4%nat 3%nat
        | to 5%nat 4%nat ].

(** X14.  Whatever the toggles, the graph the operators build has no
    two tasks of one id, each of its edges goes from a task to a task
    added after it, so the graph has no cycle and no dangling edge, and no
    task has two upstream tasks. *)
Theorem task_graph_shape cfg env :
  exists dag, add_operators cfg (new_dag env) = (Ok tt, dag) /\
    NoDup (task_ids dag) /\
    (forall s t, (s, t) ∈ edges dag ->
       exists i j, task_ids dag !! i = Some s /\ task_ids dag !! j = Some t /\
                   (i < j)%nat) /\
    (forall s s' t, (s, t) ∈ edges dag -> (s', t) ∈ edges dag -> s' = s).
Proof.
  exists (expected_graph cfg env). split; [apply add_operators_graph|].
  destruct cfg as [b u a mw bs o1 o2 t1 t2 t3 t4 t5 t6].
  unfold expected_graph, task_ids, both_enabled.
  destruct t1, t2, t3, t4, t5, t6;
    cbn;
    (split; [apply (bool_decide_unpack _); reflexivity|]);
    (split;
     [ intros s t Hin; apply list_elem_of_In in Hin; cbn in Hin;
       repeat (destruct Hin as [Hin|Hin]; [injection Hin as <- <-; edge_goes_forward|]);
       destruct Hin
     | intros s s' t Hin Hin'; apply list_elem_of_In in Hin, Hin'; cbn in Hin, Hin';
       repeat match goal with
              | H : _ \/ _ |- _ => destruct H
              | H : False |- _ => destruct H
              end;
       unfold edge_ids in *; cbn in *; simplify_eq; reflexivity ]).
Qed.

(** ** Transfers to and from the export path *)

Lemma answers_pop n net :
  answers (S n) net = true -> exists net', pop net = (true, net') /\ answers n net' = true.
Proof.
  destruct net as [|[|] net]; cbn; intros H; try discriminate H; eauto.
  exists []. split; [reflexivity|]. unfold answers. now rewrite take_nil.
Qed.

Lemma answers_le n m net : (m <= n)%nat -> answers n net = true -> answers m net = true.
Proof.
  unfold answers. revert m net. induction n as [|n IH]; intros [|m] net Hle H;
    try reflexivity; [lia|].
  destruct net as [|b net]; [reflexivity|]. cbn in *.
  apply andb_prop in H as [-> H]. cbn. apply IH; [lia | exact H].
Qed.

(** X4.  A local file copied to an export path and copied back from it
    into a file of the same basename, with the store answering both
    calls: both succeed, the second file holds the content of the first,
    no other local file changes, and the store gains one object, named by
    the export path and the basename, the directory of the local file
    playing no part. *)
Theorem copy_round_trip (cfg : Config) file_path prefix file_path' content w :
  files w !! file_path = Some content ->
  OsPath.basename file_path' = OsPath.basename file_path ->
  answers 2 (reachable w) = true ->
  let run := (let* _ := copy_to_export_path cfg file_path prefix in
              copy_from_export_path cfg prefix file_path') w in
  run.1 = Ok tt /\
  files run.2 !! file_path' = Some content /\
  (forall path, path <> file_path' -> files run.2 !! path = files w !! path) /\
  store run.2 =
    <[(output_bucket cfg, prefix +:+ OsPath.basename file_path) := content]> (store w).
Proof.
  intros Hfile Hname Hup. cbv zeta.
  unfold copy_to_export_path, copy_from_export_path,
    cloud_storage_hook.upload, cloud_storage_hook.download,
    emit, next_reachable, write_file, bind, modify, raise, ret.
  cbn [files store reachable fst snd]. rewrite Hfile, Hname.
  destruct (reachable w) as [|[|] [|[|] net]]; try discriminate Hup;
    cbn [files store reachable fst snd set_reachable set_store set_files];
    rewrite lookup_insert_eq; cbn [files store fst snd set_files];
    (split; [reflexivity|]); (split; [apply lookup_insert_eq|]);
    (split; [|reflexivity]); intros path Hpath; now apply lookup_insert_ne.
Qed.

(** A file of one directory comes back into another. *)
Lemma copy_round_trip_witness :
  let run :=
    (let* _ := copy_to_export_path Demo.all_enabled "/data/in/blocks.csv"
                 "export/blocks/block_date=2021-03-01/" in
     copy_from_export_path Demo.all_enabled "export/blocks/block_date=2021-03-01/"
       "/data/out/blocks.csv") Sample.with_local_file in
  run.1 = Ok tt /\
  files run.2 !! "/data/out/blocks.csv" = Some "number,hash" /\
  store run.2 !! ("bucket", "export/blocks/block_date=2021-03-01/blocks.csv") =
    Some "number,hash".
Proof.
  cbv zeta.
  destruct (copy_round_trip Demo.all_enabled "/data/in/blocks.csv"
              "export/blocks/block_date=2021-03-01/" "/data/out/blocks.csv"
              "number,hash" Sample.with_local_file)
    as (Hok & Hfile & _ & Hstore); [reflexivity..|].
  split; [exact Hok|]. split; [exact Hfile|].
  rewrite Hstore. apply lookup_insert_eq.
Defined.

(** ** The block range *)

Section BlockRangeFacts.

Variable py_int : string -> option Z.
Variable etl : cli.t.
Variable cfg : Config.

(** X5.  [get_block_range] returns [(a, b)] exactly when the unit of
    work gives a text of two fields around one comma which [int] reads as
    [a] and [b].  Whenever the unit of work gives a text, the text is left
    in [blocks_meta.txt] of the temporary directory, also when the range
    cannot be read from it; the store is not touched, and the unit of work
    is called once. *)
Theorem get_block_range_returns tempdir d w a b :
  let run := get_block_range py_int etl cfg tempdir d w in
  (run.1 = Ok (a, b) <->
   exists sa sb,
     cli.get_block_range_for_date etl (web3_provider_uri cfg) d =
       Some (sa +:+ "," +:+ sb) /\
     PyStr.mem_char "," sa = false /\ PyStr.mem_char "," sb = false /\
     py_int sa = Some a /\ py_int sb = Some b) /\
  (forall text,
     cli.get_block_range_for_date etl (web3_provider_uri cfg) d = Some text ->
     files run.2 = <[OsPath.join tempdir "blocks_meta.txt" := text]> (files w)) /\
  store run.2 = store w /\
  log run.2 = log w ++ [EvCall "get_block_range_for_date"].
Proof.
  cbv zeta. unfold get_block_range, callback, read_file, int_of, emit, write_file,
    bind, modify, raise, ret.
  destruct (cli.get_block_range_for_date etl (web3_provider_uri cfg) d) as [text|];
    cbn [files store log fst snd set_files].
  2:{ split; [|split; [|split]]; try reflexivity; [|intros text H; discriminate H].
      split; [intros H; discriminate H | intros (sa & sb & H & _); discriminate H]. }
  rewrite lookup_insert_eq.
  assert (forall r : result (Z * Z) * World,
            store r.2 = store w ->
            log r.2 = log w ++ [EvCall "get_block_range_for_date"] ->
            files r.2 = <[OsPath.join tempdir "blocks_meta.txt" := text]> (files w) ->
            (r.1 = Ok (a, b) <->
             exists sa sb, PyStr.split "," text = [sa; sb] /\
                           py_int sa = Some a /\ py_int sb = Some b) ->
            (r.1 = Ok (a, b) <->
             exists sa sb, Some text = Some (sa +:+ "," +:+ sb) /\
               PyStr.mem_char "," sa = false /\ PyStr.mem_char "," sb = false /\
               py_int sa = Some a /\ py_int sb = Some b) /\
            (forall text0, Some text = Some text0 ->
               files r.2 = <[OsPath.join tempdir "blocks_meta.txt" := text0]> (files w)) /\
            store r.2 = store w /\
            log r.2 = log w ++ [EvCall "get_block_range_for_date"]) as Hwrap.
  { intros r Hs Hl Hf Hiff. split; [|split; [|split]]; try assumption.
    - rewrite Hiff. split.
      + intros (sa & sb & Hsplit & Ha & Hb). apply split_two in Hsplit as (-> & Hsa & Hsb).
        exists sa, sb. auto.
      + intros (sa & sb & [= ->] & Hsa & Hsb & Ha & Hb). exists sa, sb.
        split; [|auto]. apply split_two. auto.
    - intros text0 [= <-]. exact Hf. }
  apply Hwrap; clear Hwrap.
  - destruct (PyStr.split "," text) as [|sa [|sb [|? ?]]]; try reflexivity.
    destruct (py_int sa); [|reflexivity]. destruct (py_int sb); reflexivity.
  - destruct (PyStr.split "," text) as [|sa [|sb [|? ?]]]; try reflexivity.
    destruct (py_int sa); [|reflexivity]. destruct (py_int sb); reflexivity.
  - destruct (PyStr.split "," text) as [|sa [|sb [|? ?]]]; try reflexivity.
    destruct (py_int sa); [|reflexivity]. destruct (py_int sb); reflexivity.
  - destruct (PyStr.split "," text) as [|sa [|sb [|? ?]]] eqn:Hsplit; cbn [fst].
    1,2,4: split; [intros H; discriminate H | intros (? & ? & H & _); discriminate H].
    destruct (py_int sa) as [x|] eqn:Ha.
    2:{ split; [intros H; discriminate H|].
        intros (sa' & sb' & [= <- <-] & Ha' & _). congruence. }
    destruct (py_int sb) as [y|] eqn:Hb.
    2:{ split; [intros H; discriminate H|].
        intros (sa' & sb' & [= <- <-] & _ & Hb'). congruence. }
    cbn [fst]. split.
    + intros [= <- <-]. eauto.
    + intros (sa' & sb' & [= <- <-] & Ha' & Hb'). congruence.
Qed.

(** X6.  What [get_block_range] raises: the error of the unit of work
    when the unit of work fails; otherwise a [ValueError], and then the
    text does not hold exactly one comma (no comma, or more than one, so
    that the unpacking fails) or [int] refuses one of its two fields.  It
    raises nothing else. *)
Theorem get_block_range_raises tempdir d w e :
  (get_block_range py_int etl cfg tempdir d w).1 = Err e ->
  match cli.get_block_range_for_date etl (web3_provider_uri cfg) d with
  | None => e = ExtractionError "get_block_range_for_date"
  | Some text =>
      (exists msg, e = ValueError msg) /\
      (count_char "," text <> 1%nat \/
       exists sa sb, text = sa +:+ "," +:+ sb /\ (py_int sa = None \/ py_int sb = None))
  end.
Proof.
  unfold get_block_range, callback, read_file, int_of, emit, write_file,
    bind, modify, raise, ret.
  destruct (cli.get_block_range_for_date etl (web3_provider_uri cfg) d) as [text|];
    cbn [files store log fst snd set_files]; [|now intros [= <-]].
  rewrite lookup_insert_eq.
  pose proof (split_go_length "," text EmptyString) as Hlen.
  fold (PyStr.split "," text) in Hlen.
  destruct (PyStr.split "," text) as [|sa [|sb [|? ?]]] eqn:Hsplit; cbn [fst].
  - discriminate Hlen.
  - intros [= <-]. split; [eauto|]. left. cbn in Hlen. lia.
  - apply split_two in Hsplit as (-> & Hsa & Hsb).
    destruct (py_int sa) eqn:Ha.
    + destruct (py_int sb) eqn:Hb; [intros H; discriminate H|].
      intros [= <-]. split; [eauto|]. right. exists sa, sb. auto.
    + intros [= <-]. split; [eauto|]. right. exists sa, sb. auto.
  - intros [= <-]. split; [eauto|]. left. cbn in Hlen. lia.
Qed.

End BlockRangeFacts.

(** A range written with a dash is no range. *)
Lemma get_block_range_raises_witness :
  (get_block_range Demo.int Sample.dashed_range_etl Demo.all_enabled "/tmp/tmp0"
     Demo.day Demo.empty_world).1 =
    Err (ValueError "wrong number of values to unpack") /\
  (count_char "," "100-200" <> 1%nat \/
   exists sa sb, "100-200" = sa +:+ "," +:+ sb /\
                 (Demo.int sa = None \/ Demo.int sb = None)).
Proof.
  assert ((get_block_range Demo.int Sample.dashed_range_etl Demo.all_enabled "/tmp/tmp0"
             Demo.day Demo.empty_world).1 =
          Err (ValueError "wrong number of values to unpack")) as Hfail
    by (vm_compute; reflexivity).
  split; [exact Hfail|].
  exact (proj2 (get_block_range_raises Demo.int Sample.dashed_range_etl
                  Demo.all_enabled "/tmp/tmp0" Demo.day Demo.empty_world _ Hfail)).
Defined.

(** ** What each command does when it succeeds *)

Ltac consume_answers :=
  repeat match goal with
         | H : answers (S _) _ = true |- _ =>
             let Hpop := fresh "Hpop" in
             apply answers_pop in H as (? & Hpop & H)
         end.

Ltac publish_step :=
  cbn [combine publish_all out_result out_store out_events map app].

Ltac open_run :=
  cbv zeta; rewrite ?run_result, ?run_store, ?run_calls_made;
  unfold step_executor, fetch_input, fetch_events, transform, block_range,
    tbind, tret, tfail, unit_of_work, download_of, upload_of;
  cbn [fetched_kind published_kinds].

Section CommandFacts.

Variable py_int : string -> option Z.
Variable etl : cli.t.
Variable cfg : Config.

(** X7.  When [export_blocks_and_transactions_command] succeeds, the
    block range of the date was resolved from the default endpoint and
    read as two integers, the blocks and the transactions were exported
    for that range with the batch size, the default endpoint and the
    worker count of the settings, and the store has gained exactly the
    range text, the blocks and the transactions under their names for the
    date; its calls were, in order, the two units of work and the three
    uploads.  Conversely, with these units of work succeeding and the
    store answering three calls, the command succeeds. *)
Theorem export_blocks_and_transactions_run d tempdir w :
  let run :=
    run_command py_int etl cfg export_blocks_and_transactions_command d tempdir w in
  (run.1 = Ok tt ->
   exists block_range sa sb start_block end_block blocks transactions,
     cli.get_block_range_for_date etl (web3_provider_uri cfg) d = Some block_range /\
     PyStr.split "," block_range = [sa; sb] /\
     py_int sa = Some start_block /\ py_int sb = Some end_block /\
     cli.export_blocks_and_transactions etl start_block end_block
       (export_batch_size cfg) (web3_provider_uri cfg) (export_max_workers cfg) =
       Some (blocks, transactions) /\
     store run.2 =
       <[object_key cfg Transactions d := transactions]>
         (<[object_key cfg Blocks d := blocks]>
            (<[object_key cfg BlocksMeta d := block_range]> (store w))) /\
     calls_made py_int etl cfg export_blocks_and_transactions_command d tempdir w =
       [EvCall "get_block_range_for_date"; EvCall "export_blocks_and_transactions";
        upload_of cfg BlocksMeta d tempdir; upload_of cfg Blocks d tempdir;
        upload_of cfg Transactions d tempdir]) /\
  (forall block_range sa sb start_block end_block outputs,
     answers 3 (reachable w) = true ->
     cli.get_block_range_for_date etl (web3_provider_uri cfg) d = Some block_range ->
     PyStr.split "," block_range = [sa; sb] ->
     py_int sa = Some start_block -> py_int sb = Some end_block ->
     cli.export_blocks_and_transactions etl start_block end_block
       (export_batch_size cfg) (web3_provider_uri cfg) (export_max_workers cfg) =
       Some outputs ->
     run.1 = Ok tt).
Proof.
  open_run. split.
  - repeat (run_step publish_step); intros H; try discriminate H.
    do 7 eexists. repeat split; first [eassumption | reflexivity].
  - intros block_range sa sb start_block end_block [blocks transactions]
      Hup Hrange Hsplit Hstart Hend Houtputs.
    consume_answers. rewrite Hrange, Hsplit, Hstart, Hend, Houtputs.
    publish_step. repeat (run_step publish_step). reflexivity.
Qed.

(** X8.  When [export_receipts_and_logs_command] succeeds, the
    transactions of the date were in the bucket, their [hash] column was
    extracted, the receipts and the logs were exported for those hashes
    with the batch size, the default endpoint and the worker count of the
    settings, and the store has gained exactly the receipts and the logs
    of the date; its calls were the download, the two units of work and
    the two uploads, in this order.  Conversely, with the object present,
    the units of work succeeding and the store answering three calls, the
    command succeeds. *)
Theorem export_receipts_and_logs_run d tempdir w :
  let run := run_command py_int etl cfg export_receipts_and_logs_command d tempdir w in
  (run.1 = Ok tt ->
   exists transactions hashes receipts logs,
     store w !! object_key cfg Transactions d = Some transactions /\
     cli.extract_csv_column etl transactions "hash" = Some hashes /\
     cli.export_receipts_and_logs etl (export_batch_size cfg) hashes
       (web3_provider_uri cfg) (export_max_workers cfg) = Some (receipts, logs) /\
     store run.2 =
       <[object_key cfg Logs d := logs]>
         (<[object_key cfg Receipts d := receipts]> (store w)) /\
     calls_made py_int etl cfg export_receipts_and_logs_command d tempdir w =
       [download_of cfg Transactions d tempdir;
        EvCall "extract_csv_column"; EvCall "export_receipts_and_logs";
        upload_of cfg Receipts d tempdir; upload_of cfg Logs d tempdir]) /\
  (forall transactions hashes outputs,
     answers 3 (reachable w) = true ->
     store w !! object_key cfg Transactions d = Some transactions ->
     cli.extract_csv_column etl transactions "hash" = Some hashes ->
     cli.export_receipts_and_logs etl (export_batch_size cfg) hashes
       (web3_provider_uri cfg) (export_max_workers cfg) = Some outputs ->
     run.1 = Ok tt).
Proof.
  open_run. split.
  - repeat (run_step publish_step); intros H; try discriminate H.
    do 4 eexists. repeat split; first [eassumption | reflexivity].
  - intros transactions hashes [receipts logs] Hup Hobject Hhashes Houtputs.
    consume_answers. repeat (run_step publish_step). reflexivity.
Qed.

(** X9.  When [export_contracts_command] succeeds, the receipts of the
    date were in the bucket, their [contract_address] column was
    extracted, the contracts were exported for those addresses with the
    batch size, the worker count and the default endpoint of the settings,
    and the store has gained exactly the contracts of the date; its calls
    were the download, the two units of work and the upload.  Conversely,
    with the object present, the units of work succeeding and the store
    answering two calls, the command succeeds. *)
Theorem export_contracts_run d tempdir w :
  let run := run_command py_int etl cfg export_contracts_command d tempdir w in
  (run.1 = Ok tt ->
   exists receipts addresses contracts,
     store w !! object_key cfg Receipts d = Some receipts /\
     cli.extract_csv_column etl receipts "contract_address" = Some addresses /\
     cli.export_contracts etl (export_batch_size cfg) addresses
       (export_max_workers cfg) (web3_provider_uri cfg) = Some contracts /\
     store run.2 = <[object_key cfg Contracts d := contracts]> (store w) /\
     calls_made py_int etl cfg export_contracts_command d tempdir w =
       [download_of cfg Receipts d tempdir;
        EvCall "extract_csv_column"; EvCall "export_contracts";
        upload_of cfg Contracts d tempdir]) /\
  (forall receipts addresses contracts,
     answers 2 (reachable w) = true ->
     store w !! object_key cfg Receipts d = Some receipts ->
     cli.extract_csv_column etl receipts "contract_address" = Some addresses ->
     cli.export_contracts etl (export_batch_size cfg) addresses
       (export_max_workers cfg) (web3_provider_uri cfg) = Some contracts ->
     run.1 = Ok tt).
Proof.
  open_run. split.
  - repeat (run_step publish_step); intros H; try discriminate H.
    do 3 eexists. repeat split; first [eassumption | reflexivity].
  - intros receipts addresses contracts Hup Hobject Haddresses Hcontracts.
    consume_answers. repeat (run_step publish_step). reflexivity.
Qed.

(** X10.  When [export_tokens_command] succeeds, the contracts of the
    date were in the bucket, those that are ERC20 or ERC721 were kept,
    their [address] field was extracted, the tokens were exported for
    those addresses with the worker count and the default endpoint of the
    settings (no batch size), and the store has gained exactly the tokens
    of the date; its calls were the download, the three units of work and
    the upload.  Conversely, with the object present, the units of work
    succeeding and the store answering two calls, the command succeeds. *)
Theorem export_tokens_run d tempdir w :
  let run := run_command py_int etl cfg export_tokens_command d tempdir w in
  (run.1 = Ok tt ->
   exists contracts token_contracts addresses tokens,
     store w !! object_key cfg Contracts d = Some contracts /\
     cli.filter_items etl contracts "item['is_erc20'] or item['is_erc721']" =
       Some token_contracts /\
     cli.extract_field etl token_contracts "address" = Some addresses /\
     cli.export_tokens etl addresses (export_max_workers cfg) (web3_provider_uri cfg) =
       Some tokens /\
     store run.2 = <[object_key cfg Tokens d := tokens]> (store w) /\
     calls_made py_int etl cfg export_tokens_command d tempdir w =
       [download_of cfg Contracts d tempdir;
        EvCall "filter_items"; EvCall "extract_field"; EvCall "export_tokens";
        upload_of cfg Tokens d tempdir]) /\
  (forall contracts token_contracts addresses tokens,
     answers 2 (reachable w) = true ->
     store w !! object_key cfg Contracts d = Some contracts ->
     cli.filter_items etl contracts "item['is_erc20'] or item['is_erc721']" =
       Some token_contracts ->
     cli.extract_field etl token_contracts "address" = Some addresses ->
     cli.export_tokens etl addresses (export_max_workers cfg) (web3_provider_uri cfg) =
       Some tokens ->
     run.1 = Ok tt).
Proof.
  open_run. split.
  - repeat (run_step publish_step); intros H; try discriminate H.
    do 4 eexists. repeat split; first [eassumption | reflexivity].
  - intros contracts token_contracts addresses tokens Hup Hobject Hfilter Hfield Htokens.
    consume_answers. repeat (run_step publish_step). reflexivity.
Qed.

(** X11.  When [extract_token_transfers_command] succeeds, the logs of
    the date were in the bucket, the token transfers were extracted from
    them with the batch size and the worker count of the settings (no
    endpoint), and the store has gained exactly the token transfers of
    the date; its calls were the download, the unit of work and the
    upload.  Conversely, with the object present, the unit of work
    succeeding and the store answering two calls, the command succeeds. *)
Theorem extract_token_transfers_run d tempdir w :
  let run := run_command py_int etl cfg extract_token_transfers_command d tempdir w in
  (run.1 = Ok tt ->
   exists logs transfers,
     store w !! object_key cfg Logs d = Some logs /\
     cli.extract_token_transfers etl logs (export_batch_size cfg)
       (export_max_workers cfg) = Some transfers /\
     store run.2 = <[object_key cfg TokenTransfers d := transfers]> (store w) /\
     calls_made py_int etl cfg extract_token_transfers_command d tempdir w =
       [download_of cfg Logs d tempdir; EvCall "extract_token_transfers";
        upload_of cfg TokenTransfers d tempdir]) /\
  (forall logs transfers,
     answers 2 (reachable w) = true ->
     store w !! object_key cfg Logs d = Some logs ->
     cli.extract_token_transfers etl logs (export_batch_size cfg)
       (export_max_workers cfg) = Some transfers ->
     run.1 = Ok tt).
Proof.
  open_run. split.
  - repeat (run_step publish_step); intros H; try discriminate H.
    do 2 eexists. repeat split; first [eassumption | reflexivity].
  - intros logs transfers Hup Hobject Htransfers.
    consume_answers. repeat (run_step publish_step). reflexivity.
Qed.

(** X12.  When [export_traces_command] succeeds, the block range of the
    date was resolved from the default endpoint and read as two integers,
    the traces were exported for that range from the archival endpoint
    with the batch size, the worker count and the genesis and DAO fork
    options of the settings, and the store has gained exactly the traces
    of the date (the range text is not published); its calls were the two
    units of work and the upload.  Conversely, with the units of work
    succeeding and the store answering one call, the command succeeds. *)
Theorem export_traces_run d tempdir w :
  let run := run_command py_int etl cfg export_traces_command d tempdir w in
  (run.1 = Ok tt ->
   exists block_range sa sb start_block end_block traces,
     cli.get_block_range_for_date etl (web3_provider_uri cfg) d = Some block_range /\
     PyStr.split "," block_range = [sa; sb] /\
     py_int sa = Some start_block /\ py_int sb = Some end_block /\
     cli.export_traces etl start_block end_block (export_batch_size cfg)
       (export_max_workers cfg) (web3_provider_uri_archival cfg)
       (export_genesis_traces_option cfg) (export_daofork_traces_option cfg) =
       Some traces /\
     store run.2 = <[object_key cfg Traces d := traces]> (store w) /\
     calls_made py_int etl cfg export_traces_command d tempdir w =
       [EvCall "get_block_range_for_date"; EvCall "export_traces";
        upload_of cfg Traces d tempdir]) /\
  (forall block_range sa sb start_block end_block traces,
     answers 1 (reachable w) = true ->
     cli.get_block_range_for_date etl (web3_provider_uri cfg) d = Some block_range ->
     PyStr.split "," block_range = [sa; sb] ->
     py_int sa = Some start_block -> py_int sb = Some end_block ->
     cli.export_traces etl start_block end_block (export_batch_size cfg)
       (export_max_workers cfg) (web3_provider_uri_archival cfg)
       (export_genesis_traces_option cfg) (export_daofork_traces_option cfg) =
       Some traces ->
     run.1 = Ok tt).
Proof.
  open_run. split.
  - repeat (run_step publish_step); intros H; try discriminate H.
    do 6 eexists. repeat split; first [eassumption | reflexivity].
  - intros block_range sa sb start_block end_block traces
      Hup Hrange Hsplit Hstart Hend Htraces.
    consume_answers. rewrite Hrange, Hsplit, Hstart, Hend, Htraces.
    publish_step. repeat (run_step publish_step). reflexivity.
Qed.

End CommandFacts.

(** X15.  A command reads the bucket and, of the other settings, only
    those it passes on: two runs under settings that agree on them are
    the same run, with the same result and the same world after it.  No
    command reads a toggle; only [export_traces_command] reads the
    archival endpoint and the two traces options;
    [extract_token_transfers_command] reads no endpoint and
    [export_tokens_command] no batch size. *)
Theorem command_reads_only (py_int : string -> option Z) (etl : cli.t)
    (cfg cfg' : Config) c d tempdir w :
  settings_read c cfg = settings_read c cfg' ->
  run_command py_int etl cfg c d tempdir w = run_command py_int etl cfg' c d tempdir w.
Proof.
  destruct cfg, cfg'. destruct c; cbn; intros H; injection H as; subst; reflexivity.
Qed.

(** The receipts step is the same with the blocks step on or off. *)
Lemma command_reads_only_witness :
  run_command Demo.int Demo.etl Demo.all_enabled export_receipts_and_logs_command
    Demo.day "/tmp/tmp0" Demo.with_transactions =
  run_command Demo.int Demo.etl Demo.without_blocks export_receipts_and_logs_command
    Demo.day "/tmp/tmp0" Demo.with_transactions.
Proof.
  apply (command_reads_only Demo.int Demo.etl Demo.all_enabled Demo.without_blocks).
  reflexivity.
Defined.

(** ** What a run does to the store *)

Lemma app_same_length (a b x y : string) :
  String.length a = String.length b -> a +:+ x = b +:+ y -> a = b /\ x = y.
Proof.
  revert b. induction a as [|c a IH]; intros [|c' b] Hlen H; try discriminate Hlen.
  - rewrite !app_empty_l in H. auto.
  - rewrite !app_cons in H. injection H as -> H. injection Hlen as Hlen.
    destruct (IH b Hlen H) as [-> ->]. auto.
Qed.

Lemma iso_date_length d : String.length (iso_date d) = 10%nat.
Proof. reflexivity. Qed.

(** Objects of one kind for two dates never share a name. *)
Lemma object_name_date k d1 d2 :
  valid_date d1 = true -> valid_date d2 = true ->
  object_name k d1 = object_name k d2 -> d1 = d2.
Proof.
  intros H1 H2 H. unfold object_name, export_path in H.
  rewrite !strftime_iso in H by assumption. rewrite !app_assoc_str in H.
  apply (inj (String.append "export/")) in H.
  apply (inj (String.append (kind_directory k))) in H.
  apply (inj (String.append "/block_date=")) in H.
  apply app_same_length in H as [H _]; [|now rewrite !iso_date_length].
  apply iso_date_inj; [assumption..|]. now rewrite H.
Qed.


Lemma fst_combine_same {A B} (l : list A) (l' : list B) :
  length l' = length l -> map fst (combine l l') = l.
Proof.
  revert l'. induction l as [|a l IH]; intros [|b l'] Hlen; try discriminate Hlen;
    [reflexivity|]. cbn. f_equal. apply IH. now injection Hlen.
Qed.

Lemma result_ok_or_not (r : result unit) : r = Ok tt \/ r <> Ok tt.
Proof. destruct r as [[]|e]; [now left | now right]. Qed.

Section StoreFacts.

Variable py_int : string -> option Z.
Variable etl : cli.t.
Variable cfg : Config.

Lemma run_reachable c d tempdir w :
  reachable (run_command py_int etl cfg c d tempdir w).2 =
  out_reachable (step_executor py_int etl cfg c d tempdir (store w) (reachable w)).
Proof.
  pose proof (run_refines py_int etl cfg c d tempdir w) as H.
  apply (f_equal out_reachable) in H.
  destruct (run_command py_int etl cfg c d tempdir w) as [r w'].
  destruct (step_executor py_int etl cfg c d tempdir (store w) (reachable w)).
  exact H.
Qed.

Lemma object_key_date k1 k2 d1 d2 :
  valid_date d1 = true -> valid_date d2 = true ->
  object_key cfg k1 d1 = object_key cfg k2 d2 -> k1 = k2 /\ d1 = d2.
Proof.
  intros H1 H2 H. unfold object_key in H. apply (f_equal snd) in H. cbn [snd] in H.
  pose proof (object_name_kind _ _ _ _ H) as ->.
  split; [reflexivity|]. now apply (object_name_date k2).
Qed.

Lemma writes_spec c d key :
  key ∈ writes cfg c d <-> exists k, k ∈ published_kinds c /\ key = object_key cfg k d.
Proof.
  unfold writes. rewrite list_elem_of_In, in_map_iff. split.
  - intros (k & <- & Hk). exists k. now rewrite list_elem_of_In.
  - intros (k & Hk & ->). exists k. now rewrite <- list_elem_of_In.
Qed.

(** Two steps write no object in common. *)
Lemma writes_disjoint c1 c2 d key :
  c1 <> c2 -> key ∈ writes cfg c1 d -> key ∉ writes cfg c2 d.
Proof.
  intros Hne H1 H2. apply writes_spec in H1 as (k1 & Hk1 & ->).
  apply writes_spec in H2 as (k2 & Hk2 & Heq).
  apply object_key_inj in Heq. subst k2.
  apply producer_of_published in Hk1, Hk2. congruence.
Qed.

Lemma publish_all_keeps d tmp outputs s net key :
  is_Some (s !! key) -> is_Some (out_store (publish_all cfg d tmp outputs s net) !! key).
Proof.
  revert s net. induction outputs as [|[k v] rest IH]; intros s net Hkey; [exact Hkey|].
  cbn [publish_all]. destruct (pop net) as [[|] net']; cbn [out_store]; [|exact Hkey].
  apply IH. destruct (decide (object_key cfg k d = key)) as [<-|Hne].
  - rewrite lookup_insert_eq. eauto.
  - now rewrite lookup_insert_ne.
Qed.

(** A step changes no object but those of its kinds for its date. *)
Lemma executor_frame c d tmp s net key :
  (forall k, k ∈ published_kinds c -> object_key cfg k d <> key) ->
  out_store (step_executor py_int etl cfg c d tmp s net) !! key = s !! key.
Proof.
  intros Hkey. unfold step_executor.
  destruct (fetch_input cfg c d s net) as [[input|e] net']; [|reflexivity].
  destruct (transform py_int etl cfg c d input) as [units [contents|e]]; [|reflexivity].
  cbn [out_store]. apply publish_all_frame_key.
  intros k Hk. apply Hkey. eapply fst_combine_subset, Hk.
Qed.

Lemma executor_frame_writes c d tmp s net key :
  key ∉ writes cfg c d ->
  out_store (step_executor py_int etl cfg c d tmp s net) !! key = s !! key.
Proof.
  intros Hkey. apply executor_frame. intros k Hk Heq. apply Hkey, writes_spec. eauto.
Qed.

Lemma executor_keeps c d tmp s net key :
  is_Some (s !! key) ->
  is_Some (out_store (step_executor py_int etl cfg c d tmp s net) !! key).
Proof.
  intros Hkey. unfold step_executor.
  destruct (fetch_input cfg c d s net) as [[input|e] net']; [|exact Hkey].
  destruct (transform py_int etl cfg c d input) as [units [contents|e]]; [|exact Hkey].
  cbn [out_store]. now apply publish_all_keeps.
Qed.

(** X16.  A run of a command for a date changes no object of the store
    but those of the kinds it publishes for that date, and deletes none:
    the objects of other dates, of other kinds and of other buckets are
    as they were, and an object that was there is still there. *)
Theorem run_touches_only_its_objects c d tempdir w :
  let run := run_command py_int etl cfg c d tempdir w in
  (forall key, (forall k, k ∈ published_kinds c -> key <> object_key cfg k d) ->
     store run.2 !! key = store w !! key) /\
  (forall key, is_Some (store w !! key) -> is_Some (store run.2 !! key)) /\
  (forall k d', valid_date d = true -> valid_date d' = true -> d' <> d ->
     store run.2 !! object_key cfg k d' = store w !! object_key cfg k d') /\
  (forall bucket name, bucket <> output_bucket cfg ->
     store run.2 !! (bucket, name) = store w !! (bucket, name)).
Proof.
  cbv zeta. rewrite run_store. split; [|split; [|split]].
  - intros key Hkey. apply executor_frame. intros k Hk Heq. now apply (Hkey k).
  - intros key. apply executor_keeps.
  - intros k d' Hd Hd' Hne. apply executor_frame. intros k' _ Heq.
    apply Hne. now destruct (object_key_date _ _ _ _ Hd Hd' Heq).
  - intros bucket name Hne. apply executor_frame. intros k _ Heq.
    unfold object_key in Heq. congruence.
Qed.

(** *** An upload that fails *)



(** *** Retries *)

Lemma publish_all_answered d tmp1 tmp2 outputs s net :
  answers (length outputs) net = true ->
  out_result (publish_all cfg d tmp1 outputs s net) = Ok tt /\
  out_store (publish_all cfg d tmp1 outputs s net) =
  out_store (publish_all cfg d tmp2 outputs s []).
Proof.
  revert s net. induction outputs as [|[k v] rest IH]; intros s net Hup; [easy|].
  cbn [length] in Hup. apply answers_pop in Hup as (net' & Hpop & Hup).
  cbn [publish_all]. rewrite Hpop. cbn [pop out_result out_store]. now apply IH.
Qed.

Lemma publish_all_pops d tmp outputs s net m :
  answers (length outputs + m) net = true ->
  answers m (out_reachable (publish_all cfg d tmp outputs s net)) = true.
Proof.
  revert s net. induction outputs as [|[k v] rest IH]; intros s net Hup; [exact Hup|].
  cbn [length Nat.add] in Hup. apply answers_pop in Hup as (net' & Hpop & Hup).
  cbn [publish_all]. rewrite Hpop. cbn [out_reachable]. now apply IH.
Qed.

(** A step makes four transfer calls at most. *)
Lemma executor_pops c d tmp s net m :
  answers (4 + m) net = true ->
  answers m (out_reachable (step_executor py_int etl cfg c d tmp s net)) = true.
Proof.
  intros Hup. unfold step_executor.
  assert (exists net' r, fetch_input cfg c d s net = (r, net') /\
                         answers (3 + m) net' = true) as (net' & r & -> & Hup').
  { unfold fetch_input. destruct (fetched_kind c) as [k|].
    - apply answers_pop in Hup as (net' & -> & Hup).
      destruct (s !! object_key cfg k d); eauto.
    - do 2 eexists. split; [reflexivity|]. eapply answers_le; [|exact Hup]. lia. }
  destruct r as [input|e]; cbn [out_reachable].
  2:{ eapply answers_le; [|exact Hup']. lia. }
  destruct (transform py_int etl cfg c d input) as [units [contents|e]] eqn:Ht;
    cbn [out_reachable].
  2:{ eapply answers_le; [|exact Hup']. lia. }
  apply publish_all_pops. eapply answers_le; [|exact Hup'].
  rewrite length_combine.
  assert (length (published_kinds c) <= 3)%nat by (destruct c; cbn; lia). lia.
Qed.

(** With the store answering, a step ends as it does on a store that
    never fails. *)
Lemma executor_answered c d tmp1 tmp2 s net :
  answers 4 net = true ->
  out_result (step_executor py_int etl cfg c d tmp1 s net) =
  out_result (step_executor py_int etl cfg c d tmp2 s []) /\
  out_store (step_executor py_int etl cfg c d tmp1 s net) =
  out_store (step_executor py_int etl cfg c d tmp2 s []).
Proof.
  intros Hup. unfold step_executor, fetch_input.
  assert (forall net' input,
            answers 3 net' = true ->
            let o1 := match transform py_int etl cfg c d input with
                      | (units, Err e) =>
                          mkOutcome (Err e) s net'
                            (fetch_events cfg c d tmp1 ++ map EvCall units)
                      | (units, Ok contents) =>
                          let o := publish_all cfg d tmp1
                                     (combine (published_kinds c) contents) s net' in
                          mkOutcome (out_result o) (out_store o) (out_reachable o)
                            (fetch_events cfg c d tmp1 ++ map EvCall units ++ out_events o)
                      end in
            let o2 := match transform py_int etl cfg c d input with
                      | (units, Err e) =>
                          mkOutcome (Err e) s []
                            (fetch_events cfg c d tmp2 ++ map EvCall units)
                      | (units, Ok contents) =>
                          let o := publish_all cfg d tmp2
                                     (combine (published_kinds c) contents) s [] in
                          mkOutcome (out_result o) (out_store o) (out_reachable o)
                            (fetch_events cfg c d tmp2 ++ map EvCall units ++ out_events o)
                      end in
            out_result o1 = out_result o2 /\ out_store o1 = out_store o2) as Hrest.
  { intros net' input Hup'. cbv zeta.
    destruct (transform py_int etl cfg c d input) as [units [contents|e]] eqn:Ht;
      cbn [out_result out_store]; [|easy].
    pose proof (transform_length py_int etl cfg c d input units contents Ht) as Hlen.
    assert (length (combine (published_kinds c) contents) <= 3)%nat as Hle
      by (rewrite length_combine; etransitivity; [apply Nat.le_min_l|];
          destruct c; cbn; lia).
    pose proof (answers_le _ _ _ Hle Hup') as Hup''.
    destruct (publish_all_answered d tmp1 tmp2 _ s net' Hup'') as [Hr1 Hs1].
    destruct (publish_all_answered d tmp2 tmp2 (combine (published_kinds c) contents) s [])
      as [Hr2 _].
    { unfold answers. now rewrite take_nil. }
    rewrite Hr1, Hr2, Hs1. easy. }
  destruct (fetched_kind c) as [k|].
  - apply answers_pop in Hup as (net' & -> & Hup). cbn [pop].
    destruct (s !! object_key cfg k d) as [content|]; [|easy].
    now apply Hrest.
  - apply Hrest. eapply answers_le; [|exact Hup]. lia.
Qed.

(** A step run on the store an earlier attempt left does, when the store
    answers, what it does on the store the attempt started from. *)
Lemma executor_retry c d tmp1 tmp2 s net :
  let o1 := step_executor py_int etl cfg c d tmp1 s net in
  out_result (step_executor py_int etl cfg c d tmp2 (out_store o1) []) =
  out_result (step_executor py_int etl cfg c d tmp2 s []) /\
  out_store (step_executor py_int etl cfg c d tmp2 (out_store o1) []) =
  out_store (step_executor py_int etl cfg c d tmp2 s []).
Proof.
  cbv zeta. unfold step_executor at 2 5.
  destruct (fetch_input cfg c d s net) as [[input|e] net'] eqn:Hf;
    [|cbn [out_store]; easy].
  destruct (transform py_int etl cfg c d input) as [units [contents|e]] eqn:Ht;
    [|cbn [out_store]; easy].
  cbn [out_store].
  set (outputs := combine (published_kinds c) contents).
  set (s1 := out_store (publish_all cfg d tmp1 outputs s net')).
  assert (fetch_input cfg c d s1 [] = fetch_input cfg c d s []) as Hf1.
  { apply fetch_input_frame. intros k Hk. apply publish_all_keeps_input, Hk. }
  assert (fetch_input cfg c d s [] = (Ok input, [])) as Hf0.
  { apply fetch_input_content in Hf. unfold fetch_input.
    destruct (fetched_kind c) as [k|]; [|now subst input].
    cbn [pop]. now rewrite Hf. }
  unfold step_executor. rewrite Hf1, Hf0, Ht. cbn [out_result out_store]. fold outputs.
  split; [apply publish_all_store_irrelevant|].
  assert (NoDup (map fst outputs)) as Hnd
    by apply fst_combine_NoDup, published_kinds_NoDup.
  destruct (publish_all_answered d tmp2 tmp2 outputs s1 []) as [Hr1 _];
    [unfold answers; now rewrite take_nil|].
  destruct (publish_all_answered d tmp2 tmp2 outputs s []) as [Hr0 _];
    [unfold answers; now rewrite take_nil|].
  apply map_eq. intros key.
  destruct (decide (key ∈ map (fun p => object_key cfg p.1 d) outputs)) as [Hkey|Hnone].
  - apply list_elem_of_In, in_map_iff in Hkey as ([k v] & <- & Hpair).
    apply list_elem_of_In in Hpair. cbn [fst].
    rewrite (publish_all_uploaded cfg d tmp2 outputs s1 [] Hnd Hr1 k v Hpair).
    now rewrite (publish_all_uploaded cfg d tmp2 outputs s [] Hnd Hr0 k v Hpair).
  - assert (forall k, k ∈ map fst outputs -> object_key cfg k d <> key) as Hother.
    { intros k Hk Heq. apply Hnone. subst key.
      apply list_elem_of_In, in_map_iff in Hk as (p0 & <- & Hp0).
      apply list_elem_of_In, in_map_iff. eauto. }
    rewrite !publish_all_frame_key by exact Hother.
    unfold s1. now rewrite publish_all_frame_key by exact Hother.
Qed.

(** X19.  A retry heals an attempt.  Whatever an attempt of a command
    did, and however it ended, the command run again for the same date on
    the store the attempt left, with the store answering, ends with the
    result and leaves the store that a first run on the original store
    gives when the store answers: what an upload failure left half
    published is completed, and nothing else differs. *)
Theorem retry_ends_as_a_first_run c d tempdir1 tempdir2 tempdir3 w w2 w3 :
  let attempt := run_command py_int etl cfg c d tempdir1 w in
  let retry := run_command py_int etl cfg c d tempdir2 w2 in
  let first := run_command py_int etl cfg c d tempdir3 w3 in
  store w2 = store attempt.2 -> answers 4 (reachable w2) = true ->
  store w3 = store w -> answers 4 (reachable w3) = true ->
  retry.1 = first.1 /\ store retry.2 = store first.2.
Proof.
  cbv zeta. rewrite !run_result, !run_store. intros Hs2 Hup2 Hs3 Hup3.
  destruct (executor_answered c d tempdir2 tempdir2 (store w2) _ Hup2) as [-> ->].
  destruct (executor_answered c d tempdir3 tempdir2 (store w3) _ Hup3) as [-> ->].
  rewrite Hs2, Hs3. apply executor_retry.
Qed.

(** *** One step after another *)

(** X20.  A consumer run after its producer succeeded for the same date
    finds its input: the kind it fetches is one the producer publishes,
    the object is in the store the producer left, and with the store
    answering its fetch no error of the consumer is the error of a
    download.  Partitions do not mix: run for another date, for which the
    bucket held no such object, the consumer fails with not-found. *)
Theorem producer_feeds_consumer p c d tempdir1 tempdir2 w w2 :
  (p, c) ∈ canonical_edges ->
  let produced := run_command py_int etl cfg p d tempdir1 w in
  produced.1 = Ok tt ->
  store w2 = store produced.2 ->
  exists k content,
    fetched_kind c = Some k /\ k ∈ published_kinds p /\
    store w2 !! object_key cfg k d = Some content /\
    (head (reachable w2) <> Some false ->
     forall e, (run_command py_int etl cfg c d tempdir2 w2).1 = Err e ->
               is_download_error e = false) /\
    (forall d', valid_date d = true -> valid_date d' = true -> d' <> d ->
       store w !! object_key cfg k d' = None ->
       head (reachable w2) <> Some false ->
       (run_command py_int etl cfg c d' tempdir2 w2).1 =
         Err (TransferError Download ObjectNotFound)).
Proof.
  intros Hedge. cbv zeta. rewrite run_result, run_store. intros Hok Hstore.
  assert (exists k, fetched_kind c = Some k /\ k ∈ published_kinds p) as (k & Hk & Hp).
  { apply list_elem_of_In in Hedge. cbn in Hedge.
    repeat (destruct Hedge as [Hedge|Hedge];
            [injection Hedge as <- <-; eexists; (split; [reflexivity|]);
             apply (bool_decide_unpack _); reflexivity|]).
    destruct Hedge. }
  destruct (executor_published py_int etl cfg p d tempdir1 _ _ k Hok Hp) as [content Hc].
  exists k, content. split; [exact Hk|]. split; [exact Hp|].
  rewrite Hstore. split; [exact Hc|]. split.
  - intros Hup e. rewrite run_result.
    apply executor_fetch_present with (k := k); [exact Hk| |exact Hup].
    rewrite Hstore. eauto.
  - intros d' Hd Hd' Hne Hnone Hup. rewrite run_result.
    rewrite (executor_fetch_absent py_int etl cfg c k d' tempdir2 _ _ Hk).
    + cbn [out_result]. destruct (reachable w2) as [|[|] net]; cbn in *; congruence.
    + rewrite Hstore, executor_frame; [exact Hnone|].
      intros k' _ Heq. apply Hne. now destruct (object_key_date _ _ _ _ Hd Hd' Heq).
Qed.

(** What a step writes depends on the store only through what it reads,
    and it writes nothing when it fails. *)
Lemma executor_reads c d tmp s s' :
  (forall key, key ∈ reads cfg c d -> s' !! key = s !! key) ->
  let o := step_executor py_int etl cfg c d tmp s [] in
  let o' := step_executor py_int etl cfg c d tmp s' [] in
  out_result o' = out_result o /\
  (out_result o <> Ok tt -> out_store o = s /\ out_store o' = s') /\
  (out_result o = Ok tt -> forall key,
     key ∈ writes cfg c d -> out_store o' !! key = out_store o !! key).
Proof.
  intros Hreads. cbv zeta. unfold step_executor.
  rewrite (fetch_input_frame cfg c d s s').
  2:{ intros k Hk. apply Hreads. unfold reads. rewrite Hk. left. }
  destruct (fetch_input cfg c d s []) as [[input|e] net'] eqn:Hf;
    cbn [out_result out_store]; [|split; [reflexivity | split; [auto | discriminate]]].
  destruct (transform py_int etl cfg c d input) as [units [contents|e]] eqn:Ht;
    cbn [out_result out_store]; [|split; [reflexivity | split; [auto | discriminate]]].
  pose proof (transform_length py_int etl cfg c d input units contents Ht) as Hlen.
  set (outputs := combine (published_kinds c) contents).
  assert (NoDup (map fst outputs)) as Hnd
    by apply fst_combine_NoDup, published_kinds_NoDup.
  split; [apply publish_all_store_irrelevant|]. split.
  - intros Hne. destruct (publish_all_result cfg d tmp outputs s net') as [Hr|Hr];
      [congruence|].
    exfalso. clear -Hr Hf.
    assert (net' = []) as ->.
    { unfold fetch_input in Hf. destruct (fetched_kind c); cbn [pop] in Hf.
      - destruct (s !! _); now injection Hf.
      - now injection Hf. }
    destruct (publish_all_answered d tmp tmp outputs s []) as [Hok _].
    { unfold answers. now rewrite take_nil. }
    congruence.
  - intros Hok key Hkey. apply writes_spec in Hkey as (k & Hk & ->).
    destruct (combine_lookup (published_kinds c) contents k Hlen Hk) as [v Hv].
    fold outputs in Hv.
    assert (out_result (publish_all cfg d tmp outputs s' net') = Ok tt) as Hok'
      by (rewrite <- Hok; apply publish_all_store_irrelevant).
    rewrite (publish_all_uploaded cfg d tmp outputs s' net' Hnd Hok' k v Hv).
    now rewrite (publish_all_uploaded cfg d tmp outputs s net' Hnd Hok k v Hv).
Qed.

Lemma executors_commute c1 d1 c2 d2 tmp1 tmp2 s :
  (forall key, key ∈ reads cfg c1 d1 -> key ∉ writes cfg c2 d2) ->
  (forall key, key ∈ reads cfg c2 d2 -> key ∉ writes cfg c1 d1) ->
  (forall key, key ∈ writes cfg c1 d1 -> key ∉ writes cfg c2 d2) ->
  let s1 := out_store (step_executor py_int etl cfg c1 d1 tmp1 s []) in
  let s2 := out_store (step_executor py_int etl cfg c2 d2 tmp2 s []) in
  out_result (step_executor py_int etl cfg c1 d1 tmp1 s2 []) =
    out_result (step_executor py_int etl cfg c1 d1 tmp1 s []) /\
  out_result (step_executor py_int etl cfg c2 d2 tmp2 s1 []) =
    out_result (step_executor py_int etl cfg c2 d2 tmp2 s []) /\
  out_store (step_executor py_int etl cfg c1 d1 tmp1 s2 []) =
    out_store (step_executor py_int etl cfg c2 d2 tmp2 s1 []).
Proof.
  intros Hr1 Hr2 Hw. cbv zeta.
  set (s1 := out_store (step_executor py_int etl cfg c1 d1 tmp1 s [])).
  set (s2 := out_store (step_executor py_int etl cfg c2 d2 tmp2 s [])).
  destruct (executor_reads c1 d1 tmp1 s s2) as (Hres1 & Hfail1 & Hok1).
  { intros key Hkey. apply executor_frame_writes. now apply Hr1. }
  destruct (executor_reads c2 d2 tmp2 s s1) as (Hres2 & Hfail2 & Hok2).
  { intros key Hkey. apply executor_frame_writes. now apply Hr2. }
  split; [exact Hres1|]. split; [exact Hres2|].
  fold s1 in Hfail1, Hok1. fold s2 in Hfail2, Hok2.
  destruct (result_ok_or_not (out_result (step_executor py_int etl cfg c1 d1 tmp1 s [])))
    as [Hc1|Hc1];
  destruct (result_ok_or_not (out_result (step_executor py_int etl cfg c2 d2 tmp2 s [])))
    as [Hc2|Hc2].
  - apply map_eq. intros key.
    destruct (decide (key ∈ writes cfg c1 d1)) as [Hk1|Hk1].
    + rewrite (Hok1 Hc1 key Hk1).
      rewrite (executor_frame_writes c2 d2 tmp2 s1 [] key) by now apply Hw.
      reflexivity.
    + rewrite (executor_frame_writes c1 d1 tmp1 s2 [] key) by exact Hk1.
      destruct (decide (key ∈ writes cfg c2 d2)) as [Hk2|Hk2].
      * now rewrite (Hok2 Hc2 key Hk2).
      * rewrite (executor_frame_writes c2 d2 tmp2 s1 [] key) by exact Hk2.
        unfold s1, s2. now rewrite !executor_frame_writes.
  - destruct (Hfail2 Hc2) as [Hs2 ->]. fold s2 in Hs2. rewrite Hs2. reflexivity.
  - destruct (Hfail1 Hc1) as [Hs1 ->]. fold s1 in Hs1. rewrite Hs1. reflexivity.
  - destruct (Hfail1 Hc1) as [Hs1 ->]. destruct (Hfail2 Hc2) as [Hs2 ->].
    fold s1 in Hs1. fold s2 in Hs2. congruence.
Qed.

(** X21.  Two runs of which neither reads what the other writes, and
    which write no object in common, can be made in either order: with
    the store answering, each ends as it does alone and the store at the
    end is the same.  So it is for two steps the graph leaves unordered,
    and for any two steps run for different dates. *)
Theorem independent_runs_commute c1 d1 c2 d2 tempdir1 tempdir2 w :
  (forall key, key ∈ reads cfg c1 d1 -> key ∉ writes cfg c2 d2) ->
  (forall key, key ∈ reads cfg c2 d2 -> key ∉ writes cfg c1 d1) ->
  (forall key, key ∈ writes cfg c1 d1 -> key ∉ writes cfg c2 d2) ->
  answers 8 (reachable w) = true ->
  let one := run_command py_int etl cfg c1 d1 tempdir1 w in
  let one_two := run_command py_int etl cfg c2 d2 tempdir2 one.2 in
  let two := run_command py_int etl cfg c2 d2 tempdir2 w in
  let two_one := run_command py_int etl cfg c1 d1 tempdir1 two.2 in
  two_one.1 = one.1 /\ one_two.1 = two.1 /\ store one_two.2 = store two_one.2.
Proof.
  intros Hr1 Hr2 Hw Hup. cbv zeta.
  rewrite !run_result, !run_store, !run_reachable.
  pose proof (executor_pops c1 d1 tempdir1 (store w) _ 4 Hup) as Hup1.
  pose proof (executor_pops c2 d2 tempdir2 (store w) _ 4 Hup) as Hup2.
  assert (answers 4 (reachable w) = true) as Hup0
    by (eapply answers_le; [|exact Hup]; lia).
  destruct (executor_answered c1 d1 tempdir1 tempdir1 (store w) _ Hup0) as [-> ->].
  destruct (executor_answered c2 d2 tempdir2 tempdir2 (store w) _ Hup0) as [-> ->].
  destruct (executor_answered c2 d2 tempdir2 tempdir2
              (out_store (step_executor py_int etl cfg c1 d1 tempdir1 (store w) []))
              _ Hup1) as [-> ->].
  destruct (executor_answered c1 d1 tempdir1 tempdir1
              (out_store (step_executor py_int etl cfg c2 d2 tempdir2 (store w) []))
              _ Hup2) as [-> ->].
  destruct (executors_commute c1 d1 c2 d2 tempdir1 tempdir2 (store w) Hr1 Hr2 Hw)
    as (H1 & H2 & H3).
  split; [exact H1|]. split; [exact H2 | now symmetry].
Qed.

End StoreFacts.

(** ** Local files *)

Create HintDb confined.

Lemma confined_ret {A} tempdir (a : A) : confined tempdir (ret a).
Proof. intros w. split; reflexivity. Qed.

Lemma confined_raise {A} tempdir e : confined tempdir (raise (A := A) e).
Proof. intros w. split; reflexivity. Qed.

Lemma confined_bind {A B} tempdir (m : M World A) (k : A -> M World B) :
  confined tempdir m -> (forall a, confined tempdir (k a)) -> confined tempdir (bind m k).
Proof.
  intros Hm Hk w. unfold bind. specialize (Hm w).
  destruct (m w) as [[a|e] w1]; cbn [snd] in *; [|exact Hm].
  destruct Hm as [Hd Hf]. destruct (Hk a w1) as [Hd1 Hf1]. split.
  - now rewrite Hd1.
  - intros path Hpath. now rewrite Hf1, Hf.
Qed.

Lemma confined_emit tempdir ev : confined tempdir (emit ev).
Proof. intros w. split; reflexivity. Qed.

Lemma confined_read_file tempdir path : confined tempdir (read_file path).
Proof. intros w. unfold read_file. destruct (files w !! path); split; reflexivity. Qed.

(** A file written in the temporary directory is no file outside it. *)
Lemma confined_write_file tempdir name content :
  confined tempdir (write_file (OsPath.join tempdir name) content).
Proof.
  intros w. split; [reflexivity|]. intros path Hpath.
  cbn. apply lookup_insert_ne. intros <-. now rewrite is_under_join in Hpath.
Qed.

Lemma confined_next_reachable tempdir : confined tempdir next_reachable.
Proof. intros w. unfold next_reachable. destruct (reachable w); split; reflexivity. Qed.

#[local] Hint Resolve confined_ret confined_raise confined_emit confined_read_file
  confined_write_file confined_next_reachable : confined.

Ltac confine :=
  repeat first
    [ solve [auto with confined]
    | apply confined_bind; [|intros ?]
    | match goal with
      | |- confined _ (match ?x with _ => _ end) => destruct x
      | |- confined _ (if ?x then _ else _) => destruct x
      end ].

Lemma confined_upload tempdir bucket object filename :
  confined tempdir (cloud_storage_hook.upload bucket object filename).
Proof.
  unfold cloud_storage_hook.upload. apply confined_bind; [confine|]. intros _ w.
  destruct (files w !! filename) as [content|]; [|split; reflexivity].
  assert (confined tempdir
            (let* up := next_reachable in
             if up : bool then modify (set_store (insert (bucket, object) content))
             else raise (TransferError Upload Unreachable))) as H.
  { apply confined_bind; [confine|]. intros [|]; [|confine]. intros w'. split; reflexivity. }
  apply H.
Qed.

Lemma confined_download tempdir bucket object name :
  confined tempdir (cloud_storage_hook.download bucket object (OsPath.join tempdir name)).
Proof.
  unfold cloud_storage_hook.download. confine. intros w.
  destruct (store w !! (bucket, object)) as [content|]; [|split; reflexivity].
  apply confined_write_file.
Qed.

Lemma confined_callback tempdir unit_of_work outcome name :
  confined tempdir (callback unit_of_work outcome (OsPath.join tempdir name)).
Proof. unfold callback. confine. Qed.

Lemma confined_callback2 tempdir unit_of_work outcome name1 name2 :
  confined tempdir
    (callback2 unit_of_work outcome (OsPath.join tempdir name1) (OsPath.join tempdir name2)).
Proof. unfold callback2. confine. Qed.

Lemma confined_callback_input tempdir unit_of_work input :
  confined tempdir (callback_input unit_of_work input).
Proof.
  intros w. unfold callback_input. destruct (files w !! input); split; reflexivity.
Qed.

#[local] Hint Resolve confined_upload confined_download confined_callback
  confined_callback2 confined_callback_input : confined.

Section LocalFiles.

Variable py_int : string -> option Z.
Variable etl : cli.t.
Variable cfg : Config.

Lemma confined_copy_to tempdir file_path prefix :
  confined tempdir (copy_to_export_path cfg file_path prefix).
Proof. unfold copy_to_export_path. confine. Qed.

Lemma confined_copy_from tempdir prefix name :
  confined tempdir (copy_from_export_path cfg prefix (OsPath.join tempdir name)).
Proof. unfold copy_from_export_path. confine. Qed.

Lemma confined_int_of tempdir s : confined tempdir (int_of py_int s).
Proof. unfold int_of. confine. Qed.

#[local] Hint Resolve confined_copy_to confined_copy_from confined_int_of : confined.

Lemma confined_get_block_range tempdir d :
  confined tempdir (get_block_range py_int etl cfg tempdir d).
Proof. unfold get_block_range. confine. Qed.

#[local] Hint Resolve confined_get_block_range : confined.

Lemma confined_command_body c d tempdir :
  confined tempdir (command_body py_int etl cfg c d tempdir).
Proof.
  destruct c; cbn [command_body];
    unfold export_blocks_and_transactions_body, export_receipts_and_logs_body,
      export_contracts_body, export_tokens_body, extract_token_transfers_body,
      export_traces_body; confine.
Qed.

(** X17.  A run of a command, however it ends, leaves every local file
    outside its temporary directory as it was, creates no directory that
    lasts, and removes none but its temporary directory. *)
Theorem run_leaves_local_files c d tempdir w :
  let run := run_command py_int etl cfg c d tempdir w in
  dirs run.2 = dirs w ∖ {[tempdir]} /\
  (forall path, is_under tempdir path = false -> files run.2 !! path = files w !! path).
Proof.
  cbv zeta. unfold run_command, with_TemporaryDirectory, bind, modify, finally.
  pose proof (confined_command_body c d tempdir
                (set_dirs (fun ds => ds ∪ {[tempdir]}) w)) as [Hd Hf].
  destruct (command_body py_int etl cfg c d tempdir _) as [r w1]. cbn [snd] in *.
  split.
  - unfold rmtree. cbn [dirs set_dirs set_files] in *. rewrite Hd.
    apply set_eq. intros x. rewrite !elem_of_difference, elem_of_union. tauto.
  - intros path Hpath. rewrite rmtree_frame by exact Hpath. now apply Hf.
Qed.

End LocalFiles.

(** ** The six steps of a day *)

Section PipelineFacts.

Variable py_int : string -> option Z.
Variable etl : cli.t.
Variable cfg : Config.

Hypothesis Hunits : never_fails py_int etl.

Lemma transform_total c d input :
  exists units contents, transform py_int etl cfg c d input = (units, Ok contents).
Proof.
  destruct Hunits as (Hrange & Hcolumn & Hfilter & Hfield & Hblocks & Hreceipts &
                      Hcontracts & Htokens & Htransfers & Htraces).
  destruct c; unfold transform, block_range, tbind, tret, tfail, unit_of_work.
  - destruct (Hrange (web3_provider_uri cfg) d)
      as (text & sa & sb & a & b & -> & -> & -> & ->).
    destruct (Hblocks a b (export_batch_size cfg) (web3_provider_uri cfg)
                (export_max_workers cfg)) as [[x y] ->]. eauto.
  - destruct (Hcolumn input "hash") as [hashes ->].
    destruct (Hreceipts (export_batch_size cfg) hashes (web3_provider_uri cfg)
                (export_max_workers cfg)) as [[x y] ->]. eauto.
  - destruct (Hcolumn input "contract_address") as [addresses ->].
    destruct (Hcontracts (export_batch_size cfg) addresses (export_max_workers cfg)
                (web3_provider_uri cfg)) as [x ->]. eauto.
  - destruct (Hfilter input "item['is_erc20'] or item['is_erc721']") as [tc ->].
    destruct (Hfield tc "address") as [addresses ->].
    destruct (Htokens addresses (export_max_workers cfg) (web3_provider_uri cfg))
      as [x ->]. eauto.
  - destruct (Htransfers input (export_batch_size cfg) (export_max_workers cfg))
      as [x ->]. eauto.
  - destruct (Hrange (web3_provider_uri cfg) d)
      as (text & sa & sb & a & b & -> & -> & -> & ->).
    destruct (Htraces a b (export_batch_size cfg) (export_max_workers cfg)
                (web3_provider_uri_archival cfg) (export_genesis_traces_option cfg)
                (export_daofork_traces_option cfg)) as [x ->]. eauto.
Qed.

Lemma publish_all_consumes d tmp outputs s net m :
  answers (length outputs + m) net = true ->
  let o := publish_all cfg d tmp outputs s net in
  out_result o = Ok tt /\ answers m (out_reachable o) = true /\
  forall key, is_Some (out_store o !! key) <->
              is_Some (s !! key) \/ exists k, k ∈ map fst outputs /\ key = object_key cfg k d.
Proof.
  cbv zeta. revert s net. induction outputs as [|[k v] rest IH]; intros s net Hup.
  - cbn. split; [reflexivity|]. split; [exact Hup|]. intros key. split; [auto|].
    intros [H|(k & Hk & _)]; [exact H | now apply elem_of_nil in Hk].
  - cbn [length Nat.add] in Hup. apply answers_pop in Hup as (net' & Hpop & Hup).
    cbn [publish_all]. rewrite Hpop. cbn [out_result out_reachable out_store].
    destruct (IH (<[object_key cfg k d := v]> s) net' Hup) as (Hr & Hn & Hs).
    split; [exact Hr|]. split; [exact Hn|]. intros key. rewrite Hs. cbn [map fst].
    destruct (decide (object_key cfg k d = key)) as [<-|Hne].
    + rewrite lookup_insert_eq. split; intros _; [|eauto].
      right. exists k. split; [left | reflexivity].
    + rewrite lookup_insert_ne by exact Hne. split.
      * intros [H|(k' & Hk' & ->)]; [now left|].
        right. exists k'. split; [now right | reflexivity].
      * intros [H|(k' & Hk' & ->)]; [now left|]. right. exists k'. split; [|reflexivity].
        apply elem_of_cons in Hk' as [->|Hk']; [congruence | exact Hk'].
Qed.

(** With its input in the bucket and the store answering its transfers,
    a step succeeds and adds its objects to the store. *)
Lemma run_succeeds c d tempdir w m :
  (forall k, fetched_kind c = Some k -> is_Some (store w !! object_key cfg k d)) ->
  answers (transfers c + m) (reachable w) = true ->
  exists w', run_command py_int etl cfg c d tempdir w = (Ok tt, w') /\
    answers m (reachable w') = true /\
    forall key, is_Some (store w' !! key) <->
                is_Some (store w !! key) \/
                exists k, k ∈ published_kinds c /\ key = object_key cfg k d.
Proof.
  intros Hinput Hup.
  pose proof (run_result py_int etl cfg c d tempdir w) as Hr.
  pose proof (run_store py_int etl cfg c d tempdir w) as Hs.
  pose proof (run_reachable py_int etl cfg c d tempdir w) as Hn.
  destruct (run_command py_int etl cfg c d tempdir w) as [r w']. cbn [fst snd] in *.
  exists w'. rewrite Hs, Hn. subst r. clear Hs Hn.
  unfold step_executor, fetch_input. unfold transfers in Hup.
  assert (exists input net',
            match fetched_kind c with
            | Some k =>
                match pop (reachable w) with
                | (true, net') =>
                    match store w !! object_key cfg k d with
                    | Some content => (Ok content, net')
                    | None => (Err (TransferError Download ObjectNotFound), net')
                    end
                | (false, net') => (Err (TransferError Download Unreachable), net')
                end
            | None => (Ok EmptyString, reachable w)
            end = (Ok input, net') /\
            answers (length (published_kinds c) + m) net' = true)
    as (input & net' & -> & Hup').
  { destruct (fetched_kind c) as [k|].
    - destruct (Hinput k eq_refl) as [content ->].
      cbn [Nat.add] in Hup. apply answers_pop in Hup as (net' & -> & Hup). eauto.
    - eauto. }
  destruct (transform_total c d input) as (units & contents & Ht). rewrite Ht.
  pose proof (transform_length py_int etl cfg c d input units contents Ht) as Hlen.
  cbn [out_result out_store out_reachable].
  destruct (publish_all_consumes d tempdir (combine (published_kinds c) contents)
              (store w) net' m) as (Hr & Hn & Hs).
  { rewrite length_combine, Hlen, Nat.min_id. exact Hup'. }
  split; [now rewrite Hr|]. split; [exact Hn|].
  intros key. rewrite Hs, fst_combine_same by exact Hlen. reflexivity.
Qed.

(** X22.  The order in which the module adds the tasks is an order in
    which the steps can run.  On an empty bucket, with units of work that
    do not fail and a store that answers the thirteen transfers, the six
    commands run in that order for a date all succeed, each consumer
    finding what its producer published, and the bucket then holds the
    nine artifacts of the date and nothing else. *)
Theorem daily_run_completes d tempdir w :
  store w = ∅ -> answers 13 (reachable w) = true ->
  let run := daily_run py_int etl cfg d tempdir w in
  run.1 = Ok tt /\
  forall key, is_Some (store run.2 !! key) <-> exists k, key = object_key cfg k d.
Proof.
  intros Hempty Hup. cbv zeta. unfold daily_run, all_steps. cbn [for_each]. unfold bind.
  destruct (run_succeeds export_blocks_and_transactions_command d tempdir w 10)
    as (w1 & -> & Hup1 & Hs1); [intros k Hk; discriminate Hk | exact Hup |].
  destruct (run_succeeds export_receipts_and_logs_command d tempdir w1 7)
    as (w2 & -> & Hup2 & Hs2); [|exact Hup1|].
  { intros k [= <-]. apply Hs1. right. exists Transactions.
    split; [|reflexivity]. apply (bool_decide_unpack _). reflexivity. }
  destruct (run_succeeds export_contracts_command d tempdir w2 5)
    as (w3 & -> & Hup3 & Hs3); [|exact Hup2|].
  { intros k [= <-]. apply Hs2. right. exists Receipts.
    split; [|reflexivity]. apply (bool_decide_unpack _). reflexivity. }
  destruct (run_succeeds export_tokens_command d tempdir w3 3)
    as (w4 & -> & Hup4 & Hs4); [|exact Hup3|].
  { intros k [= <-]. apply Hs3. right. exists Contracts.
    split; [|reflexivity]. apply (bool_decide_unpack _). reflexivity. }
  destruct (run_succeeds extract_token_transfers_command d tempdir w4 1)
    as (w5 & -> & Hup5 & Hs5); [|exact Hup4|].
  { intros k [= <-]. apply Hs4. left. apply Hs3. left. apply Hs2. right. exists Logs.
    split; [|reflexivity]. apply (bool_decide_unpack _). reflexivity. }
  destruct (run_succeeds export_traces_command d tempdir w5 0)
    as (w6 & -> & Hup6 & Hs6); [intros k Hk; discriminate Hk | exact Hup5 |].
  cbn [ret fst snd]. split; [reflexivity|].
  intros key. rewrite Hs6, Hs5, Hs4, Hs3, Hs2, Hs1, Hempty, lookup_empty.
  cbn [published_kinds]. split.
  - intros H.
    repeat match type of H with
           | _ \/ _ => destruct H as [H|H]
           end;
      try (destruct H as (k & _ & ->); now exists k).
    destruct H as [x Hx]. discriminate Hx.
  - intros [k ->]. destruct k.
    all: repeat first
      [ right; eexists; split; [|reflexivity]; apply (bool_decide_unpack _); reflexivity
      | left ].
Qed.

End PipelineFacts.

(** ** The further properties on the concrete instance *)


(** The blocks step again after that attempt, on the world it left,
    where the store answers again: it ends as a first run on the empty
    bucket does. *)
Lemma retry_ends_as_a_first_run_witness :
  let attempt := run_command Demo.int Demo.etl Demo.all_enabled
                   export_blocks_and_transactions_command Demo.day "/tmp/tmp0"
                   Sample.flaky_world in
  let retry := run_command Demo.int Demo.etl Demo.all_enabled
                 export_blocks_and_transactions_command Demo.day "/tmp/tmp1"
                 attempt.2 in
  let first := run_command Demo.int Demo.etl Demo.all_enabled
                 export_blocks_and_transactions_command Demo.day "/tmp/tmp2"
                 Demo.empty_world in
  attempt.1 = Err (TransferError Upload Unreachable) /\
  retry.1 = first.1 /\ store retry.2 = store first.2.
Proof.
  cbv zeta.
  assert (answers 4
            (reachable
               (run_command Demo.int Demo.etl Demo.all_enabled
                  export_blocks_and_transactions_command Demo.day "/tmp/tmp0"
                  Sample.flaky_world).2) = true) as Hnet
    by (vm_compute; reflexivity).
  split; [vm_compute; reflexivity|].
  pose proof (retry_ends_as_a_first_run Demo.int Demo.etl Demo.all_enabled
                export_blocks_and_transactions_command Demo.day
                "/tmp/tmp0" "/tmp/tmp1" "/tmp/tmp2"
                Sample.flaky_world
                (run_command Demo.int Demo.etl Demo.all_enabled
                   export_blocks_and_transactions_command Demo.day "/tmp/tmp0"
                   Sample.flaky_world).2
                Demo.empty_world) as Hretry.
  cbv zeta in Hretry. exact (Hretry eq_refl Hnet eq_refl eq_refl).
Defined.

(** The receipts step after the blocks step, on the store it left. *)
Lemma producer_feeds_consumer_witness :
  let produced := run_command Demo.int Demo.etl Demo.all_enabled
                    export_blocks_and_transactions_command Demo.day "/tmp/tmp0"
                    Demo.empty_world in
  produced.1 = Ok tt /\
  exists k content,
    fetched_kind export_receipts_and_logs_command = Some k /\
    store produced.2 !! object_key Demo.all_enabled k Demo.day = Some content.
Proof.
  cbv zeta.
  assert ((run_command Demo.int Demo.etl Demo.all_enabled
             export_blocks_and_transactions_command Demo.day "/tmp/tmp0"
             Demo.empty_world).1 = Ok tt) as Hok
    by (vm_compute; reflexivity).
  split; [exact Hok|].
  pose proof (producer_feeds_consumer Demo.int Demo.etl Demo.all_enabled
                export_blocks_and_transactions_command export_receipts_and_logs_command
                Demo.day "/tmp/tmp0" "/tmp/tmp1" Demo.empty_world
                (run_command Demo.int Demo.etl Demo.all_enabled
                   export_blocks_and_transactions_command Demo.day "/tmp/tmp0"
                   Demo.empty_world).2) as Hfeeds.
  cbv zeta in Hfeeds.
  destruct Hfeeds as (k & content & Hk & _ & Hcontent & _);
    [apply list_elem_of_In; left; reflexivity | exact Hok | reflexivity |].
  exists k, content. auto.
Defined.

(** The blocks step and the traces step, which the graph leaves
    unordered, in both orders. *)
Lemma independent_runs_commute_witness :
  let one := run_command Demo.int Demo.etl Demo.all_enabled
               export_blocks_and_transactions_command Demo.day "/tmp/tmp0"
               Demo.empty_world in
  let one_two := run_command Demo.int Demo.etl Demo.all_enabled
                   export_traces_command Demo.day "/tmp/tmp1" one.2 in
  let two := run_command Demo.int Demo.etl Demo.all_enabled
               export_traces_command Demo.day "/tmp/tmp1" Demo.empty_world in
  let two_one := run_command Demo.int Demo.etl Demo.all_enabled
                   export_blocks_and_transactions_command Demo.day "/tmp/tmp0" two.2 in
  two_one.1 = one.1 /\ one_two.1 = two.1 /\ store one_two.2 = store two_one.2.
Proof.
  cbv zeta.
  apply (independent_runs_commute Demo.int Demo.etl Demo.all_enabled
           export_blocks_and_transactions_command Demo.day
           export_traces_command Demo.day "/tmp/tmp0" "/tmp/tmp1" Demo.empty_world).
  - intros key Hkey. now apply elem_of_nil in Hkey.
  - intros key Hkey. now apply elem_of_nil in Hkey.
  - intros key. apply writes_disjoint. discriminate.
  - reflexivity.
Defined.

(** The day 2021-03-01 on an empty bucket. *)
Lemma daily_run_completes_witness :
  never_fails Demo.int Demo.etl /\
  (daily_run Demo.int Demo.etl Demo.all_enabled Demo.day "/tmp/tmp0"
     Demo.empty_world).1 = Ok tt /\
  is_Some (store (daily_run Demo.int Demo.etl Demo.all_enabled Demo.day "/tmp/tmp0"
                    Demo.empty_world).2
           !! object_key Demo.all_enabled Tokens Demo.day).
Proof.
  assert (never_fails Demo.int Demo.etl) as Hunits.
  { unfold never_fails. split.
    - intros uri d. exists "100,200", "100", "200", 100, 200.
      repeat split; reflexivity.
    - repeat split; intros; eexists; reflexivity. }
  split; [exact Hunits|].
  destruct (daily_run_completes Demo.int Demo.etl Demo.all_enabled Hunits Demo.day
              "/tmp/tmp0" Demo.empty_world eq_refl eq_refl) as [Hok Hobjects].
  split; [exact Hok|]. apply Hobjects. eauto.
Defined.
